(** * The Render Engine: engine core, event bookkeeping and billboard cache

    A shallow embedding of three parts of The Render Engine:
    - [R.Engine] (the engine class): frame clock, identity registry, timer
      pool, default context, the search by id, lifecycle and the world timer;
    - [R.engine.BaseObject]: the per-object event bookkeeping
      ([addEvent] / [removeEvent]), [destroy] and the [jQ] wrapper;
    - [R.components.render.Billboard2D]: the render cache mode machine, over
      one pass and over a series of them.

    Millisecond timestamps and counters are integers, modelled as [Z].  Where
    the engine divides one integer by another and rounds ([Math.round(a / b)])
    the quotient is the exact one, computed over [Q].  A frame rate is a
    JavaScript number, a double that need not be an integer: it is given by
    its value, a rational, and the quotient [1000 / fps] is rounded to the
    nearest double before [Math.floor] sees it.

    Calls into collaborators (the console, timers, render contexts, shutdown
    callbacks, an object's own [destroy]) are recorded, in program order, in a
    trace.  A collaborator is taken to return normally, except where the
    source itself provides for a failure with [try]/[catch]. *)

From Stdlib Require Import ZArith QArith Qround Qabs Qpower List Bool Lia Lqa.
From stdpp Require Import base strings gmap list pretty.
Import ListNotations.
Open Scope Z_scope.

(** ** JavaScript helpers *)

(** [Math.round(a / b)] for integers [a] and [b]: the quotient rounded to the
    nearest integer, a tie going up. *)
Definition Math_round (x : Q) : Z := Qfloor (x + (1 # 2)).

(** [a / b] for integers [a] and [b], [b] not zero (JavaScript divides by
    zero into an infinity or NaN, which this model leaves out). *)
Definition js_div (a b : Z) : Q := (inject_Z a / inject_Z b)%Q.

(** *** Doubles *)

(** The nearest integer, a tie going to the even one. *)
Definition round_half_even (x : Q) : Z :=
  let n := Qfloor x in
  match (x - inject_Z n ?= 1 # 2)%Q with
  | Lt => n
  | Gt => n + 1
  | Eq => if Z.even n then n else n + 1
  end.

(** The binade of [x], not zero: the [e] with [2 ^ e <= |x| < 2 ^ (e + 1)]. *)
Definition binade (x : Q) : Z :=
  let e := Z.log2 (Z.abs (Qnum x)) - Z.log2 (Z.pos (Qden x)) in
  match (Qabs x ?= 2 ^ e)%Q with
  | Lt => e - 1
  | _ => e
  end.

(** [double x] is the double nearest to [x], as every arithmetic operation of
    JavaScript returns it: [x] rounded to 53 significant bits, a tie going to
    the even mantissa.  The exponent is not bounded: overflow to an infinity
    (a magnitude of [2 ^ 1024] and more) and gradual underflow (below
    [2 ^ -1022]) are left out. *)
Definition double (x : Q) : Q :=
  if Qeq_bool x 0 then 0%Q
  else
    let ulp := (2 ^ (binade x - 52))%Q in
    (inject_Z (round_half_even (x / ulp)) * ulp)%Q.

Module Engine.

(** ** Collaborators *)

(** A timer handle kept in the pool: [restart], [pause] and [cancel] are its
    own methods. *)
Definition Timer := nat.

(** A shutdown callback, known by its identity. *)
Definition Callback := nat.

(** Handles returned by [setTimeout]. *)
Definition Handle := nat.

(** A pooled object as the registry sees it: [getName()] and [getId()]. *)
Record PooledObject : Type := mkObject {
  getName : string;
  getId : option string
}.

Inductive RenderContext : Type :=
  | DocumentContext                 (* R.rendercontexts.DocumentContext.create() *)
  | CustomContext (ident : nat).    (* a context given to setDefaultContext *)

Inductive Level : Type := LOG | DEBUG | INFO | WARN.

(** The function a deferred callback will run. *)
Inductive Deferred : Type :=
  | CallEngineTimer     (* function _engineTimer() { R.Engine.engineTimer(); } *)
  | CallShutdown.       (* function() { R.Engine.shutdown(); } *)

(** A callback the browser is holding: [Some delay] for [setTimeout], [None]
    for a native animation frame request. *)
Record Pending : Type := mkPending {
  handle : Handle;
  delay : option Z;
  callback : Deferred
}.

Inductive Event : Type :=
  | Console (level : Level) (message : string)
  | ObjectDestroy (obj : PooledObject)              (* obj.destroy() *)
  | TimerRestart (name : string) (t : Timer)        (* timerPool[name].restart() *)
  | TimerPause (name : string) (t : Timer)          (* timerPool[name].pause() *)
  | TimerCancel (name : string) (t : Timer)         (* timerPool[name].cancel() *)
  | Invoke (fn : Callback)                          (* a shutdown callback is called *)
  | SetTimeout (h : Handle) (fn : Deferred) (ms : Z)
  | ClearTimeout (h : option Handle)
  | NativeFrame (fn : Deferred)
  | ContextCreate
  | ContextUpdate (ctx : RenderContext) (time dt : Z) (* ctx.update(null, time, dt) *)
  | ContextDestroy (ctx : RenderContext)
  | MetricDisplayRemove
  | DoMetrics
  | ObjectPoolDump                                  (* PooledObject.objectPool = null *)
  | LoadEngineScripts.

(** ** The engine's fields, and the browser around it *)

Record State : Type := mkState {
  idRef : Z;  (* Object reference Id *)
  timerPool : list (string * Timer);  (* Pool of running timers, in insertion order *)
  livingObjects : Z;  (* Count of live objects *)
  fpsClock : Z;  (* The clock rate (ms) *)
  FPS : option Z;  (* Calculated frames per second; None is undefined *)
  frameTime : Z;  (* Amount of time taken to render a frame *)
  defaultContext : option RenderContext;  (* The default rendering context *)
  debugMode : bool;  (* Global debug flag *)
  localMode : bool;  (* Local run flag *)
  started : bool;  (* Engine started flag *)
  running : bool;  (* Engine running flag *)
  shuttingDown : bool;  (* Engine is shutting down *)
  upTime : Z;  (* The startup time *)
  downTime : Z;  (* The shutdown time *)
  skipFrames : bool;  (* Skip missed frames *)
  totalFrames : Z;
  droppedFrames : Z;
  worldTime : Z;  (* The world time *)
  lastTime : Z;  (* The last timestamp the world was drawn *)
  liveTime : Z;  (* The alive time (worldTime-upTime) *)
  shutdownCallbacks : list Callback;  (* Methods to call when the engine is shutting down *)
  _pauseTime : Z;  (* created by run() and pause(); read only while stepping *)
  _stepOne : Z;  (* created by run() and step(); 1 while a single step is due *)
  globalTimer : option Handle;  (* handle of the pending engineTimer timeout *)
  nativeAnimationFrame : bool;  (* options.nativeAnimationFrame *)
  metricDisplay : bool;  (* whether a metric display is attached *)
  metricsLoaded : bool;  (* R.debug && R.debug.Metrics *)
  vObj : Z;
  rObjs : Z;
  loadedScripts : list string;
  scriptLoadCount : Z;
  scriptsProcessed : Z;
  trace : list Event;  (* calls made into collaborators, oldest first *)
  pending : list Pending;  (* callbacks the browser holds until their delay elapses *)
  nextHandle : Handle;  (* next handle setTimeout hands out *)
  reads : nat  (* number of clock readings taken so far *)
}.

(** Field updates: [set_f v s] is [s] after the assignment [R.Engine.f = v]. *)

Definition set_idRef (v : Z) (s : State) : State :=
  {| idRef := v; timerPool := timerPool s; livingObjects := livingObjects s;
     fpsClock := fpsClock s; FPS := FPS s; frameTime := frameTime s;
     defaultContext := defaultContext s; debugMode := debugMode s; localMode := localMode s;
     started := started s; running := running s; shuttingDown := shuttingDown s;
     upTime := upTime s; downTime := downTime s; skipFrames := skipFrames s;
     totalFrames := totalFrames s; droppedFrames := droppedFrames s; worldTime := worldTime s;
     lastTime := lastTime s; liveTime := liveTime s; shutdownCallbacks := shutdownCallbacks s;
     _pauseTime := _pauseTime s; _stepOne := _stepOne s; globalTimer := globalTimer s;
     nativeAnimationFrame := nativeAnimationFrame s; metricDisplay := metricDisplay s;
     metricsLoaded := metricsLoaded s; vObj := vObj s; rObjs := rObjs s;
     loadedScripts := loadedScripts s; scriptLoadCount := scriptLoadCount s;
     scriptsProcessed := scriptsProcessed s; trace := trace s; pending := pending s;
     nextHandle := nextHandle s; reads := reads s |}.

Definition set_timerPool (v : list (string * Timer)) (s : State) : State :=
  {| idRef := idRef s; timerPool := v; livingObjects := livingObjects s; fpsClock := fpsClock s;
     FPS := FPS s; frameTime := frameTime s; defaultContext := defaultContext s;
     debugMode := debugMode s; localMode := localMode s; started := started s;
     running := running s; shuttingDown := shuttingDown s; upTime := upTime s;
     downTime := downTime s; skipFrames := skipFrames s; totalFrames := totalFrames s;
     droppedFrames := droppedFrames s; worldTime := worldTime s; lastTime := lastTime s;
     liveTime := liveTime s; shutdownCallbacks := shutdownCallbacks s; _pauseTime := _pauseTime s;
     _stepOne := _stepOne s; globalTimer := globalTimer s;
     nativeAnimationFrame := nativeAnimationFrame s; metricDisplay := metricDisplay s;
     metricsLoaded := metricsLoaded s; vObj := vObj s; rObjs := rObjs s;
     loadedScripts := loadedScripts s; scriptLoadCount := scriptLoadCount s;
     scriptsProcessed := scriptsProcessed s; trace := trace s; pending := pending s;
     nextHandle := nextHandle s; reads := reads s |}.

Definition set_livingObjects (v : Z) (s : State) : State :=
  {| idRef := idRef s; timerPool := timerPool s; livingObjects := v; fpsClock := fpsClock s;
     FPS := FPS s; frameTime := frameTime s; defaultContext := defaultContext s;
     debugMode := debugMode s; localMode := localMode s; started := started s;
     running := running s; shuttingDown := shuttingDown s; upTime := upTime s;
     downTime := downTime s; skipFrames := skipFrames s; totalFrames := totalFrames s;
     droppedFrames := droppedFrames s; worldTime := worldTime s; lastTime := lastTime s;
     liveTime := liveTime s; shutdownCallbacks := shutdownCallbacks s; _pauseTime := _pauseTime s;
     _stepOne := _stepOne s; globalTimer := globalTimer s;
     nativeAnimationFrame := nativeAnimationFrame s; metricDisplay := metricDisplay s;
     metricsLoaded := metricsLoaded s; vObj := vObj s; rObjs := rObjs s;
     loadedScripts := loadedScripts s; scriptLoadCount := scriptLoadCount s;
     scriptsProcessed := scriptsProcessed s; trace := trace s; pending := pending s;
     nextHandle := nextHandle s; reads := reads s |}.

Definition set_fpsClock (v : Z) (s : State) : State :=
  {| idRef := idRef s; timerPool := timerPool s; livingObjects := livingObjects s; fpsClock := v;
     FPS := FPS s; frameTime := frameTime s; defaultContext := defaultContext s;
     debugMode := debugMode s; localMode := localMode s; started := started s;
     running := running s; shuttingDown := shuttingDown s; upTime := upTime s;
     downTime := downTime s; skipFrames := skipFrames s; totalFrames := totalFrames s;
     droppedFrames := droppedFrames s; worldTime := worldTime s; lastTime := lastTime s;
     liveTime := liveTime s; shutdownCallbacks := shutdownCallbacks s; _pauseTime := _pauseTime s;
     _stepOne := _stepOne s; globalTimer := globalTimer s;
     nativeAnimationFrame := nativeAnimationFrame s; metricDisplay := metricDisplay s;
     metricsLoaded := metricsLoaded s; vObj := vObj s; rObjs := rObjs s;
     loadedScripts := loadedScripts s; scriptLoadCount := scriptLoadCount s;
     scriptsProcessed := scriptsProcessed s; trace := trace s; pending := pending s;
     nextHandle := nextHandle s; reads := reads s |}.

Definition set_FPS (v : option Z) (s : State) : State :=
  {| idRef := idRef s; timerPool := timerPool s; livingObjects := livingObjects s;
     fpsClock := fpsClock s; FPS := v; frameTime := frameTime s;
     defaultContext := defaultContext s; debugMode := debugMode s; localMode := localMode s;
     started := started s; running := running s; shuttingDown := shuttingDown s;
     upTime := upTime s; downTime := downTime s; skipFrames := skipFrames s;
     totalFrames := totalFrames s; droppedFrames := droppedFrames s; worldTime := worldTime s;
     lastTime := lastTime s; liveTime := liveTime s; shutdownCallbacks := shutdownCallbacks s;
     _pauseTime := _pauseTime s; _stepOne := _stepOne s; globalTimer := globalTimer s;
     nativeAnimationFrame := nativeAnimationFrame s; metricDisplay := metricDisplay s;
     metricsLoaded := metricsLoaded s; vObj := vObj s; rObjs := rObjs s;
     loadedScripts := loadedScripts s; scriptLoadCount := scriptLoadCount s;
     scriptsProcessed := scriptsProcessed s; trace := trace s; pending := pending s;
     nextHandle := nextHandle s; reads := reads s |}.

Definition set_frameTime (v : Z) (s : State) : State :=
  {| idRef := idRef s; timerPool := timerPool s; livingObjects := livingObjects s;
     fpsClock := fpsClock s; FPS := FPS s; frameTime := v; defaultContext := defaultContext s;
     debugMode := debugMode s; localMode := localMode s; started := started s;
     running := running s; shuttingDown := shuttingDown s; upTime := upTime s;
     downTime := downTime s; skipFrames := skipFrames s; totalFrames := totalFrames s;
     droppedFrames := droppedFrames s; worldTime := worldTime s; lastTime := lastTime s;
     liveTime := liveTime s; shutdownCallbacks := shutdownCallbacks s; _pauseTime := _pauseTime s;
     _stepOne := _stepOne s; globalTimer := globalTimer s;
     nativeAnimationFrame := nativeAnimationFrame s; metricDisplay := metricDisplay s;
     metricsLoaded := metricsLoaded s; vObj := vObj s; rObjs := rObjs s;
     loadedScripts := loadedScripts s; scriptLoadCount := scriptLoadCount s;
     scriptsProcessed := scriptsProcessed s; trace := trace s; pending := pending s;
     nextHandle := nextHandle s; reads := reads s |}.

Definition set_defaultContext (v : option RenderContext) (s : State) : State :=
  {| idRef := idRef s; timerPool := timerPool s; livingObjects := livingObjects s;
     fpsClock := fpsClock s; FPS := FPS s; frameTime := frameTime s; defaultContext := v;
     debugMode := debugMode s; localMode := localMode s; started := started s;
     running := running s; shuttingDown := shuttingDown s; upTime := upTime s;
     downTime := downTime s; skipFrames := skipFrames s; totalFrames := totalFrames s;
     droppedFrames := droppedFrames s; worldTime := worldTime s; lastTime := lastTime s;
     liveTime := liveTime s; shutdownCallbacks := shutdownCallbacks s; _pauseTime := _pauseTime s;
     _stepOne := _stepOne s; globalTimer := globalTimer s;
     nativeAnimationFrame := nativeAnimationFrame s; metricDisplay := metricDisplay s;
     metricsLoaded := metricsLoaded s; vObj := vObj s; rObjs := rObjs s;
     loadedScripts := loadedScripts s; scriptLoadCount := scriptLoadCount s;
     scriptsProcessed := scriptsProcessed s; trace := trace s; pending := pending s;
     nextHandle := nextHandle s; reads := reads s |}.

Definition set_started (v : bool) (s : State) : State :=
  {| idRef := idRef s; timerPool := timerPool s; livingObjects := livingObjects s;
     fpsClock := fpsClock s; FPS := FPS s; frameTime := frameTime s;
     defaultContext := defaultContext s; debugMode := debugMode s; localMode := localMode s;
     started := v; running := running s; shuttingDown := shuttingDown s; upTime := upTime s;
     downTime := downTime s; skipFrames := skipFrames s; totalFrames := totalFrames s;
     droppedFrames := droppedFrames s; worldTime := worldTime s; lastTime := lastTime s;
     liveTime := liveTime s; shutdownCallbacks := shutdownCallbacks s; _pauseTime := _pauseTime s;
     _stepOne := _stepOne s; globalTimer := globalTimer s;
     nativeAnimationFrame := nativeAnimationFrame s; metricDisplay := metricDisplay s;
     metricsLoaded := metricsLoaded s; vObj := vObj s; rObjs := rObjs s;
     loadedScripts := loadedScripts s; scriptLoadCount := scriptLoadCount s;
     scriptsProcessed := scriptsProcessed s; trace := trace s; pending := pending s;
     nextHandle := nextHandle s; reads := reads s |}.

Definition set_running (v : bool) (s : State) : State :=
  {| idRef := idRef s; timerPool := timerPool s; livingObjects := livingObjects s;
     fpsClock := fpsClock s; FPS := FPS s; frameTime := frameTime s;
     defaultContext := defaultContext s; debugMode := debugMode s; localMode := localMode s;
     started := started s; running := v; shuttingDown := shuttingDown s; upTime := upTime s;
     downTime := downTime s; skipFrames := skipFrames s; totalFrames := totalFrames s;
     droppedFrames := droppedFrames s; worldTime := worldTime s; lastTime := lastTime s;
     liveTime := liveTime s; shutdownCallbacks := shutdownCallbacks s; _pauseTime := _pauseTime s;
     _stepOne := _stepOne s; globalTimer := globalTimer s;
     nativeAnimationFrame := nativeAnimationFrame s; metricDisplay := metricDisplay s;
     metricsLoaded := metricsLoaded s; vObj := vObj s; rObjs := rObjs s;
     loadedScripts := loadedScripts s; scriptLoadCount := scriptLoadCount s;
     scriptsProcessed := scriptsProcessed s; trace := trace s; pending := pending s;
     nextHandle := nextHandle s; reads := reads s |}.

Definition set_shuttingDown (v : bool) (s : State) : State :=
  {| idRef := idRef s; timerPool := timerPool s; livingObjects := livingObjects s;
     fpsClock := fpsClock s; FPS := FPS s; frameTime := frameTime s;
     defaultContext := defaultContext s; debugMode := debugMode s; localMode := localMode s;
     started := started s; running := running s; shuttingDown := v; upTime := upTime s;
     downTime := downTime s; skipFrames := skipFrames s; totalFrames := totalFrames s;
     droppedFrames := droppedFrames s; worldTime := worldTime s; lastTime := lastTime s;
     liveTime := liveTime s; shutdownCallbacks := shutdownCallbacks s; _pauseTime := _pauseTime s;
     _stepOne := _stepOne s; globalTimer := globalTimer s;
     nativeAnimationFrame := nativeAnimationFrame s; metricDisplay := metricDisplay s;
     metricsLoaded := metricsLoaded s; vObj := vObj s; rObjs := rObjs s;
     loadedScripts := loadedScripts s; scriptLoadCount := scriptLoadCount s;
     scriptsProcessed := scriptsProcessed s; trace := trace s; pending := pending s;
     nextHandle := nextHandle s; reads := reads s |}.

Definition set_upTime (v : Z) (s : State) : State :=
  {| idRef := idRef s; timerPool := timerPool s; livingObjects := livingObjects s;
     fpsClock := fpsClock s; FPS := FPS s; frameTime := frameTime s;
     defaultContext := defaultContext s; debugMode := debugMode s; localMode := localMode s;
     started := started s; running := running s; shuttingDown := shuttingDown s; upTime := v;
     downTime := downTime s; skipFrames := skipFrames s; totalFrames := totalFrames s;
     droppedFrames := droppedFrames s; worldTime := worldTime s; lastTime := lastTime s;
     liveTime := liveTime s; shutdownCallbacks := shutdownCallbacks s; _pauseTime := _pauseTime s;
     _stepOne := _stepOne s; globalTimer := globalTimer s;
     nativeAnimationFrame := nativeAnimationFrame s; metricDisplay := metricDisplay s;
     metricsLoaded := metricsLoaded s; vObj := vObj s; rObjs := rObjs s;
     loadedScripts := loadedScripts s; scriptLoadCount := scriptLoadCount s;
     scriptsProcessed := scriptsProcessed s; trace := trace s; pending := pending s;
     nextHandle := nextHandle s; reads := reads s |}.

Definition set_downTime (v : Z) (s : State) : State :=
  {| idRef := idRef s; timerPool := timerPool s; livingObjects := livingObjects s;
     fpsClock := fpsClock s; FPS := FPS s; frameTime := frameTime s;
     defaultContext := defaultContext s; debugMode := debugMode s; localMode := localMode s;
     started := started s; running := running s; shuttingDown := shuttingDown s;
     upTime := upTime s; downTime := v; skipFrames := skipFrames s; totalFrames := totalFrames s;
     droppedFrames := droppedFrames s; worldTime := worldTime s; lastTime := lastTime s;
     liveTime := liveTime s; shutdownCallbacks := shutdownCallbacks s; _pauseTime := _pauseTime s;
     _stepOne := _stepOne s; globalTimer := globalTimer s;
     nativeAnimationFrame := nativeAnimationFrame s; metricDisplay := metricDisplay s;
     metricsLoaded := metricsLoaded s; vObj := vObj s; rObjs := rObjs s;
     loadedScripts := loadedScripts s; scriptLoadCount := scriptLoadCount s;
     scriptsProcessed := scriptsProcessed s; trace := trace s; pending := pending s;
     nextHandle := nextHandle s; reads := reads s |}.

Definition set_totalFrames (v : Z) (s : State) : State :=
  {| idRef := idRef s; timerPool := timerPool s; livingObjects := livingObjects s;
     fpsClock := fpsClock s; FPS := FPS s; frameTime := frameTime s;
     defaultContext := defaultContext s; debugMode := debugMode s; localMode := localMode s;
     started := started s; running := running s; shuttingDown := shuttingDown s;
     upTime := upTime s; downTime := downTime s; skipFrames := skipFrames s; totalFrames := v;
     droppedFrames := droppedFrames s; worldTime := worldTime s; lastTime := lastTime s;
     liveTime := liveTime s; shutdownCallbacks := shutdownCallbacks s; _pauseTime := _pauseTime s;
     _stepOne := _stepOne s; globalTimer := globalTimer s;
     nativeAnimationFrame := nativeAnimationFrame s; metricDisplay := metricDisplay s;
     metricsLoaded := metricsLoaded s; vObj := vObj s; rObjs := rObjs s;
     loadedScripts := loadedScripts s; scriptLoadCount := scriptLoadCount s;
     scriptsProcessed := scriptsProcessed s; trace := trace s; pending := pending s;
     nextHandle := nextHandle s; reads := reads s |}.

Definition set_droppedFrames (v : Z) (s : State) : State :=
  {| idRef := idRef s; timerPool := timerPool s; livingObjects := livingObjects s;
     fpsClock := fpsClock s; FPS := FPS s; frameTime := frameTime s;
     defaultContext := defaultContext s; debugMode := debugMode s; localMode := localMode s;
     started := started s; running := running s; shuttingDown := shuttingDown s;
     upTime := upTime s; downTime := downTime s; skipFrames := skipFrames s;
     totalFrames := totalFrames s; droppedFrames := v; worldTime := worldTime s;
     lastTime := lastTime s; liveTime := liveTime s; shutdownCallbacks := shutdownCallbacks s;
     _pauseTime := _pauseTime s; _stepOne := _stepOne s; globalTimer := globalTimer s;
     nativeAnimationFrame := nativeAnimationFrame s; metricDisplay := metricDisplay s;
     metricsLoaded := metricsLoaded s; vObj := vObj s; rObjs := rObjs s;
     loadedScripts := loadedScripts s; scriptLoadCount := scriptLoadCount s;
     scriptsProcessed := scriptsProcessed s; trace := trace s; pending := pending s;
     nextHandle := nextHandle s; reads := reads s |}.

Definition set_worldTime (v : Z) (s : State) : State :=
  {| idRef := idRef s; timerPool := timerPool s; livingObjects := livingObjects s;
     fpsClock := fpsClock s; FPS := FPS s; frameTime := frameTime s;
     defaultContext := defaultContext s; debugMode := debugMode s; localMode := localMode s;
     started := started s; running := running s; shuttingDown := shuttingDown s;
     upTime := upTime s; downTime := downTime s; skipFrames := skipFrames s;
     totalFrames := totalFrames s; droppedFrames := droppedFrames s; worldTime := v;
     lastTime := lastTime s; liveTime := liveTime s; shutdownCallbacks := shutdownCallbacks s;
     _pauseTime := _pauseTime s; _stepOne := _stepOne s; globalTimer := globalTimer s;
     nativeAnimationFrame := nativeAnimationFrame s; metricDisplay := metricDisplay s;
     metricsLoaded := metricsLoaded s; vObj := vObj s; rObjs := rObjs s;
     loadedScripts := loadedScripts s; scriptLoadCount := scriptLoadCount s;
     scriptsProcessed := scriptsProcessed s; trace := trace s; pending := pending s;
     nextHandle := nextHandle s; reads := reads s |}.

Definition set_lastTime (v : Z) (s : State) : State :=
  {| idRef := idRef s; timerPool := timerPool s; livingObjects := livingObjects s;
     fpsClock := fpsClock s; FPS := FPS s; frameTime := frameTime s;
     defaultContext := defaultContext s; debugMode := debugMode s; localMode := localMode s;
     started := started s; running := running s; shuttingDown := shuttingDown s;
     upTime := upTime s; downTime := downTime s; skipFrames := skipFrames s;
     totalFrames := totalFrames s; droppedFrames := droppedFrames s; worldTime := worldTime s;
     lastTime := v; liveTime := liveTime s; shutdownCallbacks := shutdownCallbacks s;
     _pauseTime := _pauseTime s; _stepOne := _stepOne s; globalTimer := globalTimer s;
     nativeAnimationFrame := nativeAnimationFrame s; metricDisplay := metricDisplay s;
     metricsLoaded := metricsLoaded s; vObj := vObj s; rObjs := rObjs s;
     loadedScripts := loadedScripts s; scriptLoadCount := scriptLoadCount s;
     scriptsProcessed := scriptsProcessed s; trace := trace s; pending := pending s;
     nextHandle := nextHandle s; reads := reads s |}.

Definition set_liveTime (v : Z) (s : State) : State :=
  {| idRef := idRef s; timerPool := timerPool s; livingObjects := livingObjects s;
     fpsClock := fpsClock s; FPS := FPS s; frameTime := frameTime s;
     defaultContext := defaultContext s; debugMode := debugMode s; localMode := localMode s;
     started := started s; running := running s; shuttingDown := shuttingDown s;
     upTime := upTime s; downTime := downTime s; skipFrames := skipFrames s;
     totalFrames := totalFrames s; droppedFrames := droppedFrames s; worldTime := worldTime s;
     lastTime := lastTime s; liveTime := v; shutdownCallbacks := shutdownCallbacks s;
     _pauseTime := _pauseTime s; _stepOne := _stepOne s; globalTimer := globalTimer s;
     nativeAnimationFrame := nativeAnimationFrame s; metricDisplay := metricDisplay s;
     metricsLoaded := metricsLoaded s; vObj := vObj s; rObjs := rObjs s;
     loadedScripts := loadedScripts s; scriptLoadCount := scriptLoadCount s;
     scriptsProcessed := scriptsProcessed s; trace := trace s; pending := pending s;
     nextHandle := nextHandle s; reads := reads s |}.

Definition set_shutdownCallbacks (v : list Callback) (s : State) : State :=
  {| idRef := idRef s; timerPool := timerPool s; livingObjects := livingObjects s;
     fpsClock := fpsClock s; FPS := FPS s; frameTime := frameTime s;
     defaultContext := defaultContext s; debugMode := debugMode s; localMode := localMode s;
     started := started s; running := running s; shuttingDown := shuttingDown s;
     upTime := upTime s; downTime := downTime s; skipFrames := skipFrames s;
     totalFrames := totalFrames s; droppedFrames := droppedFrames s; worldTime := worldTime s;
     lastTime := lastTime s; liveTime := liveTime s; shutdownCallbacks := v;
     _pauseTime := _pauseTime s; _stepOne := _stepOne s; globalTimer := globalTimer s;
     nativeAnimationFrame := nativeAnimationFrame s; metricDisplay := metricDisplay s;
     metricsLoaded := metricsLoaded s; vObj := vObj s; rObjs := rObjs s;
     loadedScripts := loadedScripts s; scriptLoadCount := scriptLoadCount s;
     scriptsProcessed := scriptsProcessed s; trace := trace s; pending := pending s;
     nextHandle := nextHandle s; reads := reads s |}.

Definition set_pauseTime (v : Z) (s : State) : State :=
  {| idRef := idRef s; timerPool := timerPool s; livingObjects := livingObjects s;
     fpsClock := fpsClock s; FPS := FPS s; frameTime := frameTime s;
     defaultContext := defaultContext s; debugMode := debugMode s; localMode := localMode s;
     started := started s; running := running s; shuttingDown := shuttingDown s;
     upTime := upTime s; downTime := downTime s; skipFrames := skipFrames s;
     totalFrames := totalFrames s; droppedFrames := droppedFrames s; worldTime := worldTime s;
     lastTime := lastTime s; liveTime := liveTime s; shutdownCallbacks := shutdownCallbacks s;
     _pauseTime := v; _stepOne := _stepOne s; globalTimer := globalTimer s;
     nativeAnimationFrame := nativeAnimationFrame s; metricDisplay := metricDisplay s;
     metricsLoaded := metricsLoaded s; vObj := vObj s; rObjs := rObjs s;
     loadedScripts := loadedScripts s; scriptLoadCount := scriptLoadCount s;
     scriptsProcessed := scriptsProcessed s; trace := trace s; pending := pending s;
     nextHandle := nextHandle s; reads := reads s |}.

Definition set_stepOne (v : Z) (s : State) : State :=
  {| idRef := idRef s; timerPool := timerPool s; livingObjects := livingObjects s;
     fpsClock := fpsClock s; FPS := FPS s; frameTime := frameTime s;
     defaultContext := defaultContext s; debugMode := debugMode s; localMode := localMode s;
     started := started s; running := running s; shuttingDown := shuttingDown s;
     upTime := upTime s; downTime := downTime s; skipFrames := skipFrames s;
     totalFrames := totalFrames s; droppedFrames := droppedFrames s; worldTime := worldTime s;
     lastTime := lastTime s; liveTime := liveTime s; shutdownCallbacks := shutdownCallbacks s;
     _pauseTime := _pauseTime s; _stepOne := v; globalTimer := globalTimer s;
     nativeAnimationFrame := nativeAnimationFrame s; metricDisplay := metricDisplay s;
     metricsLoaded := metricsLoaded s; vObj := vObj s; rObjs := rObjs s;
     loadedScripts := loadedScripts s; scriptLoadCount := scriptLoadCount s;
     scriptsProcessed := scriptsProcessed s; trace := trace s; pending := pending s;
     nextHandle := nextHandle s; reads := reads s |}.

Definition set_globalTimer (v : option Handle) (s : State) : State :=
  {| idRef := idRef s; timerPool := timerPool s; livingObjects := livingObjects s;
     fpsClock := fpsClock s; FPS := FPS s; frameTime := frameTime s;
     defaultContext := defaultContext s; debugMode := debugMode s; localMode := localMode s;
     started := started s; running := running s; shuttingDown := shuttingDown s;
     upTime := upTime s; downTime := downTime s; skipFrames := skipFrames s;
     totalFrames := totalFrames s; droppedFrames := droppedFrames s; worldTime := worldTime s;
     lastTime := lastTime s; liveTime := liveTime s; shutdownCallbacks := shutdownCallbacks s;
     _pauseTime := _pauseTime s; _stepOne := _stepOne s; globalTimer := v;
     nativeAnimationFrame := nativeAnimationFrame s; metricDisplay := metricDisplay s;
     metricsLoaded := metricsLoaded s; vObj := vObj s; rObjs := rObjs s;
     loadedScripts := loadedScripts s; scriptLoadCount := scriptLoadCount s;
     scriptsProcessed := scriptsProcessed s; trace := trace s; pending := pending s;
     nextHandle := nextHandle s; reads := reads s |}.

Definition set_metricDisplay (v : bool) (s : State) : State :=
  {| idRef := idRef s; timerPool := timerPool s; livingObjects := livingObjects s;
     fpsClock := fpsClock s; FPS := FPS s; frameTime := frameTime s;
     defaultContext := defaultContext s; debugMode := debugMode s; localMode := localMode s;
     started := started s; running := running s; shuttingDown := shuttingDown s;
     upTime := upTime s; downTime := downTime s; skipFrames := skipFrames s;
     totalFrames := totalFrames s; droppedFrames := droppedFrames s; worldTime := worldTime s;
     lastTime := lastTime s; liveTime := liveTime s; shutdownCallbacks := shutdownCallbacks s;
     _pauseTime := _pauseTime s; _stepOne := _stepOne s; globalTimer := globalTimer s;
     nativeAnimationFrame := nativeAnimationFrame s; metricDisplay := v;
     metricsLoaded := metricsLoaded s; vObj := vObj s; rObjs := rObjs s;
     loadedScripts := loadedScripts s; scriptLoadCount := scriptLoadCount s;
     scriptsProcessed := scriptsProcessed s; trace := trace s; pending := pending s;
     nextHandle := nextHandle s; reads := reads s |}.

Definition set_vObj (v : Z) (s : State) : State :=
  {| idRef := idRef s; timerPool := timerPool s; livingObjects := livingObjects s;
     fpsClock := fpsClock s; FPS := FPS s; frameTime := frameTime s;
     defaultContext := defaultContext s; debugMode := debugMode s; localMode := localMode s;
     started := started s; running := running s; shuttingDown := shuttingDown s;
     upTime := upTime s; downTime := downTime s; skipFrames := skipFrames s;
     totalFrames := totalFrames s; droppedFrames := droppedFrames s; worldTime := worldTime s;
     lastTime := lastTime s; liveTime := liveTime s; shutdownCallbacks := shutdownCallbacks s;
     _pauseTime := _pauseTime s; _stepOne := _stepOne s; globalTimer := globalTimer s;
     nativeAnimationFrame := nativeAnimationFrame s; metricDisplay := metricDisplay s;
     metricsLoaded := metricsLoaded s; vObj := v; rObjs := rObjs s;
     loadedScripts := loadedScripts s; scriptLoadCount := scriptLoadCount s;
     scriptsProcessed := scriptsProcessed s; trace := trace s; pending := pending s;
     nextHandle := nextHandle s; reads := reads s |}.

Definition set_rObjs (v : Z) (s : State) : State :=
  {| idRef := idRef s; timerPool := timerPool s; livingObjects := livingObjects s;
     fpsClock := fpsClock s; FPS := FPS s; frameTime := frameTime s;
     defaultContext := defaultContext s; debugMode := debugMode s; localMode := localMode s;
     started := started s; running := running s; shuttingDown := shuttingDown s;
     upTime := upTime s; downTime := downTime s; skipFrames := skipFrames s;
     totalFrames := totalFrames s; droppedFrames := droppedFrames s; worldTime := worldTime s;
     lastTime := lastTime s; liveTime := liveTime s; shutdownCallbacks := shutdownCallbacks s;
     _pauseTime := _pauseTime s; _stepOne := _stepOne s; globalTimer := globalTimer s;
     nativeAnimationFrame := nativeAnimationFrame s; metricDisplay := metricDisplay s;
     metricsLoaded := metricsLoaded s; vObj := vObj s; rObjs := v;
     loadedScripts := loadedScripts s; scriptLoadCount := scriptLoadCount s;
     scriptsProcessed := scriptsProcessed s; trace := trace s; pending := pending s;
     nextHandle := nextHandle s; reads := reads s |}.

Definition set_loadedScripts (v : list string) (s : State) : State :=
  {| idRef := idRef s; timerPool := timerPool s; livingObjects := livingObjects s;
     fpsClock := fpsClock s; FPS := FPS s; frameTime := frameTime s;
     defaultContext := defaultContext s; debugMode := debugMode s; localMode := localMode s;
     started := started s; running := running s; shuttingDown := shuttingDown s;
     upTime := upTime s; downTime := downTime s; skipFrames := skipFrames s;
     totalFrames := totalFrames s; droppedFrames := droppedFrames s; worldTime := worldTime s;
     lastTime := lastTime s; liveTime := liveTime s; shutdownCallbacks := shutdownCallbacks s;
     _pauseTime := _pauseTime s; _stepOne := _stepOne s; globalTimer := globalTimer s;
     nativeAnimationFrame := nativeAnimationFrame s; metricDisplay := metricDisplay s;
     metricsLoaded := metricsLoaded s; vObj := vObj s; rObjs := rObjs s; loadedScripts := v;
     scriptLoadCount := scriptLoadCount s; scriptsProcessed := scriptsProcessed s;
     trace := trace s; pending := pending s; nextHandle := nextHandle s; reads := reads s |}.

Definition set_scriptLoadCount (v : Z) (s : State) : State :=
  {| idRef := idRef s; timerPool := timerPool s; livingObjects := livingObjects s;
     fpsClock := fpsClock s; FPS := FPS s; frameTime := frameTime s;
     defaultContext := defaultContext s; debugMode := debugMode s; localMode := localMode s;
     started := started s; running := running s; shuttingDown := shuttingDown s;
     upTime := upTime s; downTime := downTime s; skipFrames := skipFrames s;
     totalFrames := totalFrames s; droppedFrames := droppedFrames s; worldTime := worldTime s;
     lastTime := lastTime s; liveTime := liveTime s; shutdownCallbacks := shutdownCallbacks s;
     _pauseTime := _pauseTime s; _stepOne := _stepOne s; globalTimer := globalTimer s;
     nativeAnimationFrame := nativeAnimationFrame s; metricDisplay := metricDisplay s;
     metricsLoaded := metricsLoaded s; vObj := vObj s; rObjs := rObjs s;
     loadedScripts := loadedScripts s; scriptLoadCount := v;
     scriptsProcessed := scriptsProcessed s; trace := trace s; pending := pending s;
     nextHandle := nextHandle s; reads := reads s |}.

Definition set_scriptsProcessed (v : Z) (s : State) : State :=
  {| idRef := idRef s; timerPool := timerPool s; livingObjects := livingObjects s;
     fpsClock := fpsClock s; FPS := FPS s; frameTime := frameTime s;
     defaultContext := defaultContext s; debugMode := debugMode s; localMode := localMode s;
     started := started s; running := running s; shuttingDown := shuttingDown s;
     upTime := upTime s; downTime := downTime s; skipFrames := skipFrames s;
     totalFrames := totalFrames s; droppedFrames := droppedFrames s; worldTime := worldTime s;
     lastTime := lastTime s; liveTime := liveTime s; shutdownCallbacks := shutdownCallbacks s;
     _pauseTime := _pauseTime s; _stepOne := _stepOne s; globalTimer := globalTimer s;
     nativeAnimationFrame := nativeAnimationFrame s; metricDisplay := metricDisplay s;
     metricsLoaded := metricsLoaded s; vObj := vObj s; rObjs := rObjs s;
     loadedScripts := loadedScripts s; scriptLoadCount := scriptLoadCount s; scriptsProcessed := v;
     trace := trace s; pending := pending s; nextHandle := nextHandle s; reads := reads s |}.

Definition set_trace (v : list Event) (s : State) : State :=
  {| idRef := idRef s; timerPool := timerPool s; livingObjects := livingObjects s;
     fpsClock := fpsClock s; FPS := FPS s; frameTime := frameTime s;
     defaultContext := defaultContext s; debugMode := debugMode s; localMode := localMode s;
     started := started s; running := running s; shuttingDown := shuttingDown s;
     upTime := upTime s; downTime := downTime s; skipFrames := skipFrames s;
     totalFrames := totalFrames s; droppedFrames := droppedFrames s; worldTime := worldTime s;
     lastTime := lastTime s; liveTime := liveTime s; shutdownCallbacks := shutdownCallbacks s;
     _pauseTime := _pauseTime s; _stepOne := _stepOne s; globalTimer := globalTimer s;
     nativeAnimationFrame := nativeAnimationFrame s; metricDisplay := metricDisplay s;
     metricsLoaded := metricsLoaded s; vObj := vObj s; rObjs := rObjs s;
     loadedScripts := loadedScripts s; scriptLoadCount := scriptLoadCount s;
     scriptsProcessed := scriptsProcessed s; trace := v; pending := pending s;
     nextHandle := nextHandle s; reads := reads s |}.

Definition set_pending (v : list Pending) (s : State) : State :=
  {| idRef := idRef s; timerPool := timerPool s; livingObjects := livingObjects s;
     fpsClock := fpsClock s; FPS := FPS s; frameTime := frameTime s;
     defaultContext := defaultContext s; debugMode := debugMode s; localMode := localMode s;
     started := started s; running := running s; shuttingDown := shuttingDown s;
     upTime := upTime s; downTime := downTime s; skipFrames := skipFrames s;
     totalFrames := totalFrames s; droppedFrames := droppedFrames s; worldTime := worldTime s;
     lastTime := lastTime s; liveTime := liveTime s; shutdownCallbacks := shutdownCallbacks s;
     _pauseTime := _pauseTime s; _stepOne := _stepOne s; globalTimer := globalTimer s;
     nativeAnimationFrame := nativeAnimationFrame s; metricDisplay := metricDisplay s;
     metricsLoaded := metricsLoaded s; vObj := vObj s; rObjs := rObjs s;
     loadedScripts := loadedScripts s; scriptLoadCount := scriptLoadCount s;
     scriptsProcessed := scriptsProcessed s; trace := trace s; pending := v;
     nextHandle := nextHandle s; reads := reads s |}.

Definition set_nextHandle (v : Handle) (s : State) : State :=
  {| idRef := idRef s; timerPool := timerPool s; livingObjects := livingObjects s;
     fpsClock := fpsClock s; FPS := FPS s; frameTime := frameTime s;
     defaultContext := defaultContext s; debugMode := debugMode s; localMode := localMode s;
     started := started s; running := running s; shuttingDown := shuttingDown s;
     upTime := upTime s; downTime := downTime s; skipFrames := skipFrames s;
     totalFrames := totalFrames s; droppedFrames := droppedFrames s; worldTime := worldTime s;
     lastTime := lastTime s; liveTime := liveTime s; shutdownCallbacks := shutdownCallbacks s;
     _pauseTime := _pauseTime s; _stepOne := _stepOne s; globalTimer := globalTimer s;
     nativeAnimationFrame := nativeAnimationFrame s; metricDisplay := metricDisplay s;
     metricsLoaded := metricsLoaded s; vObj := vObj s; rObjs := rObjs s;
     loadedScripts := loadedScripts s; scriptLoadCount := scriptLoadCount s;
     scriptsProcessed := scriptsProcessed s; trace := trace s; pending := pending s;
     nextHandle := v; reads := reads s |}.

Definition set_reads (v : nat) (s : State) : State :=
  {| idRef := idRef s; timerPool := timerPool s; livingObjects := livingObjects s;
     fpsClock := fpsClock s; FPS := FPS s; frameTime := frameTime s;
     defaultContext := defaultContext s; debugMode := debugMode s; localMode := localMode s;
     started := started s; running := running s; shuttingDown := shuttingDown s;
     upTime := upTime s; downTime := downTime s; skipFrames := skipFrames s;
     totalFrames := totalFrames s; droppedFrames := droppedFrames s; worldTime := worldTime s;
     lastTime := lastTime s; liveTime := liveTime s; shutdownCallbacks := shutdownCallbacks s;
     _pauseTime := _pauseTime s; _stepOne := _stepOne s; globalTimer := globalTimer s;
     nativeAnimationFrame := nativeAnimationFrame s; metricDisplay := metricDisplay s;
     metricsLoaded := metricsLoaded s; vObj := vObj s; rObjs := rObjs s;
     loadedScripts := loadedScripts s; scriptLoadCount := scriptLoadCount s;
     scriptsProcessed := scriptsProcessed s; trace := trace s; pending := pending s;
     nextHandle := nextHandle s; reads := v |}.

Definition set_debugMode (v : bool) (s : State) : State :=
  {| idRef := idRef s; timerPool := timerPool s; livingObjects := livingObjects s;
     fpsClock := fpsClock s; FPS := FPS s; frameTime := frameTime s;
     defaultContext := defaultContext s; debugMode := v; localMode := localMode s;
     started := started s; running := running s; shuttingDown := shuttingDown s;
     upTime := upTime s; downTime := downTime s; skipFrames := skipFrames s;
     totalFrames := totalFrames s; droppedFrames := droppedFrames s; worldTime := worldTime s;
     lastTime := lastTime s; liveTime := liveTime s; shutdownCallbacks := shutdownCallbacks s;
     _pauseTime := _pauseTime s; _stepOne := _stepOne s; globalTimer := globalTimer s;
     nativeAnimationFrame := nativeAnimationFrame s; metricDisplay := metricDisplay s;
     metricsLoaded := metricsLoaded s; vObj := vObj s; rObjs := rObjs s;
     loadedScripts := loadedScripts s; scriptLoadCount := scriptLoadCount s;
     scriptsProcessed := scriptsProcessed s; trace := trace s; pending := pending s;
     nextHandle := nextHandle s; reads := reads s |}.


Definition set_nativeAnimationFrame (v : bool) (s : State) : State :=
  {| idRef := idRef s; timerPool := timerPool s; livingObjects := livingObjects s;
     fpsClock := fpsClock s; FPS := FPS s; frameTime := frameTime s;
     defaultContext := defaultContext s; debugMode := debugMode s; localMode := localMode s;
     started := started s; running := running s; shuttingDown := shuttingDown s;
     upTime := upTime s; downTime := downTime s; skipFrames := skipFrames s;
     totalFrames := totalFrames s; droppedFrames := droppedFrames s; worldTime := worldTime s;
     lastTime := lastTime s; liveTime := liveTime s; shutdownCallbacks := shutdownCallbacks s;
     _pauseTime := _pauseTime s; _stepOne := _stepOne s; globalTimer := globalTimer s;
     nativeAnimationFrame := v; metricDisplay := metricDisplay s;
     metricsLoaded := metricsLoaded s; vObj := vObj s; rObjs := rObjs s;
     loadedScripts := loadedScripts s; scriptLoadCount := scriptLoadCount s;
     scriptsProcessed := scriptsProcessed s; trace := trace s; pending := pending s;
     nextHandle := nextHandle s; reads := reads s |}.

(** Modelled from the spec: [Assert(test, message)] is declared outside the
    engine file; by the error taxonomy a failed assertion is fatal and aborts
    the call at the call site, so nothing after it runs.  A call that can
    fail an assertion returns a [Result]; [AssertionFailed] carries the state
    the engine is left in. *)
Inductive Result (A : Type) : Type :=
  | Done (a : A)
  | AssertionFailed (message : string) (s : State).
Arguments Done {A} a.
Arguments AssertionFailed {A} message s.

(** ** The browser and the collaborators *)

Definition emit (e : Event) (s : State) : State :=
  set_trace (trace s ++ [e]) s.

Definition console (l : Level) (message : string) (s : State) : State :=
  emit (Console l message) s.

(** [setTimeout(fn, ms)]: the browser keeps the callback and hands out a
    fresh handle. *)
Definition setTimeout (fn : Deferred) (ms : Z) (s : State) : Handle * State :=
  let h := nextHandle s in
  let s := set_nextHandle (S h) s in
  let s := set_pending (pending s ++ [mkPending h (Some ms) fn]) s in
  (h, emit (SetTimeout h fn ms) s).

(** [R.global.nativeFrame(fn)]: a request for the next animation frame. *)
Definition nativeFrame (fn : Deferred) (s : State) : State :=
  let h := nextHandle s in
  let s := set_nextHandle (S h) s in
  let s := set_pending (pending s ++ [mkPending h None fn]) s in
  emit (NativeFrame fn) s.

Definition is_timeout (h : Handle) (p : Pending) : bool :=
  Nat.eqb (handle p) h && match delay p with Some _ => true | None => false end.

(** [clearTimeout(h)]: the timeout with that handle, if still pending, is
    dropped; [null] names none. *)
Definition clearTimeout (h : option Handle) (s : State) : State :=
  let s := emit (ClearTimeout h) s in
  set_pending
    match h with
    | None => pending s
    | Some h => List.filter (fun p => negb (is_timeout h p)) (pending s)
    end s.

(** The printed form of an object in a console message is left to its class;
    its name stands for it here. *)
Definition show (obj : PooledObject) : string := getName obj.

Section WithClock.

(** [now n] is what the [n]-th reading of the clock, [R.now()], returns. *)
Variable now : nat -> Z.

Definition R_now (s : State) : Z * State :=
  (now (reads s), set_reads (S (reads s)) s).

(** ** Engine properties *)

(** [setFPS(fps)]; [fps] is the value of the number passed. *)
Definition setFPS (fps : Q) (s : State) : Result State :=
  if Qeq_bool fps 0 then AssertionFailed "You cannot have a framerate of zero!" s
  else
    let s := set_fpsClock (Qfloor (double (1000 / fps))) s in
    Done (set_FPS None s).

Definition getFrameTime (s : State) : Z := fpsClock s.

Definition getDrawTime (s : State) : Z := frameTime s.

Definition setDebugMode (mode : bool) (s : State) : State := set_debugMode mode s.

Definition getDebugMode (s : State) : bool := debugMode s.

Definition getDefaultContext (s : State) : option RenderContext * State :=
  let s :=
    match defaultContext s with
    | None => set_defaultContext (Some DocumentContext) (emit ContextCreate s)
    | Some _ => s
    end in
  (defaultContext s, s).

(** [setDefaultContext(defaultContext)]: [Some ctx] is an instance of
    [R.rendercontexts.AbstractRenderContext], [None] any other value. *)
Definition setDefaultContext (defaultContext : option RenderContext) (s : State)
  : Result State :=
  match defaultContext with
  | None =>
      AssertionFailed
        "Setting default engine context to object which is not a render context!" s
  | Some ctx => Done (set_defaultContext (Some ctx) s)
  end.

(** ** Global object management *)

(** [destroy(obj)] comes first here, as [create] below has a use for it. *)
Definition destroy (obj : option PooledObject) (s : State) : State :=
  match obj with
  | None => console WARN "NULL reference passed to Engine.destroy()!  Ignored." s
  | Some o =>
      let objId := default "undefined" (getId o) in
      let s := console LOG ("DESTROYED Object " +:+ objId +:+ " [" +:+ show o +:+ "]") s in
      set_livingObjects (livingObjects s - 1) s
  end.

(** Modelled from the spec: [obj.destroy()] is the destructor of the
    object's class, [R.engine.PooledObject] or one that extends it, which is
    not among the sources.  By the specification (section 2) the identity
    registry is invoked by the managed objects' own destructors: the
    destructor reports to [R.Engine.destroy(obj)].  What else it does is left
    to the class; the call itself is recorded as [ObjectDestroy obj]. *)
Definition object_destroy (obj : PooledObject) (s : State) : State :=
  destroy (Some obj) (emit (ObjectDestroy obj) s).

Definition create (obj : PooledObject) (s : State) : Result (option string * State) :=
  if shuttingDown s then
    let s := console WARN ("Engine shutting down, '" +:+ show obj +:+
               "' destroyed because it would create an orphaned reference") s in
    let s := object_destroy obj s in
    Done (None, s)
  else if negb (started s) then
    AssertionFailed "Creating an object when the engine is stopped!" s
  else
    let s := set_idRef (idRef s + 1) s in
    let objId := getName obj +:+ pretty (idRef s) in
    let s := console LOG ("CREATED Object " +:+ objId +:+ " [" +:+ show obj +:+ "]") s in
    let s := set_livingObjects (livingObjects s + 1) s in
    Done (Some objId, s).

(** The pool is a JavaScript object used as a map from timer names to timers;
    [for (tm in pool)] visits the names in the order they were first added. *)
Fixpoint pool_set (name : string) (t : Timer) (pool : list (string * Timer))
  : list (string * Timer) :=
  match pool with
  | [] => [(name, t)]
  | (n, t') :: rest =>
      if String.eqb n name then (n, t) :: rest else (n, t') :: pool_set name t rest
  end.

Definition pool_delete (name : string) (pool : list (string * Timer))
  : list (string * Timer) :=
  List.filter (fun p => negb (String.eqb (fst p) name)) pool.

Definition addTimer (timerName : string) (timer : Timer) (s : State) : State :=
  set_timerPool (pool_set timerName timer (timerPool s)) s.

Definition removeTimer (timerName : string) (s : State) : State :=
  set_timerPool (pool_delete timerName (timerPool s)) s.

(** [for (var tm in R.Engine.timerPool) { R.Engine.timerPool[tm].m(); }] *)
Definition for_each_timer (m : string -> Timer -> Event) (s : State) : State :=
  fold_left (fun s p => emit (m (fst p) (snd p)) s) (timerPool s) s.

(** *** Finding an object by its id *)

(** An object of the scene graph: its [getId()], if it has that method, and,
    for an instance of [R.struct.Container], what its iterator yields, in
    order. *)
#[warnings="-register-all"]
Inductive SceneObject : Type :=
  | Item (id : option string)
  | Container (id : option string) (contents : list SceneObject).

Inductive IteratorCall : Type :=
  | IteratorCreate      (* container.iterator() *)
  | IteratorDestroy.    (* itr.destroy() *)

Definition object_id (obj : SceneObject) : option string :=
  match obj with
  | Item id => id
  | Container id _ => id
  end.

(** [obj.getId && (obj.getId() === id)] *)
Definition has_id (id : string) (obj : SceneObject) : bool :=
  match object_id obj with
  | Some i => String.eqb i id
  | None => false
  end.

(** The loop [while (itr.hasNext()) { ... }] of the local function [search],
    and what follows it; [itr] is what the iterator has still to yield, and
    [search] the function itself, for the call [search(obj)]. *)
Fixpoint walk (id : string) (search : SceneObject -> list IteratorCall * option SceneObject)
    (itr : list SceneObject) : list IteratorCall * option SceneObject :=
  match itr with
  | [] => ([IteratorDestroy], None)
  | obj :: itr =>
      if has_id id obj then ([IteratorDestroy], Some obj)
      else
        match obj with
        | Container _ _ => search obj   (* If the object is a container, search inside of it *)
        | Item _ => walk id search itr
        end
  end.

(** [search(container)]: the iterator calls made, in order, and the object
    returned, [None] for [null].  The source calls it on containers only;
    an [Item] has no [iterator()]. *)
Fixpoint search (id : string) (container : SceneObject)
  : list IteratorCall * option SceneObject :=
  match container with
  | Item _ => ([], None)
  | Container _ contents =>
      let found := walk id (search id) contents in
      (IteratorCreate :: fst found, snd found)
  end.

(** [getObject(id)]; [scene ctx] is the context [ctx] as the scene graph has
    it, a container. *)
Definition getObject (scene : RenderContext -> SceneObject) (id : string) (s : State)
  : list IteratorCall * option SceneObject * State :=
  (* Start at the engine's default context *)
  match getDefaultContext s with
  | (Some ctx, s) => (search id (scene ctx), s)
  | (None, s) => ([], None, s)
  end.

(** ** Engine process control *)

(** [browserSupportCheck()] inspects the browser; its verdict is the input
    [supported]. *)
Definition startup (supported : bool) (s : State) : Result (bool * State) :=
  if negb (Bool.eqb (running s) false) then
    AssertionFailed "An attempt was made to restart the engine!" s
  else if negb supported then Done (false, s)
  else
    let '(t, s) := R_now s in
    let s := set_upTime t s in
    let s := set_started true s in
    let s := set_totalFrames 0 s in
    let s := emit LoadEngineScripts s in
    Done (true, s).

Definition doMetrics (s : State) : State :=
  if metricsLoaded s then emit DoMetrics s else s.

(** *** The world timer *)

(** One frame: the body of [if ((_stepOne == 1 || running) &&
    getDefaultContext() != null)].  [ctx] is the default context, which the
    test has just fetched; [nextFrame] is the local variable, and its new
    value is returned with the state. *)
Definition renderFrame (ctx : RenderContext) (nextFrame : Z) (s : State) : Z * State :=
  let s := set_vObj 0 s in
  let s := set_rObjs 0 s in
  (* Render a frame *)
  let '(t, s) := if _stepOne s =? 1 then (_pauseTime s, s) else R_now s in
  let s := set_worldTime t s in
  let s := set_lastTime (if _stepOne s =? 1 then worldTime s - fpsClock s else lastTime s) s in
  (* Pass parent context, world time, delta time *)
  let s := emit (ContextUpdate ctx (worldTime s) (worldTime s - lastTime s)) s in
  let s := set_lastTime (worldTime s) s in
  let '(t, s) := R_now s in
  let s := set_frameTime (t - worldTime s) s in
  let s := if _stepOne s =? 1 then set_pauseTime (_pauseTime s + frameTime s) s else s in
  let s := set_liveTime (worldTime s - upTime s) s in
  (* Count the number of frames generated *)
  let s := set_totalFrames (totalFrames s + 1) s in
  (* Determine when the next frame should draw *)
  let f := nextFrame - frameTime s in
  let nextFrame :=
    if skipFrames s then (if f >? 0 then f else nextFrame) else fpsClock s in
  let s := set_droppedFrames
             (droppedFrames s +
              (if f <=? 0 then Math_round (js_div (f * -1) (fpsClock s)) else 0)) s in
  (* Update the metrics display *)
  let s := doMetrics s in
  (nextFrame, s).

Definition engineTimer (s : State) : State :=
  if shuttingDown s then s
  else if negb (running s) && (_stepOne s =? 0) then s   (* Not stepping, done here *)
  else
    let nextFrame := fpsClock s in
    (* Update the world *)
    let '(nextFrame, s) :=
      if (_stepOne s =? 1) || running s then
        match getDefaultContext s with
        | (Some ctx, s) => renderFrame ctx nextFrame s
        | (None, s) => (nextFrame, s)
        end
      else (nextFrame, s) in
    if _stepOne s =? 1 then
      (* If stepping, don't re-call the engine timer automatically *)
      set_stepOne 0 s
    else if nativeAnimationFrame s then
      nativeFrame CallEngineTimer s
    else
      let '(h, s) := setTimeout CallEngineTimer nextFrame s in
      set_globalTimer (Some h) s.

Definition run (s : State) : State :=
  if shuttingDown s || running s then s
  else
    (* Restart all of the timers *)
    let s := for_each_timer TimerRestart s in
    let mode := "[" in
    let mode := mode +:+ (if debugMode s then "DEBUG" else "") in
    let mode := mode +:+
      (if localMode s then (if (0 <? Z.of_nat (String.length mode)) then " LOCAL" else "LOCAL")
       else "") in
    let mode := mode +:+ "]" in
    let s := console WARN (">>> Engine started. " +:+
                           (if negb (String.eqb mode "[]") then mode else "")) s in
    let s := set_running true s in
    let s := set_shuttingDown false s in
    let s := console DEBUG ">>> sysinfo: " s in
    let '(t, s) := R_now s in
    let s := set_pauseTime t s in
    let s := set_stepOne 0 s in
    let '(t, s) := R_now s in
    let s := set_lastTime (t - fpsClock s) s in
    (* Start world timer *)
    engineTimer s.

Definition step (s : State) : State :=
  if running s then s   (* Need to pause the engine to step *)
  else
    let s := set_stepOne 1 s in
    engineTimer s.

Definition pause (s : State) : State :=
  if shuttingDown s then s
  else
    (* Pause all of the timers *)
    let s := console DEBUG "Pausing all timers" s in
    let s := for_each_timer TimerPause s in
    let s := console WARN ">>> Engine paused <<<" s in
    let s := clearTimeout (globalTimer s) s in
    let s := set_running false s in
    let '(t, s) := R_now s in
    set_pauseTime t s.

Definition onShutdown (fn : Callback) (s : State) : State :=
  if shuttingDown s then s
  else set_shutdownCallbacks (shutdownCallbacks s ++ [fn]) s.

(** [while (shutdownCallbacks.length > 0) { shutdownCallbacks.shift()(); }]:
    the head leaves the queue, then it is called.  [queue] is the content of
    [shutdownCallbacks] on entry. *)
Fixpoint drain (queue : list Callback) (s : State) : State :=
  match queue with
  | [] => s
  | fn :: rest => drain rest (emit (Invoke fn) (set_shutdownCallbacks rest s))
  end.

(** Modelled from the spec: [AssertWarn(test, message)] is declared outside
    the engine file; a failed check is a warning that is logged, and
    execution continues. *)
Definition AssertWarn (test : bool) (message : string) (s : State) : State :=
  if test then s else console WARN message s.

(** [shutdown()] is one long function; its teardown is given here block by
    block, in source order, each block under the comment that opens it in
    the source. *)

(** [R.Engine.started = false; ...; // Stop world timer] *)
Definition stop_world_timer (s : State) : State :=
  let s := set_started false s in
  let s := console WARN ">>> Engine shutting down..." s in
  clearTimeout (globalTimer s) s.

(** [// Run through shutdown callbacks to allow unreferenced objects to clean
    up references, etc.] *)
Definition run_shutdown_callbacks (s : State) : State :=
  drain (shutdownCallbacks s) s.

(** [if (R.Engine.metricDisplay) { ... }] *)
Definition remove_metric_display (s : State) : State :=
  if metricDisplay s then set_metricDisplay false (emit MetricDisplayRemove s) else s.

(** [// Cancel all of the timers] *)
Definition cancel_all_timers (s : State) : State :=
  let s := console DEBUG ">>> Cancelling all timers" s in
  let s := for_each_timer TimerCancel s in
  set_timerPool [] s.

(** [R.Engine.downTime = R.now(); ...; R.Engine.running = false;] *)
Definition stop_running (s : State) : State :=
  let '(t, s) := R_now s in
  let s := set_downTime t s in
  let s := console WARN (">>> Engine stopped.  Runtime: " +:+
                         pretty (downTime s - upTime s) +:+ "ms") s in
  let s := console WARN (">>>   frames generated: " +:+ pretty (totalFrames s)) s in
  set_running false s.

(** [// Kill off the default context and anything that's attached to it],
    down to [// Shutdown complete]. *)
Definition kill_default_context (s : State) : State :=
  let s := match getDefaultContext s with
           | (Some ctx, s) => emit (ContextDestroy ctx) s
           | (None, s) => s
           end in
  (* Dump the object pool *)
  let s := emit ObjectPoolDump s in
  let s := AssertWarn (livingObjects s =? 0) "Object references were not cleaned up!" s in
  let s := set_loadedScripts [] s in
  let s := set_scriptLoadCount 0 s in
  let s := set_scriptsProcessed 0 s in
  let s := set_defaultContext None s in
  (* Shutdown complete *)
  set_shuttingDown false s.

Definition teardown (s : State) : State :=
  let s := stop_world_timer s in
  let s := run_shutdown_callbacks s in
  let s := remove_metric_display s in
  let s := cancel_all_timers s in
  let s := stop_running s in
  kill_default_context s.

Definition shutdown (s : State) : State :=
  if shuttingDown s then s   (* Prevent another shutdown *)
  else
    let s := set_shuttingDown true s in
    if negb (running s) && started s then
      (* If the engine is not currently running (i.e. paused)
         restart it and then re-perform the shutdown *)
      let s := set_running true s in
      let '(_, s) := setTimeout CallShutdown (fpsClock s * 2) s in
      s
    else teardown s.

(** *** Deferred callbacks *)

Definition call (fn : Deferred) (s : State) : State :=
  match fn with
  | CallEngineTimer => engineTimer s
  | CallShutdown => shutdown s
  end.

(** The browser runs the pending callback with handle [h]: it leaves the
    browser's list and is called. *)
Definition fire (h : Handle) (s : State) : State :=
  match List.find (fun p => Nat.eqb (handle p) h) (pending s) with
  | None => s
  | Some p =>
      call (callback p)
           (set_pending (List.filter (fun q => negb (Nat.eqb (handle q) h)) (pending s)) s)
  end.

(** *** Driving the engine *)

(** The calls a game (or the browser, for [Fire]) can make on the engine. *)
Inductive Api : Type :=
  | Startup (supported : bool)
  | Run
  | Step
  | Pause
  | OnShutdown (fn : Callback)
  | Shutdown
  | SetFPS (fps : Q)
  | Create (obj : PooledObject)
  | Destroy (obj : option PooledObject)
  | AddTimer (timerName : string) (timer : Timer)
  | RemoveTimer (timerName : string)
  | Fire (h : Handle).

(** The engine after a call; a failed assertion leaves it as it was when the
    assertion failed. *)
Definition after {A : Type} (r : Result (A * State)) : State :=
  match r with
  | Done (_, s) => s
  | AssertionFailed _ s => s
  end.

Definition api (c : Api) (s : State) : State :=
  match c with
  | Startup supported => after (startup supported s)
  | Run => run s
  | Step => step s
  | Pause => pause s
  | OnShutdown fn => onShutdown fn s
  | Shutdown => shutdown s
  | SetFPS fps => match setFPS fps s with Done s => s | AssertionFailed _ s => s end
  | Create obj => after (create obj s)
  | Destroy obj => destroy obj s
  | AddTimer timerName timer => addTimer timerName timer s
  | RemoveTimer timerName => removeTimer timerName s
  | Fire h => fire h s
  end.

(** A session: the calls of [script], one after the other. *)
Definition session (script : list Api) (s : State) : State :=
  fold_left (fun s c => api c s) script s.

(** What the last two blocks of the teardown add to the trace. *)
Definition last_events (s : State) : list Event :=
  [Console WARN (">>> Engine stopped.  Runtime: " +:+
                 pretty (now (reads s) - upTime s) +:+ "ms");
   Console WARN (">>>   frames generated: " +:+ pretty (totalFrames s))] ++
  match defaultContext s with
  | None => [ContextCreate; ContextDestroy DocumentContext]
  | Some ctx => [ContextDestroy ctx]
  end ++
  [ObjectPoolDump] ++
  (if livingObjects s =? 0 then []
   else [Console WARN "Object references were not cleaned up!"]).

End WithClock.

(** The engine as the object literal declares it.  The literal does not
    declare [_pauseTime] and [_stepOne]; they are written by [run()], [step()]
    and [pause()] before the world timer reads them, except that a [step()]
    before the first [run()] or [pause()] would read a [_pauseTime] that does
    not exist yet: the model starts both at 0 and does not cover that use. *)
Definition initial : State :=
  {| idRef := 0; timerPool := []; livingObjects := 0; fpsClock := 16; FPS := None;
     frameTime := 0; defaultContext := None; debugMode := false; localMode := false;
     started := false; running := false; shuttingDown := false; upTime := 0; downTime := 0;
     skipFrames := true; totalFrames := 0; droppedFrames := 0; worldTime := 0;
     lastTime := 0; liveTime := 0; shutdownCallbacks := []; _pauseTime := 0; _stepOne := 0;
     globalTimer := None; nativeAnimationFrame := false; metricDisplay := false;
     metricsLoaded := false; vObj := 0; rObjs := 0; loadedScripts := [];
     scriptLoadCount := 0; scriptsProcessed := 0; trace := []; pending := [];
     nextHandle := 0%nat; reads := 0%nat |}.

(** *** Reading a trace *)

(** The shutdown callbacks called, in order. *)
Definition invocations (tr : list Event) : list Callback :=
  flat_map (fun e => match e with Invoke fn => [fn] | _ => [] end) tr.

(** The pooled timers cancelled, in order. *)
Definition cancellations (tr : list Event) : list (string * Timer) :=
  flat_map (fun e => match e with TimerCancel name t => [(name, t)] | _ => [] end) tr.

Definition cancels (pool : list (string * Timer)) : list Event :=
  map (fun p => TimerCancel (fst p) (snd p)) pool.

(** [fn] is waiting in the shutdown queue. *)
Definition queued (fn : Callback) (s : State) : Prop := In fn (shutdownCallbacks s).

(** [fn] has been called as a shutdown callback. *)
Definition called (fn : Callback) (s : State) : Prop := In fn (invocations (trace s)).

(** The frames rendered: the context updated, with the world time and the
    delta it was given. *)
Definition frames (tr : list Event) : list (RenderContext * Z * Z) :=
  flat_map (fun e => match e with ContextUpdate ctx time dt => [(ctx, time, dt)] | _ => [] end)
    tr.

Definition is_timer_call (e : Event) : bool :=
  match e with
  | TimerRestart _ _ | TimerPause _ _ | TimerCancel _ _ => true
  | _ => false
  end.

(** The calls made on pooled timers, in order. *)
Definition timer_calls (tr : list Event) : list Event := List.filter is_timer_call tr.

Definition is_tick (p : Pending) : bool :=
  match callback p with
  | CallEngineTimer => true
  | CallShutdown => false
  end.

(** The requests for a native animation frame the browser is holding. *)
Definition is_frame_request (p : Pending) : bool :=
  is_tick p && match delay p with None => true | Some _ => false end.

Definition frame_requests (s : State) : list Pending :=
  List.filter is_frame_request (pending s).

(** What [run()] logs after ">>> Engine started. ", by [debugMode] and
    [localMode]. *)
Definition banner (debug local : bool) : string :=
  match debug, local with
  | false, false => ""
  | true, false => "[DEBUG]"
  | false, true => "[ LOCAL]"
  | true, true => "[DEBUG LOCAL]"
  end.

(** The engine as [run()] hands it to the world timer. *)
Definition started_up (now : nat -> Z) (s : State) : State :=
  set_lastTime (now (S (reads s)) - fpsClock s)
    (set_reads (S (S (reads s)))
    (set_stepOne 0
    (set_pauseTime (now (reads s))
    (set_shuttingDown false
    (set_running true
    (set_trace
       (trace s ++
        map (fun p => TimerRestart (fst p) (snd p)) (timerPool s) ++
        [Console WARN (">>> Engine started. " +:+ banner (debugMode s) (localMode s));
         Console DEBUG ">>> sysinfo: "]) s)))))).

(** The five ways through the world timer. *)
Inductive Way (s : State) : Prop :=
  | Idle (H : shuttingDown s = true \/ (running s = false /\ _stepOne s = 0))
  | Stepping (Hsd : shuttingDown s = false) (Hstep : _stepOne s = 1)
  | Ticking (Hsd : shuttingDown s = false) (Hrun : running s = true)
      (Hstep : _stepOne s <> 1) (Hnat : nativeAnimationFrame s = false)
  | TickingNative (Hsd : shuttingDown s = false) (Hrun : running s = true)
      (Hstep : _stepOne s <> 1) (Hnat : nativeAnimationFrame s = true)
  | Stray (Hsd : shuttingDown s = false) (Hrun : running s = false)
      (H0 : _stepOne s <> 0) (H1 : _stepOne s <> 1).

(** Every object below a container, at any depth, in the order a full
    traversal would meet them. *)
Fixpoint objects (container : SceneObject) : list SceneObject :=
  match container with
  | Item _ => []
  | Container _ contents => flat_map (fun obj => obj :: objects obj) contents
  end.

Definition is_item (obj : SceneObject) : bool :=
  match obj with Item _ => true | Container _ _ => false end.

(** Induction on a scene object, with the property at hand for everything a
    container holds. *)
Fixpoint SceneObject_nested_ind (P : SceneObject -> Prop)
    (HItem : forall id, P (Item id))
    (HContainer : forall id contents, List.Forall P contents -> P (Container id contents))
    (obj : SceneObject) : P obj :=
  match obj with
  | Item id => HItem id
  | Container id contents =>
      HContainer id contents
        ((fix all (l : list SceneObject) : List.Forall P l :=
            match l with
            | [] => @List.Forall_nil _ P
            | x :: l =>
                @List.Forall_cons _ P x l (SceneObject_nested_ind P HItem HContainer x) (all l)
            end) contents)
  end.

End Engine.

(** * R.engine.BaseObject: event bookkeeping *)

Module BaseObject.

(** The values that reach the bookkeeping: [undefined], a function, or some
    other value (the optional [data] array), which is not a function and is
    truthy. *)
Inductive JsValue : Type :=
  | Undefined
  | Data (d : nat)
  | Function (f : nat).

Definition truthy (v : JsValue) : bool :=
  match v with Undefined => false | _ => true end.

Definition isFunction (v : JsValue) : bool :=
  match v with Function _ => true | _ => false end.

(** [a || b] *)
Definition or_else (a b : JsValue) : JsValue := if truthy a then a else b.

Inductive Element : Type :=
  | Document
  | Node (n : nat).

(** What a handler is attached to. *)
Inductive Target : Type :=
  | DocumentBody
  | OnElement (e : Element).

(** The object reference which assigns an event: all that is used is its
    [getName()]. *)
Record Ref : Type := mkRef { ref_getName : string }.

Inductive Call : Type :=
  | ConsoleInfo (message : string)
  | SetHandler (target : Target) (type : string) (data fn : JsValue)
  | ClearHandler (target : Target) (type : string) (fn : JsValue).

Record Object : Type := mkObject {
  getName : string;
  element : option Element;            (* None is null *)
  events : gmap string JsValue         (* a key may be present and hold undefined *)
}.

Definition set_events (v : gmap string JsValue) (o : Object) : Object :=
  {| getName := getName o; element := element o; events := v |}.

(** [constructor(name)]: [this.events = {}]. *)
Definition constructor (name : string) : Object :=
  {| getName := name; element := None; events := ∅ |}.

Definition setElement (e : option Element) (o : Object) : Object :=
  {| getName := getName o; element := e; events := events o |}.

Definition getElement (o : Object) : option Element := element o.

(** [this.events[key]]: a missing key reads as [undefined]. *)
Definition get (key : string) (o : Object) : JsValue :=
  default Undefined (events o !! key).

(** The key an event is remembered under. *)
Definition event_key (ref : option Ref) (type : string) : string :=
  match ref with
  | None => "document," +:+ type
  | Some r => ref_getName r +:+ "," +:+ type
  end.

(** Each function returns the calls it made, in order, and the object. *)
Definition addEvent (ref : option Ref) (type : string) (data fn : JsValue) (o : Object)
  : list Call * Object :=
  match ref with
  | None =>
      (* This is a global assignment to the document body.  [func] is the
         [var] declared in the other branch: here it still holds undefined. *)
      let func := Undefined in
      ([ConsoleInfo ("Global assignment of event '" +:+ type +:+ "'");
        SetHandler DocumentBody type (or_else data fn) fn],
       set_events (<["document," +:+ type := func]> (events o)) o)
  | Some r =>
      match getElement o with
      | Some el =>
          (* Remember the handler by the reference object's name and event type *)
          let func := if isFunction data then data else fn in
          ([ConsoleInfo (ref_getName r +:+ " attach event '" +:+ type +:+ "' to " +:+ getName o);
            SetHandler (OnElement el) type (or_else data fn) fn],
           set_events (<[ref_getName r +:+ "," +:+ type := func]> (events o)) o)
      | None => ([], o)
      end
  end.

Definition removeEvent (ref : option Ref) (type : string) (o : Object)
  : list Call * Object :=
  match ref with
  | None =>
      (* This was a global assignment to the document body.  Clean it up *)
      let fn := get ("document," +:+ type) o in
      ([ConsoleInfo ("Global event '" +:+ type +:+ "' removed");
        ClearHandler DocumentBody type fn],
       o)
  | Some r =>
      match getElement o with
      | Some el =>
          (* Find the handler to remove *)
          let fn := get (ref_getName r +:+ "," +:+ type) o in
          (if truthy fn then
             [ConsoleInfo (ref_getName r +:+ " remove event '" +:+ type +:+ "' from " +:+ getName o);
              ClearHandler (OnElement el) type fn]
           else [],
           (* Remove the reference *)
           set_events (delete (ref_getName r +:+ "," +:+ type) (events o)) o)
      | None => ([], o)
      end
  end.

(** *** Destruction *)

(** The comma, character 44. *)
Definition comma : Ascii.ascii := Eval cbv in Ascii.ascii_of_nat 44.

Fixpoint until_comma (s : string) : string :=
  match s with
  | EmptyString => EmptyString
  | String c rest => if Ascii.eqb c comma then EmptyString else String c (until_comma rest)
  end.

Fixpoint after_comma (s : string) : option string :=
  match s with
  | EmptyString => None
  | String c rest => if Ascii.eqb c comma then Some rest else after_comma rest
  end.

(** [key.split(",")[1]]: what lies between the first comma and the second,
    [None] (undefined) for a key without a comma. *)
Definition split_1 (key : string) : option string := until_comma <$> after_comma key.

Definition has_comma (s : string) : bool :=
  match after_comma s with Some _ => true | None => false end.

(** The calls [destroy()] makes.  [clearHandler] is handed [getElement()],
    which may be null, and a type that may be undefined. *)
Inductive DestroyCall : Type :=
  | ClearHandlerOn (el : option Element) (type : option string) (fn : JsValue)
  | ElementRemove (el : Element)          (* $(this.element).empty().remove() *)
  | BaseDestroy.                          (* this.base() *)

(** The body of the loop [for (var ref in this.events)], for one entry. *)
Definition clear_entry (el : option Element) (entry : string * JsValue) : list DestroyCall :=
  let r := entry.1 in
  let fn := entry.2 in
  let type := split_1 r in
  if truthy fn then [ClearHandlerOn el type fn] else [].

(** [destroy()]: the calls made and the object, whose own fields the method
    does not write.  The loop visits the keys in the order they were added,
    which the map does not record: the handler-clearing calls stand in the
    order of [map_to_list], and only which calls are made is meaningful,
    not their order among themselves. *)
Definition destroy (o : Object) : list DestroyCall * Object :=
  (flat_map (clear_entry (getElement o)) (map_to_list (events o)) ++
   match element o with
   | Some (Node n) => [ElementRemove (Node n)]
   | _ => []
   end ++
   [BaseDestroy],
   o).

(** [jQ()], with the field [jQObject] passed along: the wrapper returned,
    which is also what the field holds afterwards.  The wrapper [$(element)]
    is told apart by the element it wraps. *)
Definition jQ (jQObject : option Element) (o : Object) : option Element :=
  match jQObject, element o with
  | None, Some el => Some el
  | _, _ => jQObject
  end.

(** A series of [setElement] calls, with [jQ()] called after each:
    [history es jQObject o] gives the last wrapper and the object. *)
Definition history (es : list (option Element)) (jQObject : option Element) (o : Object)
  : option Element * Object :=
  fold_left (fun st e => let o := setElement e st.2 in (jQ st.1 o, o)) es (jQObject, o).

End BaseObject.

(** * R.components.render.Billboard2D: the render cache *)

Module Billboard2D.

Inductive Mode : Type :=
  | REDRAW     (* 0: render to a temporary context *)
  | NORMAL.    (* 1: render the contents of the billboard *)

(** What is handed to the constructor as [renderComponent]. *)
Inductive Kind : Type :=
  | RenderComponent        (* instanceof R.components.Render *)
  | TextRenderer           (* instanceof R.text.AbstractTextRenderer *)
  | OtherObject.

Record Component : Type := mkComponent { kind : Kind; ident : nat }.

Record Rectangle : Type := mkRect { x : Z; y : Z; w : Z; h : Z }.

(** The [<img/>] element and the attributes [attr] gave it. *)
Record Image : Type := mkImage { src : string; width : Z; height : Z }.

Inductive Exception : Type :=
  | AssertionError (message : string)
  | TypeError            (* [this.billboard[0]] with no billboard *)
  | RenderError.         (* [drawImage] failed *)

Inductive Call : Type :=
  | BaseConstructor (name : string) (priority : Q)
  | BaseExecute (time dt : Z)
  | BaseDestroy
  | BaseRelease
  | PointCreate
  | PointDestroy
  | CreateImage                                   (* $("<img/>") *)
  | RenderComponentToImage (c : option Component) (w h : Z)
  | TransformOrigin (before : bool)
  | DrawImage (box : Rectangle) (img : Image)
  | SetLineStyle (style : string)
  | DrawRectangle (box : Rectangle)
  | MarkDirty
  | ComponentDestroy (c : option Component).

(** The component, with the calls it has made so far. *)
Record Billboard : Type := mkBillboard {
  billboard : option Image;
  mode : option Mode;
  renderComponent : option Component;
  hostRect : option Rectangle;
  calls : list Call
}.

Definition set_billboard (v : option Image) (b : Billboard) : Billboard :=
  {| billboard := v; mode := mode b; renderComponent := renderComponent b;
     hostRect := hostRect b; calls := calls b |}.

Definition set_mode (v : option Mode) (b : Billboard) : Billboard :=
  {| billboard := billboard b; mode := v; renderComponent := renderComponent b;
     hostRect := hostRect b; calls := calls b |}.

Definition set_renderComponent (v : option Component) (b : Billboard) : Billboard :=
  {| billboard := billboard b; mode := mode b; renderComponent := v;
     hostRect := hostRect b; calls := calls b |}.

Definition set_hostRect (v : option Rectangle) (b : Billboard) : Billboard :=
  {| billboard := billboard b; mode := mode b; renderComponent := renderComponent b;
     hostRect := v; calls := calls b |}.

Definition perform (c : Call) (b : Billboard) : Billboard :=
  {| billboard := billboard b; mode := mode b; renderComponent := renderComponent b;
     hostRect := hostRect b; calls := calls b ++ [c] |}.

(** How a piece of code ends: it returns, or it throws. *)
Inductive Completion : Type :=
  | Returned (b : Billboard)
  | Thrown (ex : Exception) (b : Billboard).

Definition andThen (c : Completion) (k : Billboard -> Completion) : Completion :=
  match c with
  | Returned b => k b
  | Thrown ex b => Thrown ex b
  end.

(** [try { body } catch (ex) { handler }] *)
Definition try_catch (body : Completion) (handler : Exception -> Billboard -> Completion)
  : Completion :=
  match body with
  | Returned b => Returned b
  | Thrown ex b => handler ex b
  end.

Notation "c >>= k" := (andThen c k) (at level 50, left associativity).

(** The object as the prototype declares it, before the constructor runs. *)
Definition prototype : Billboard :=
  {| billboard := None; mode := None; renderComponent := None; hostRect := None; calls := [] |}.

(** [constructor(name, renderComponent, priority)]; [this] is a new object or
    one taken back from the pool.  [priority || 0.1]: a missing or zero
    priority becomes 0.1. *)
Definition constructor (name : string) (rc : Component) (priority : option Q)
    (this : Billboard) : Completion :=
  match kind rc with
  | OtherObject =>
      Thrown (AssertionError "Attempt to assign a non-render component to a billboard component")
             this
  | _ =>
      let p := match priority with
               | Some p => if Qeq_bool p 0 then (1 # 10)%Q else p
               | None => (1 # 10)%Q
               end in
      let this := perform (BaseConstructor name p) this in
      let this := set_mode (Some REDRAW) this in
      Returned (set_renderComponent (Some rc) this)
  end.

Definition destroy (this : Billboard) : Billboard :=
  let this := perform (ComponentDestroy (renderComponent this)) this in
  perform BaseDestroy this.

Definition release (this : Billboard) : Billboard :=
  let this := perform BaseRelease this in
  let this := set_mode None this in
  set_renderComponent None this.

Definition regenerate (this : Billboard) : Billboard :=
  let this := set_mode (Some REDRAW) this in
  let this := set_hostRect None this in
  perform MarkDirty this.

Definition getComponent (this : Billboard) : option Component := renderComponent this.

(** What the collaborators answer during one [execute]. *)
Record Host : Type := mkHost {
  baseExecute : bool;          (* the result of this.base(renderContext, time, dt) *)
  boundingBox : Rectangle;     (* getGameObject().getBoundingBox() *)
  rendered : string;           (* what renderComponentToImage returns *)
  drawImageFails : bool;       (* whether renderContext.drawImage throws *)
  debugMode : bool             (* R.Engine.getDebugMode() *)
}.

(** [this.mode == R.components.render.Billboard2D.REDRAW] *)
Definition is_redraw (this : Billboard) : bool :=
  match mode this with Some REDRAW => true | _ => false end.

(** The statement inside [try]:
    [renderContext.drawImage(getBoundingBox(), this.billboard[0], getGameObject())]. *)
Definition blit (env : Host) (this : Billboard) : Completion :=
  match billboard this with
  | None => Thrown TypeError this
  | Some img =>
      let this := perform (DrawImage (boundingBox env) img) this in
      if drawImageFails env then Thrown RenderError this else Returned this
  end.

Definition execute (env : Host) (time dt : Z) (this : Billboard) : Completion :=
  let this := perform (BaseExecute time dt) this in
  if negb (baseExecute env) then Returned this
  else
    (* Get the host object's bounding box *)
    let hostBox := boundingBox env in
    let this := perform PointCreate this in
    let this :=
      if is_redraw this then
        let this :=
          match billboard this with
          | None => perform CreateImage this
          | Some _ => this
          end in
        let this := perform (RenderComponentToImage (renderComponent this) (w hostBox) (h hostBox)) this in
        let this := set_billboard (Some (mkImage (rendered env) (w hostBox) (h hostBox))) this in
        set_mode (Some NORMAL) this
      else this in
    (* Render the billboard *)
    let this := perform (TransformOrigin true) this in
    try_catch (blit env this) (fun ex this => Returned this) >>= fun this =>
    (* Debug the billboard image box *)
    let this :=
      if debugMode env then
        let this := perform (SetLineStyle "green") this in
        perform (DrawRectangle (boundingBox env)) this
      else this in
    let this := perform (TransformOrigin false) this in
    Returned (perform PointDestroy this).

(** *** Series of passes *)

(** The component a piece of code leaves behind, however it ends. *)
Definition result (c : Completion) : Billboard :=
  match c with
  | Returned b => b
  | Thrown _ b => b
  end.

(** One [execute] per frame, for the frames [envs]; an exception ends the
    series. *)
Fixpoint passes (envs : list (Host * Z * Z)) (this : Billboard) : Completion :=
  match envs with
  | [] => Returned this
  | (env, time, dt) :: rest => execute env time dt this >>= passes rest
  end.

(** What is done to a component over its life in the pool. *)
Inductive Use : Type :=
  | Construct (name : string) (rc : Component) (priority : option Q)
  | Execute (env : Host) (time dt : Z)
  | Regenerate
  | Release.

Definition use (u : Use) (this : Billboard) : Completion :=
  match u with
  | Construct name rc priority => constructor name rc priority this
  | Execute env time dt => execute env time dt this
  | Regenerate => Returned (regenerate this)
  | Release => Returned (release this)
  end.

Fixpoint lifetime (uses : list Use) (this : Billboard) : Completion :=
  match uses with
  | [] => Returned this
  | u :: rest => use u this >>= lifetime rest
  end.

Definition is_rendering (c : Call) : bool :=
  match c with RenderComponentToImage _ _ _ => true | _ => false end.

Definition is_image_creation (c : Call) : bool :=
  match c with CreateImage => true | _ => false end.

(** How often the linked component has been rendered to an image, and how
    often an [<img/>] element has been created. *)
Definition renderings (b : Billboard) : nat :=
  length (List.filter is_rendering (calls b)).

Definition image_creations (b : Billboard) : nat :=
  length (List.filter is_image_creation (calls b)).

Definition same_call (c d : Call) : bool :=
  match c, d with
  | PointCreate, PointCreate => true
  | PointDestroy, PointDestroy => true
  | TransformOrigin a, TransformOrigin b => Bool.eqb a b
  | _, _ => false
  end.

(** How often [c] occurs among [cs], for [c] a point created or destroyed or
    a move of the transform origin. *)
Definition occurrences (c : Call) (cs : list Call) : nat :=
  length (List.filter (same_call c) cs).

(** Whether one of the frames [envs] is drawn: the inherited [execute]
    answers true. *)
Definition drew (envs : list (Host * Z * Z)) : bool :=
  existsb (fun e => baseExecute e.1.1) envs.

End Billboard2D.

(** * Scenarios *)

(** Concrete runs of the engine, used to exercise the properties below. *)
Module Scenario.

Import Engine.

(** Clock readings: start-up at 1000; [run()] at 1010; a first frame that
    costs 5 ms; a second frame, started at 1026, that costs 40 ms. *)
Definition clock (n : nat) : Z :=
  nth n [1000; 1010; 1010; 1010; 1015; 1026; 1066] 2000.

(** [startup()] on a supported browser, at the default 16 ms frame budget. *)
Definition started : State := after (startup clock true initial).

(** Two timers are added, then [run()]. *)
Definition running : State :=
  run clock (addTimer "blink" 1%nat (addTimer "spawn" 2%nat started)).

(** The engine, running, is paused. *)
Definition paused : State := pause clock (onShutdown 7%nat running).

(** [shutdown()] is called on the paused engine. *)
Definition stalled : State := shutdown clock paused.

(** A button object with an element; [Player] attaches a click handler. *)
Definition player : BaseObject.Ref := BaseObject.mkRef "Player".

Definition button : BaseObject.Object :=
  BaseObject.setElement (Some (BaseObject.Node 1)) (BaseObject.constructor "Button").

Definition button_clickable : BaseObject.Object :=
  snd (BaseObject.addEvent (Some player) "click" BaseObject.Undefined
         (BaseObject.Function 1) button).

(** The same object after [setElement(null)]. *)
Definition button_detached : BaseObject.Object :=
  BaseObject.setElement None button_clickable.

(** A global key handler, assigned through the button with a null owner. *)
Definition button_global : BaseObject.Object :=
  snd (BaseObject.addEvent None "keydown" BaseObject.Undefined
         (BaseObject.Function 2) button).

(** A billboard around a vector component, as its constructor leaves it. *)
Definition vector : Billboard2D.Component :=
  Billboard2D.mkComponent Billboard2D.RenderComponent 1.

Definition sign : Billboard2D.Billboard :=
  match Billboard2D.constructor "draw" vector None Billboard2D.prototype with
  | Billboard2D.Returned b => b
  | Billboard2D.Thrown _ b => b
  end.

Definition box : Billboard2D.Rectangle := Billboard2D.mkRect 0 0 64 32.

(** A pass in which everything works. *)
Definition drawing : Billboard2D.Host :=
  Billboard2D.mkHost true box "data:image/png;base64,AAAA" false false.

(** A pass in which the inherited [execute] answers false. *)
Definition not_drawing : Billboard2D.Host :=
  Billboard2D.mkHost false box "data:image/png;base64,AAAA" false false.

(** A pass in which [drawImage] throws. *)
Definition failing : Billboard2D.Host :=
  Billboard2D.mkHost true box "data:image/png;base64,AAAA" true true.

(** The billboard after a first, working pass. *)
Definition sign_drawn : Billboard2D.Billboard :=
  match Billboard2D.execute drawing 1000 16 sign with
  | Billboard2D.Returned b => b
  | Billboard2D.Thrown _ b => b
  end.

(** The engine started with ticks requested as native animation frames. *)
Definition native : State := run clock (set_nativeAnimationFrame true started).


(** A context that holds an object, then a layer with one object, then a
    third object. *)
Definition stage : SceneObject :=
  Container (Some "context")
    [Item (Some "ship"); Container (Some "layer") [Item (Some "rock")]; Item (Some "hud")].

Definition scene (ctx : RenderContext) : SceneObject := stage.

(** The same context without the layer. *)
Definition flat_scene (ctx : RenderContext) : SceneObject :=
  Container (Some "context") [Item (Some "ship"); Item (Some "hud")].

(** The button with a click handler of [Player] and a global key handler. *)
Definition button_both : BaseObject.Object :=
  snd (BaseObject.addEvent None "keydown" BaseObject.Undefined
         (BaseObject.Function 2) button_clickable).

End Scenario.

(** * Properties of the frame clock and the identity registry *)

Section FrameClock.

Import Engine.

(** [Math.round(a / b)] for a positive [b], in integer terms. *)
Lemma Math_round_js_div (a b : Z) :
  0 < b -> Math_round (js_div a b) = (2 * a + b) / (2 * b).
Proof.
  intros Hb. unfold Math_round, js_div, Qdiv, Qinv, inject_Z. simpl Qnum.
  destruct b as [|p|p]; try lia. simpl.
  rewrite Z.mul_1_r. f_equal; lia.
Qed.

(** The rounded quotient is the nearest integer, a tie going up:
    [r - 1/2 <= a/b < r + 1/2]. *)
Lemma Math_round_nearest (a b : Z) :
  0 < b ->
  let r := Math_round (js_div a b) in
  2 * r * b - b <= 2 * a < 2 * r * b + b.
Proof.
  intros Hb r. subst r. rewrite Math_round_js_div by assumption.
  pose proof (Z.div_mod (2 * a + b) (2 * b) ltac:(lia)) as Hdm.
  pose proof (Z.mod_pos_bound (2 * a + b) (2 * b) ltac:(lia)) as Hm.
  nia.
Qed.

(** **** Rounding to a double *)

Lemma round_half_even_Z (n : Z) : round_half_even (inject_Z n) = n.
Proof.
  unfold round_half_even. rewrite Qfloor_Z.
  destruct (Qcompare_spec (inject_Z n - inject_Z n) (1 # 2)) as [H|H|H];
    [exfalso; lra | reflexivity | exfalso; lra].
Qed.

Lemma round_half_even_mono (x y : Q) :
  (x <= y)%Q -> round_half_even x <= round_half_even y.
Proof.
  intros Hxy. pose proof (Qfloor_resp_le x y Hxy) as Hfl.
  pose proof (Qfloor_le x) as Hx1. pose proof (Qlt_floor x) as Hx2.
  pose proof (Qfloor_le y) as Hy1. pose proof (Qlt_floor y) as Hy2.
  rewrite inject_Z_plus in Hx2, Hy2.
  unfold round_half_even.
  destruct (Z.eq_dec (Qfloor x) (Qfloor y)) as [E|NE].
  - rewrite <- E in *.
    destruct (Qcompare_spec (x - inject_Z (Qfloor x)) (1 # 2)) as [Hx|Hx|Hx];
      destruct (Qcompare_spec (y - inject_Z (Qfloor x)) (1 # 2)) as [Hy|Hy|Hy];
      try destruct (Z.even (Qfloor x)); try lia; exfalso; lra.
  - assert (Hlt : Qfloor x + 1 <= Qfloor y) by lia.
    destruct (x - inject_Z (Qfloor x) ?= 1 # 2)%Q, (y - inject_Z (Qfloor y) ?= 1 # 2)%Q;
      try destruct (Z.even (Qfloor x)); try destruct (Z.even (Qfloor y)); lia.
Qed.

Lemma round_half_even_comp (x y : Q) : (x == y)%Q -> round_half_even x = round_half_even y.
Proof.
  intros E. apply Z.le_antisymm; apply round_half_even_mono; rewrite E; apply Qle_refl.
Qed.

(** Rounding to the nearest integer does not cross an integer. *)
Lemma round_half_even_between (x : Q) (lo hi : Z) :
  (inject_Z lo <= x)%Q -> (x <= inject_Z hi)%Q ->
  lo <= round_half_even x <= hi.
Proof.
  intros Hlo Hhi. split.
  - rewrite <- (round_half_even_Z lo). apply round_half_even_mono, Hlo.
  - rewrite <- (round_half_even_Z hi). apply round_half_even_mono, Hhi.
Qed.

Lemma Qfloor_unique (y : Q) (k : Z) :
  (inject_Z k <= y)%Q -> (y < inject_Z (k + 1))%Q -> Qfloor y = k.
Proof.
  intros Hlo Hhi. apply Z.le_antisymm.
  - apply Z.lt_succ_r. rewrite Zlt_Qlt.
    apply Qle_lt_trans with y; [apply Qfloor_le | exact Hhi].
  - rewrite <- (Qfloor_Z k). apply Qfloor_resp_le, Hlo.
Qed.

Lemma log2_gap_le (x : Q) (j : Z) :
  0 <= j -> (0 < x)%Q -> (x <= inject_Z (2 ^ j))%Q ->
  Z.log2 (Z.abs (Qnum x)) - Z.log2 (Z.pos (Qden x)) <= j.
Proof.
  intros Hj Hpos Hle. destruct x as [a b].
  assert (Ha : 0 < a) by (unfold Qlt in Hpos; cbn in Hpos; lia).
  unfold Qle in Hle. cbn in Hle. cbn [Qnum Qden].
  rewrite Z.abs_eq by lia.
  assert (H : Z.log2 a <= Z.log2 (Z.pos b * 2 ^ j)) by (apply Z.log2_le_mono; lia).
  rewrite Z.log2_mul_pow2 in H by lia. lia.
Qed.

(** A positive number of at most [2 ^ j] lies in a binade of at most [j];
    one below [2 ^ j], in a binade below [j]. *)
Lemma binade_le (x : Q) (j : Z) :
  0 <= j -> (0 < x)%Q -> (x <= inject_Z (2 ^ j))%Q -> binade x <= j.
Proof.
  intros Hj Hpos Hle. pose proof (log2_gap_le x j Hj Hpos Hle) as He.
  unfold binade.
  destruct (Qabs x ?= 2 ^ (Z.log2 (Z.abs (Qnum x)) - Z.log2 (Z.pos (Qden x))))%Q; lia.
Qed.

Lemma binade_lt (x : Q) (j : Z) :
  0 <= j -> (0 < x)%Q -> (x < inject_Z (2 ^ j))%Q -> binade x <= j - 1.
Proof.
  intros Hj Hpos Hlt.
  pose proof (log2_gap_le x j Hj Hpos (Qlt_le_weak _ _ Hlt)) as Hle.
  unfold binade.
  set (e := Z.log2 (Z.abs (Qnum x)) - Z.log2 (Z.pos (Qden x))) in *.
  destruct (Qcompare_spec (Qabs x) (2 ^ e)) as [H|H|H]; try lia.
  - destruct (Z.eq_dec e j) as [E|NE]; [|lia]. exfalso.
    rewrite E, <- (Zpower_Qpower 2 j Hj) in H.
    rewrite Qabs_pos in H by (apply Qlt_le_weak, Hpos). rewrite H in Hlt.
    apply (Qlt_irrefl _ Hlt).
  - destruct (Z.eq_dec e j) as [E|NE]; [|lia]. exfalso.
    rewrite E, <- (Zpower_Qpower 2 j Hj) in H.
    rewrite Qabs_pos in H by (apply Qlt_le_weak, Hpos).
    apply (Qlt_irrefl x). apply Qlt_trans with (inject_Z (2 ^ j)); assumption.
Qed.

(** The unit in the last place [2 ^ g], for [g <= - j] and [j >= 0], is one
    over a multiple of [2 ^ j]. *)
Lemma ulp_inv (g j : Z) :
  0 <= j -> g <= - j ->
  (2 ^ g == / inject_Z (2 ^ j * 2 ^ (- g - j)))%Q.
Proof.
  intros Hj Hg.
  replace g with (- (- g)) at 1 by lia. rewrite Qpower_opp.
  rewrite <- Z.pow_add_r by lia. replace (j + (- g - j)) with (- g) by lia.
  rewrite (Zpower_Qpower 2 (- g)) by lia. reflexivity.
Qed.

(** Rounding to the nearest double does not cross a multiple of [2 ^ - j]
    that the binade of [x] holds: for a positive [x] in a binade of at most
    [52 - j], if [lo <= x * 2 ^ j <= hi] then [lo <= double x * 2 ^ j <= hi]. *)
Lemma double_between (x : Q) (j lo hi : Z) :
  0 <= j ->
  (0 < x)%Q ->
  binade x - 52 <= - j ->
  (inject_Z lo <= x * inject_Z (2 ^ j))%Q ->
  (x * inject_Z (2 ^ j) <= inject_Z hi)%Q ->
  (inject_Z lo <= double x * inject_Z (2 ^ j))%Q /\
  (double x * inject_Z (2 ^ j) <= inject_Z hi)%Q.
Proof.
  intros Hj Hpos Hg Hlo Hhi. unfold double.
  destruct (Qeq_bool x 0) eqn:E.
  { apply Qeq_bool_eq in E. rewrite E in Hpos. discriminate. }
  cbv zeta. set (g := binade x - 52) in *.
  set (M := 2 ^ (- g - j)).
  assert (HM : 0 < M) by (apply Z.pow_pos_nonneg; lia).
  assert (HJ : 0 < 2 ^ j) by (apply Z.pow_pos_nonneg; lia).
  assert (HMq : (0 < inject_Z M)%Q) by (rewrite <- (Zlt_Qlt 0); exact HM).
  assert (HJq : (0 < inject_Z (2 ^ j))%Q) by (rewrite <- (Zlt_Qlt 0); exact HJ).
  pose proof (ulp_inv g j Hj Hg) as Hulp. fold M in Hulp.
  rewrite inject_Z_mult in Hulp.
  assert (Hscaled : (x / 2 ^ g == x * inject_Z (2 ^ j) * inject_Z M)%Q).
  { rewrite Hulp. field. split; lra. }
  rewrite (round_half_even_comp _ _ Hscaled).
  destruct (round_half_even_between (x * inject_Z (2 ^ j) * inject_Z M) (lo * M) (hi * M))
    as [Hr1 Hr2].
  { rewrite inject_Z_mult. apply Qmult_le_compat_r; [exact Hlo | lra]. }
  { rewrite inject_Z_mult. apply Qmult_le_compat_r; [exact Hhi | lra]. }
  set (r := round_half_even (x * inject_Z (2 ^ j) * inject_Z M)) in *.
  assert (Hval : (inject_Z r * 2 ^ g * inject_Z (2 ^ j) == inject_Z r / inject_Z M)%Q).
  { rewrite Hulp. field. split; lra. }
  rewrite Hval. rewrite Zle_Qle, inject_Z_mult in Hr1, Hr2.
  split.
  - apply Qle_shift_div_l; assumption.
  - apply Qle_shift_div_r; assumption.
Qed.

(** For an integer rate the floor of the double quotient is the integer
    quotient: the double nearest to [1000 / n] is not below
    [floor(1000 / n)], a double, and not above [floor(1000 / n) + 1023/1024],
    a double of the same binade or a finer one. *)
Lemma floor_double_quotient (n : Z) :
  0 < n -> Qfloor (double (1000 / inject_Z n)) = 1000 / n.
Proof.
  intros Hn.
  assert (Hnq : (0 < inject_Z n)%Q) by (rewrite <- (Zlt_Qlt 0); exact Hn).
  set (q := (1000 / inject_Z n)%Q).
  assert (Hq : (0 < q)%Q) by (subst q; apply Qlt_shift_div_l; lra).
  assert (Hq' : (q <= inject_Z (2 ^ 10))%Q).
  { subst q. apply Qle_shift_div_r; [exact Hnq|].
    change (inject_Z (2 ^ 10)) with 1024%Q.
    assert (H1 : (1 <= inject_Z n)%Q)
      by (change 1%Q with (inject_Z 1); rewrite <- Zle_Qle; lia).
    lra. }
  pose proof (binade_le q 10 ltac:(lia) Hq Hq') as Hb.
  pose proof (Z.div_mod 1000 n ltac:(lia)) as Hdm.
  pose proof (Z.mod_pos_bound 1000 n Hn) as Hm.
  set (k := 1000 / n) in *.
  assert (Hk : 0 <= k) by (subst k; apply Z.div_pos; lia).
  assert (Hqn : (q * inject_Z (2 ^ 10) == inject_Z 1024000 / inject_Z n)%Q).
  { subst q. change (inject_Z (2 ^ 10)) with 1024%Q.
    change (inject_Z 1024000) with 1024000%Q. field. lra. }
  destruct (double_between q 10 (1024 * k) (1024 * k + 1023)) as [H1 H2];
    try assumption; try lia.
  - rewrite Hqn. apply Qle_shift_div_l; [exact Hnq|].
    rewrite <- inject_Z_mult, <- Zle_Qle. nia.
  - rewrite Hqn. apply Qle_shift_div_r; [exact Hnq|].
    rewrite <- inject_Z_mult, <- Zle_Qle.
    destruct (Z_le_gt_dec n 1024); [nia|].
    assert (k = 0) by (subst k; apply Z.div_small; lia). nia.
  - change (inject_Z (2 ^ 10)) with 1024%Q in H1, H2.
    rewrite inject_Z_mult in H1. rewrite inject_Z_plus, inject_Z_mult in H2.
    change (inject_Z 1024) with 1024%Q in H1, H2.
    change (inject_Z 1023) with 1023%Q in H2.
    apply Qfloor_unique; [|rewrite inject_Z_plus; change (inject_Z 1) with 1%Q]; lra.
Qed.

(** For any positive quotient below [2 ^ 53] the floor of its double is the
    floor of the quotient, or one more. *)
Lemma floor_double_near (q : Q) :
  (0 < q)%Q -> (q < inject_Z (2 ^ 53))%Q ->
  Qfloor q <= Qfloor (double q) <= Qfloor q + 1.
Proof.
  intros Hq Hlt.
  pose proof (binade_lt q 53 ltac:(lia) Hq Hlt) as Hb.
  pose proof (Qfloor_le q) as Hlo. pose proof (Qlt_floor q) as Hhi.
  destruct (double_between q 0 (Qfloor q) (Qfloor q + 1)) as [H1 H2]; try lia; try assumption.
  - change (inject_Z (2 ^ 0)) with 1%Q. lra.
  - change (inject_Z (2 ^ 0)) with 1%Q. lra.
  - change (inject_Z (2 ^ 0)) with 1%Q in H1, H2. split.
    + rewrite <- (Qfloor_Z (Qfloor q)) at 1. apply Qfloor_resp_le. lra.
    + rewrite <- (Qfloor_Z (Qfloor q + 1)). apply Qfloor_resp_le. lra.
Qed.

(** C8, as the code has it.  For every integer frame rate [n > 0], after
    [setFPS(n)] the call [getFrameTime()] returns [floor(1000 / n)], the
    largest integer [t] with [t * n <= 1000].  For every frame rate [f > 0]
    (with [1000 / f] below [2 ^ 53]) it returns the floor of the double
    nearest to [1000 / f], which is [floor(1000 / f)] or one more.  And
    [setFPS(0)] fails its assertion and leaves the engine, [fpsClock]
    included, as it was. *)
Theorem setFPS_getFrameTime (n : Z) (f : Q) (s : State) :
  (0 < n ->
   exists s',
     setFPS (inject_Z n) s = Done s' /\
     getFrameTime s' = Qfloor (1000 / inject_Z n) /\
     getFrameTime s' = 1000 / n /\
     getFrameTime s' * n <= 1000 < (getFrameTime s' + 1) * n) /\
  ((0 < f)%Q ->
   (1000 / f < inject_Z (2 ^ 53))%Q ->
   exists s',
     setFPS f s = Done s' /\
     getFrameTime s' = Qfloor (double (1000 / f)) /\
     Qfloor (1000 / f) <= getFrameTime s' <= Qfloor (1000 / f) + 1) /\
  (exists message s',
      setFPS 0 s = AssertionFailed message s' /\
      s' = s /\
      fpsClock s' = fpsClock s).
Proof.
  repeat apply conj.
  - intros Hn. unfold setFPS.
    destruct (Qeq_bool (inject_Z n) 0) eqn:E.
    { apply Qeq_bool_eq in E. apply (inject_Z_injective n 0) in E. lia. }
    eexists; split; [reflexivity|].
    cbn [getFrameTime fpsClock set_FPS set_fpsClock].
    rewrite floor_double_quotient by exact Hn.
    pose proof (Z.div_mod 1000 n ltac:(lia)) as Hdm.
    pose proof (Z.mod_pos_bound 1000 n Hn) as Hm.
    repeat split; [apply Zdiv_Qdiv | nia | nia].
  - intros Hf Hlt. unfold setFPS.
    destruct (Qeq_bool f 0) eqn:E.
    { apply Qeq_bool_eq in E. rewrite E in Hf. discriminate. }
    eexists; split; [reflexivity|].
    cbn [getFrameTime fpsClock set_FPS set_fpsClock].
    split; [reflexivity|]. apply floor_double_near; [|exact Hlt].
    apply Qlt_shift_div_l; [exact Hf | lra].
  - do 2 eexists. repeat split; reflexivity.
Qed.

Lemma setFPS_getFrameTime_witness :
  0 < 30 /\
  (0 < 7205759403792794 # 4503599627370496)%Q /\
  (1000 / (7205759403792794 # 4503599627370496) < inject_Z (2 ^ 53))%Q /\
  getFrameTime initial = 16 /\
  (exists s', setFPS 30 initial = Done s' /\ getFrameTime s' = 33) /\
  (exists s',
      setFPS (7205759403792794 # 4503599627370496) initial = Done s' /\
      624 <= getFrameTime s' <= 625) /\
  (exists message s', setFPS 0 initial = AssertionFailed message s' /\ s' = initial).
Proof.
  assert (Hn : 0 < 30) by lia.
  assert (Hf : (0 < 7205759403792794 # 4503599627370496)%Q) by reflexivity.
  assert (Hlt : (1000 / (7205759403792794 # 4503599627370496) < inject_Z (2 ^ 53))%Q)
    by reflexivity.
  destruct (setFPS_getFrameTime 30 (7205759403792794 # 4503599627370496) initial)
    as (Hint & Hany & Hzero).
  repeat apply conj; try assumption; try reflexivity.
  - destruct (Hint Hn) as (s' & Hs' & _ & Hdiv & _). exists s'. split; [exact Hs'|].
    rewrite Hdiv. reflexivity.
  - destruct (Hany Hf Hlt) as (s' & Hs' & _ & Hnear). exists s'. split; [exact Hs'|].
    exact Hnear.
  - destruct Hzero as (message & s' & Hs' & Heq & _). exists message, s'. split; assumption.
Defined.

(** C8 as the specification has it, at the double 1.6, whose value is
    [7205759403792794 / 2 ^ 52], a little above 8/5: the quotient
    [1000 / f] lies a little below 625, and the double nearest to it is 625.
    After [setFPS(1.6)] the call [getFrameTime()] returns 625, while
    [floor(1000 / f)] is 624. *)
Lemma setFPS_double_counterexample :
  let f := (7205759403792794 # 4503599627370496)%Q in
  (0 < f)%Q /\
  (double (16 # 10) == f)%Q /\
  (double f == f)%Q /\
  Qfloor (1000 / f) = 624 /\
  exists s',
    setFPS f initial = Done s' /\
    getFrameTime s' = 625 /\
    getFrameTime s' <> Qfloor (1000 / f).
Proof.
  cbv zeta. repeat apply conj.
  - reflexivity.
  - vm_compute. reflexivity.
  - vm_compute. reflexivity.
  - vm_compute. reflexivity.
  - exists (set_FPS None (set_fpsClock 625 initial)). repeat apply conj.
    + vm_compute. reflexivity.
    + reflexivity.
    + vm_compute. discriminate.
Qed.

End FrameClock.

Section Registry.

Import Engine.

(** C4, as the code has it.  [create(obj)] called while the engine is
    shutting down returns [null], warns and calls [obj.destroy()] at once,
    and leaves [idRef] as it was.  It does not count the object; but the
    destructor it calls reports to [destroy(obj)], which lowers
    [livingObjects] all the same: the count ends one below its value before
    the call, for an object that was never counted. *)
Theorem create_while_shutting_down (obj : PooledObject) (s : State) :
  shuttingDown s = true ->
  exists message logged s',
    create obj s = Done (None, s') /\
    s' = object_destroy obj (console WARN message s) /\
    trace s' = trace s ++ [Console WARN message; ObjectDestroy obj; Console LOG logged] /\
    idRef s' = idRef s /\
    livingObjects s' = livingObjects s - 1.
Proof.
  intros Hsd. unfold create. rewrite Hsd.
  do 3 eexists. split; [reflexivity|]. split; [reflexivity|].
  unfold object_destroy, destroy, console, emit.
  cbn [trace idRef livingObjects set_trace set_livingObjects].
  rewrite <- !List.app_assoc. repeat split; reflexivity.
Qed.

Lemma create_while_shutting_down_witness :
  shuttingDown Scenario.stalled = true /\
  livingObjects Scenario.stalled = 0 /\
  exists s',
    create (mkObject "Ball" None) Scenario.stalled = Done (None, s') /\
    idRef s' = idRef Scenario.stalled /\
    livingObjects s' = -1 /\
    livingObjects s' <> livingObjects Scenario.stalled.
Proof.
  assert (Hsd : shuttingDown Scenario.stalled = true) by reflexivity.
  assert (Hlive : livingObjects Scenario.stalled = 0) by reflexivity.
  split; [exact Hsd|]. split; [exact Hlive|].
  destruct (create_while_shutting_down (mkObject "Ball" None) Scenario.stalled Hsd)
    as (message & logged & s' & Hs' & _ & _ & Hid & Hcount).
  exists s'. rewrite Hcount, Hlive. repeat split; try assumption. discriminate.
Defined.

(** C6.  For an object accepted by [create] (engine started, not shutting
    down), [create(obj)] followed by [destroy(obj)] leaves [livingObjects]
    at its value before the [create]; and in every state [destroy(null)]
    logs a warning and leaves [livingObjects] unchanged. *)
Theorem create_then_destroy (obj : PooledObject) (s : State) :
  (started s = true ->
   shuttingDown s = false ->
   exists id s1,
     create obj s = Done (Some id, s1) /\
     livingObjects s1 = livingObjects s + 1 /\
     livingObjects (destroy (Some obj) s1) = livingObjects s /\
     livingObjects (destroy (Some (mkObject (getName obj) (Some id))) s1)
       = livingObjects s) /\
  (exists message,
      trace (destroy None s) = trace s ++ [Console WARN message] /\
      livingObjects (destroy None s) = livingObjects s).
Proof.
  split.
  - intros Hst Hsd. unfold create. rewrite Hsd, Hst. cbn.
    do 2 eexists. split; [reflexivity|]. cbn. repeat split; lia.
  - eexists. split; reflexivity.
Qed.

Lemma create_then_destroy_witness :
  started Scenario.started = true /\
  shuttingDown Scenario.started = false /\
  exists id s1,
    create (mkObject "Ball" None) Scenario.started = Done (Some id, s1) /\
    livingObjects s1 = livingObjects Scenario.started + 1 /\
    livingObjects (destroy (Some (mkObject "Ball" None)) s1)
      = livingObjects Scenario.started /\
    livingObjects (destroy (Some (mkObject "Ball" (Some id))) s1)
      = livingObjects Scenario.started.
Proof.
  split; [reflexivity|]. split; [reflexivity|].
  apply (create_then_destroy (mkObject "Ball" None) Scenario.started); reflexivity.
Defined.

End Registry.

(** * Properties of the lifecycle and the world timer *)

Ltac destruct_state s :=
  destruct s as [idRef_ timerPool_ livingObjects_ fpsClock_ FPS_ frameTime_ defaultContext_
    debugMode_ localMode_ started_ running_ shuttingDown_ upTime_ downTime_ skipFrames_
    totalFrames_ droppedFrames_ worldTime_ lastTime_ liveTime_ shutdownCallbacks_
    pauseTime_ stepOne_ globalTimer_ nativeAnimationFrame_ metricDisplay_ metricsLoaded_
    vObj_ rObjs_ loadedScripts_ scriptLoadCount_ scriptsProcessed_ trace_ pending_
    nextHandle_ reads_].

(** Read a field through the updates in front of it. *)
Ltac fields :=
  cbn [Engine.idRef Engine.timerPool Engine.livingObjects Engine.fpsClock Engine.FPS
       Engine.frameTime Engine.defaultContext Engine.debugMode Engine.localMode
       Engine.started Engine.running Engine.shuttingDown Engine.upTime Engine.downTime
       Engine.skipFrames Engine.totalFrames Engine.droppedFrames Engine.worldTime
       Engine.lastTime Engine.liveTime Engine.shutdownCallbacks Engine._pauseTime
       Engine._stepOne Engine.globalTimer Engine.nativeAnimationFrame Engine.metricDisplay
       Engine.metricsLoaded Engine.vObj Engine.rObjs Engine.loadedScripts
       Engine.scriptLoadCount Engine.scriptsProcessed Engine.trace Engine.pending
       Engine.nextHandle Engine.reads Engine.set_idRef Engine.set_timerPool
       Engine.set_livingObjects Engine.set_fpsClock Engine.set_FPS Engine.set_frameTime
       Engine.set_defaultContext Engine.set_started Engine.set_running
       Engine.set_shuttingDown Engine.set_upTime Engine.set_downTime Engine.set_totalFrames
       Engine.set_droppedFrames Engine.set_worldTime Engine.set_lastTime Engine.set_liveTime
       Engine.set_shutdownCallbacks Engine.set_pauseTime Engine.set_stepOne
       Engine.set_globalTimer Engine.set_metricDisplay Engine.set_vObj Engine.set_rObjs
       Engine.set_loadedScripts Engine.set_scriptLoadCount Engine.set_scriptsProcessed
       Engine.set_trace Engine.set_pending Engine.set_nextHandle Engine.set_reads Engine.emit
       Engine.console].

(** Run the field updates of a state whose fields are all at hand. *)
Ltac evaluate :=
  cbv beta iota zeta delta [Engine.idRef Engine.timerPool Engine.livingObjects
       Engine.fpsClock Engine.FPS Engine.frameTime Engine.defaultContext Engine.debugMode
       Engine.localMode Engine.started Engine.running Engine.shuttingDown Engine.upTime
       Engine.downTime Engine.skipFrames Engine.totalFrames Engine.droppedFrames
       Engine.worldTime Engine.lastTime Engine.liveTime Engine.shutdownCallbacks
       Engine._pauseTime Engine._stepOne Engine.globalTimer Engine.nativeAnimationFrame
       Engine.metricDisplay Engine.metricsLoaded Engine.vObj Engine.rObjs
       Engine.loadedScripts Engine.scriptLoadCount Engine.scriptsProcessed Engine.trace
       Engine.pending Engine.nextHandle Engine.reads Engine.set_idRef Engine.set_timerPool
       Engine.set_livingObjects Engine.set_fpsClock Engine.set_FPS Engine.set_frameTime
       Engine.set_defaultContext Engine.set_started Engine.set_running
       Engine.set_shuttingDown Engine.set_upTime Engine.set_downTime Engine.set_totalFrames
       Engine.set_droppedFrames Engine.set_worldTime Engine.set_lastTime Engine.set_liveTime
       Engine.set_shutdownCallbacks Engine.set_pauseTime Engine.set_stepOne
       Engine.set_globalTimer Engine.set_metricDisplay Engine.set_vObj Engine.set_rObjs
       Engine.set_loadedScripts Engine.set_scriptLoadCount Engine.set_scriptsProcessed
       Engine.set_trace Engine.set_pending Engine.set_nextHandle Engine.set_reads Engine.emit
       Engine.console Engine.setTimeout Engine.nativeFrame Engine.clearTimeout Engine.R_now
       Engine.getDefaultContext Engine.doMetrics Engine.AssertWarn Engine.handle Engine.delay
       Engine.callback negb andb orb fst snd default Z.eqb Pos.eqb].

Create HintDb engine.
#[local] Hint Unfold Engine.emit Engine.console Engine.setTimeout Engine.nativeFrame
  Engine.clearTimeout Engine.R_now Engine.getDefaultContext Engine.doMetrics
  Engine.AssertWarn Engine.stop_world_timer Engine.run_shutdown_callbacks
  Engine.remove_metric_display Engine.cancel_all_timers Engine.stop_running
  Engine.kill_default_context : engine.

(** Unfold the small steps, then compute through the field updates. *)
Ltac crunch :=
  autounfold with engine;
  cbn -[Math_round js_div Z.sub Z.add Z.mul Z.gtb Z.leb pretty String.append
       Engine.invocations Engine.cancellations Engine.cancels Engine.last_events].

Section TraceReading.

Import Engine.

Lemma invocations_app (tr tr' : list Event) :
  invocations (tr ++ tr') = invocations tr ++ invocations tr'.
Proof. unfold invocations. apply flat_map_app. Qed.

Lemma cancellations_app (tr tr' : list Event) :
  cancellations (tr ++ tr') = cancellations tr ++ cancellations tr'.
Proof. unfold cancellations. apply flat_map_app. Qed.

Lemma invocations_Invoke (q : list Callback) : invocations (map Invoke q) = q.
Proof. induction q as [|fn q IH]; cbn; [reflexivity | f_equal; exact IH]. Qed.

Lemma cancellations_Invoke (q : list Callback) : cancellations (map Invoke q) = [].
Proof. induction q as [|fn q IH]; cbn; [reflexivity | exact IH]. Qed.

Lemma cancellations_cancels (pool : list (string * Timer)) :
  cancellations (cancels pool) = pool.
Proof.
  induction pool as [|[name t] pool IH]; cbn; [reflexivity | f_equal; exact IH].
Qed.

(** Calls on pooled timers are no callback invocations. *)
Lemma invocations_timers (m : string -> Timer -> Event) (pool : list (string * Timer)) :
  (forall name t fn, m name t <> Invoke fn) ->
  invocations (map (fun p => m (fst p) (snd p)) pool) = [].
Proof.
  intros Hm. induction pool as [|[name t] pool IH]; [reflexivity|].
  cbn [map fst snd]. change (m name t :: ?l) with ([m name t] ++ l).
  rewrite invocations_app, IH, List.app_nil_r.
  specialize (Hm name t). destruct (m name t); try reflexivity.
  exfalso. eapply Hm. reflexivity.
Qed.

Lemma invocations_cancels (pool : list (string * Timer)) : invocations (cancels pool) = [].
Proof. apply invocations_timers. discriminate. Qed.

End TraceReading.

Section Lifecycle.

Import Engine.

Variable now : nat -> Z.

Lemma invocations_last_events (s : State) : invocations (last_events now s) = [].
Proof.
  unfold last_events. destruct (defaultContext s), (livingObjects s =? 0); reflexivity.
Qed.

Lemma cancellations_last_events (s : State) : cancellations (last_events now s) = [].
Proof.
  unfold last_events. destruct (defaultContext s), (livingObjects s =? 0); reflexivity.
Qed.

(** **** The loops, in closed form *)

Lemma for_each_timer_eq (m : string -> Timer -> Event) (s : State) :
  for_each_timer m s =
  set_trace (trace s ++ map (fun p => m (fst p) (snd p)) (timerPool s)) s.
Proof.
  unfold for_each_timer.
  generalize (timerPool s) as pool. intros pool. revert s.
  induction pool as [|p pool IH]; intros s; cbn [fold_left map].
  - rewrite List.app_nil_r. destruct_state s; reflexivity.
  - rewrite IH. unfold emit. cbn. rewrite <- List.app_assoc. reflexivity.
Qed.

(** The queue is emptied from the front, and each callback that leaves it is
    called, so the calls come in queue order. *)
Lemma drain_eq (queue : list Callback) (s : State) :
  drain queue s =
  set_trace (trace s ++ map Invoke queue)
    (set_shutdownCallbacks
       match queue with [] => shutdownCallbacks s | _ :: _ => [] end s).
Proof.
  revert s. induction queue as [|fn queue IH]; intros s; cbn [drain map].
  - rewrite List.app_nil_r. destruct_state s; reflexivity.
  - rewrite IH. unfold emit. cbn. rewrite <- List.app_assoc. cbn.
    destruct queue; reflexivity.
Qed.

(** **** The teardown, block by block *)

Lemma stop_world_timer_eq (s : State) :
  stop_world_timer s =
  set_pending
    match globalTimer s with
    | None => pending s
    | Some h => List.filter (fun p => negb (is_timeout h p)) (pending s)
    end
    (set_trace (trace s ++ [Console WARN ">>> Engine shutting down...";
                            ClearTimeout (globalTimer s)])
       (set_started false s)).
Proof. destruct_state s. crunch. rewrite <- List.app_assoc. reflexivity. Qed.

Lemma run_shutdown_callbacks_eq (s : State) :
  run_shutdown_callbacks s =
  set_trace (trace s ++ map Invoke (shutdownCallbacks s)) (set_shutdownCallbacks [] s).
Proof.
  unfold run_shutdown_callbacks. rewrite drain_eq.
  destruct_state s. cbn. destruct shutdownCallbacks_; reflexivity.
Qed.

Lemma remove_metric_display_eq (s : State) :
  remove_metric_display s =
  set_trace (trace s ++ if metricDisplay s then [MetricDisplayRemove] else [])
    (set_metricDisplay false s).
Proof.
  destruct_state s. destruct metricDisplay_; crunch; rewrite ?List.app_nil_r; reflexivity.
Qed.

Lemma cancel_all_timers_eq (s : State) :
  cancel_all_timers s =
  set_trace (trace s ++ Console DEBUG ">>> Cancelling all timers" :: cancels (timerPool s))
    (set_timerPool [] s).
Proof.
  unfold cancel_all_timers. rewrite for_each_timer_eq. cbn.
  rewrite <- List.app_assoc. reflexivity.
Qed.

Lemma last_blocks_eq (s : State) :
  kill_default_context (stop_running now s) =
  set_shuttingDown false (set_defaultContext None (set_scriptsProcessed 0
    (set_scriptLoadCount 0 (set_loadedScripts [] (set_running false
      (set_downTime (now (reads s)) (set_reads (S (reads s))
        (set_trace (trace s ++ last_events now s) s)))))))).
Proof.
  destruct_state s. unfold last_events.
  destruct defaultContext_, livingObjects_; crunch;
    rewrite <- ?List.app_assoc; reflexivity.
Qed.

(** The whole teardown: what it calls, in order, and the fields it writes. *)
Lemma teardown_eq (s : State) :
  teardown now s =
  set_shuttingDown false (set_defaultContext None (set_scriptsProcessed 0
    (set_scriptLoadCount 0 (set_loadedScripts [] (set_running false
      (set_downTime (now (reads s)) (set_reads (S (reads s))
        (set_timerPool [] (set_metricDisplay false (set_shutdownCallbacks []
          (set_pending
             match globalTimer s with
             | None => pending s
             | Some h => List.filter (fun p => negb (is_timeout h p)) (pending s)
             end
          (set_started false
          (set_trace
             (trace s ++
              [Console WARN ">>> Engine shutting down..."; ClearTimeout (globalTimer s)] ++
              map Invoke (shutdownCallbacks s) ++
              (if metricDisplay s then [MetricDisplayRemove] else []) ++
              [Console DEBUG ">>> Cancelling all timers"] ++
              cancels (timerPool s) ++
              last_events now s) s))))))))))))).
Proof.
  unfold teardown.
  rewrite last_blocks_eq, cancel_all_timers_eq, remove_metric_display_eq,
    run_shutdown_callbacks_eq, stop_world_timer_eq.
  destruct_state s. unfold last_events. cbn -[pretty String.append Z.sub Z.eqb].
  rewrite <- ?List.app_assoc. reflexivity.
Qed.

Lemma onShutdown_eq (fn : Callback) (s : State) :
  shuttingDown s = false ->
  onShutdown fn s = set_shutdownCallbacks (shutdownCallbacks s ++ [fn]) s.
Proof. intros Hsd. unfold onShutdown. rewrite Hsd. reflexivity. Qed.

(** When [shutdown()] stops the engine there and then. *)
Lemma shutdown_teardown (s : State) :
  shuttingDown s = false ->
  running s = true \/ started s = false ->
  shutdown now s = teardown now (set_shuttingDown true s).
Proof.
  intros Hsd Hrun. unfold shutdown. rewrite Hsd.
  replace (negb (running (set_shuttingDown true s)) && started (set_shuttingDown true s))
    with false; [reflexivity|].
  change (false = negb (running s) && started s).
  destruct Hrun as [-> | ->]; [reflexivity | symmetry; apply andb_false_r].
Qed.

(** C5.  When [shutdown()] performs its teardown after [cb1] then [cb2] were
    registered with [onShutdown], the callbacks called are those already in
    the queue, then [cb1], then [cb2]: one call per registration, in
    registration order.  All of these calls come before any pooled timer is
    cancelled; every timer of the pool is then cancelled, and only then is
    the pool emptied. *)
Theorem shutdown_callbacks_before_timers (cb1 cb2 : Callback) (s : State) :
  shuttingDown s = false ->
  running s = true \/ started s = false ->
  let s' := shutdown now (onShutdown cb2 (onShutdown cb1 s)) in
  exists before after,
    trace s' = trace s ++ before ++ after /\
    invocations before = shutdownCallbacks s ++ [cb1; cb2] /\
    cancellations before = [] /\
    invocations after = [] /\
    cancellations after = timerPool s /\
    shutdownCallbacks s' = [] /\
    timerPool s' = [].
Proof.
  intros Hsd Hrun s'. subst s'.
  rewrite (onShutdown_eq cb1) by assumption.
  rewrite (onShutdown_eq cb2) by assumption.
  rewrite shutdown_teardown by assumption.
  rewrite teardown_eq.
  exists ([Console WARN ">>> Engine shutting down..."; ClearTimeout (globalTimer s)] ++
          map Invoke ((shutdownCallbacks s ++ [cb1]) ++ [cb2])).
  exists ((if metricDisplay s then [MetricDisplayRemove] else []) ++
          [Console DEBUG ">>> Cancelling all timers"] ++
          cancels (timerPool s) ++
          last_events now
            (set_shuttingDown true
               (set_shutdownCallbacks ((shutdownCallbacks s ++ [cb1]) ++ [cb2]) s))).
  repeat apply conj.
  - crunch. rewrite <- !List.app_assoc. reflexivity.
  - change (invocations (map Invoke ((shutdownCallbacks s ++ [cb1]) ++ [cb2]))
            = shutdownCallbacks s ++ [cb1; cb2]).
    rewrite invocations_Invoke, <- List.app_assoc. reflexivity.
  - change (cancellations (map Invoke ((shutdownCallbacks s ++ [cb1]) ++ [cb2])) = []).
    apply cancellations_Invoke.
  - rewrite !invocations_app, invocations_cancels, invocations_last_events.
    destruct (metricDisplay s); reflexivity.
  - rewrite !cancellations_app, cancellations_cancels, cancellations_last_events.
    destruct (metricDisplay s); cbn; apply List.app_nil_r.
  - reflexivity.
  - reflexivity.
Qed.



(** **** Shutting down a paused engine *)

Lemma shutdown_deferred (s : State) :
  shuttingDown s = false ->
  running s = false ->
  started s = true ->
  shutdown now s =
  set_trace (trace s ++ [SetTimeout (nextHandle s) CallShutdown (fpsClock s * 2)])
    (set_pending
       (pending s ++ [mkPending (nextHandle s) (Some (fpsClock s * 2)) CallShutdown])
       (set_nextHandle (S (nextHandle s)) (set_running true (set_shuttingDown true s)))).
Proof.
  intros Hsd Hrun Hst. destruct_state s. cbn in Hsd, Hrun, Hst. subst. reflexivity.
Qed.

Lemma find_fresh (h : Handle) (l : list Pending) (x : Pending) :
  (forall p, In p l -> handle p <> h) ->
  handle x = h ->
  List.find (fun p => Nat.eqb (handle p) h) (l ++ [x]) = Some x.
Proof.
  intros Hl Hx. induction l as [|p l IH]; cbn.
  - rewrite Hx, Nat.eqb_refl. reflexivity.
  - destruct (Nat.eqb_spec (handle p) h) as [E|_].
    + exfalso. apply (Hl p); [left; reflexivity | exact E].
    + apply IH. intros q Hq. apply Hl. right. exact Hq.
Qed.

Lemma filter_fresh (h : Handle) (l : list Pending) (x : Pending) :
  (forall p, In p l -> handle p <> h) ->
  handle x = h ->
  List.filter (fun q => negb (Nat.eqb (handle q) h)) (l ++ [x]) = l.
Proof.
  intros Hl Hx. induction l as [|p l IH]; cbn.
  - rewrite Hx, Nat.eqb_refl. reflexivity.
  - destruct (Nat.eqb_spec (handle p) h) as [E|_]; cbn.
    + exfalso. apply (Hl p); [left; reflexivity | exact E].
    + f_equal. apply IH. intros q Hq. apply Hl. right. exact Hq.
Qed.

(** While [shuttingDown] is set, [shutdown()] and the world timer return at
    their first test. *)
Lemma shutdown_idle (s : State) : shuttingDown s = true -> shutdown now s = s.
Proof. intros Hsd. unfold shutdown. rewrite Hsd. reflexivity. Qed.

Lemma engineTimer_idle (s : State) : shuttingDown s = true -> engineTimer now s = s.
Proof. intros Hsd. unfold engineTimer. rewrite Hsd. reflexivity. Qed.

(** Once [shuttingDown] is set, no call on the engine clears it, touches the
    shutdown queue, calls a shutdown callback or cancels a pooled timer. *)
Lemma api_stalled (c : Api) (s : State) :
  shuttingDown s = true ->
  shuttingDown (api now c s) = true /\
  shutdownCallbacks (api now c s) = shutdownCallbacks s /\
  invocations (trace (api now c s)) = invocations (trace s) /\
  cancellations (trace (api now c s)) = cancellations (trace s).
Proof.
  intros Hsd.
  destruct c as [supported| | | |fn'| |fps|obj|obj|name t|name|h]; cbn [api].
  - destruct_state s. cbn in Hsd. subst. unfold startup, after.
    destruct running_, supported; crunch;
      rewrite ?invocations_app, ?cancellations_app, ?List.app_nil_r;
      repeat split; reflexivity.
  - unfold run. rewrite Hsd. repeat split; assumption || reflexivity.
  - unfold step. destruct (running s); [repeat split; assumption || reflexivity|].
    rewrite engineTimer_idle by exact Hsd. fields. repeat split; assumption || reflexivity.
  - unfold pause. rewrite Hsd. repeat split; assumption || reflexivity.
  - unfold onShutdown. rewrite Hsd. repeat split; assumption || reflexivity.
  - rewrite shutdown_idle by exact Hsd. repeat split; assumption || reflexivity.
  - unfold setFPS. destruct (Qeq_bool fps 0); fields; repeat split; assumption || reflexivity.
  - destruct_state s. cbn in Hsd. subst. unfold create, after. crunch.
    rewrite ?invocations_app, ?cancellations_app, ?List.app_nil_r.
    repeat split; reflexivity.
  - unfold destroy. destruct obj; fields;
      rewrite ?invocations_app, ?cancellations_app, ?List.app_nil_r;
      repeat split; assumption || reflexivity.
  - unfold addTimer. fields. repeat split; assumption || reflexivity.
  - unfold removeTimer. fields. repeat split; assumption || reflexivity.
  - unfold fire. destruct (List.find _ (pending s)) as [p|];
      [|repeat split; assumption || reflexivity].
    destruct (callback p); cbn [call];
      [rewrite engineTimer_idle by exact Hsd | rewrite shutdown_idle by exact Hsd];
      fields; repeat split; assumption || reflexivity.
Qed.

Lemma session_stalled (script : list Api) (s : State) :
  shuttingDown s = true ->
  shuttingDown (session now script s) = true /\
  shutdownCallbacks (session now script s) = shutdownCallbacks s /\
  invocations (trace (session now script s)) = invocations (trace s) /\
  cancellations (trace (session now script s)) = cancellations (trace s).
Proof.
  revert s. induction script as [|c script IH]; intros s Hsd; cbn [session fold_left].
  - repeat split; assumption || reflexivity.
  - destruct (api_stalled c s Hsd) as (Hsd' & Hq & Hi & Hc).
    destruct (IH (api now c s) Hsd') as (H1 & H2 & H3 & H4).
    unfold session in H1, H2, H3, H4.
    repeat split; [exact H1 | | | ]; congruence.
Qed.

(** C2, as the code has it.  [shutdown()] on a started, paused engine sets
    [running], and hands the browser a callback that calls [shutdown()] again
    after twice the frame budget.  When that callback runs, [shuttingDown] is
    still set, so the call returns at its first test: nothing is torn down
    ([started] stays set, no callback is called, no timer is cancelled, the
    context is kept) and [shuttingDown] stays set.  Nothing the engine is
    asked to do afterwards completes the shutdown either. *)
Theorem shutdown_while_paused_never_completes (s : State) :
  shuttingDown s = false ->
  running s = false ->
  started s = true ->
  (forall p, In p (pending s) -> handle p <> nextHandle s) ->
  let h := nextHandle s in
  let s1 := shutdown now s in
  let s2 := fire now h s1 in
  running s1 = true /\
  shuttingDown s1 = true /\
  pending s1 = pending s ++ [mkPending h (Some (fpsClock s * 2)) CallShutdown] /\
  s2 = set_pending (pending s) s1 /\
  started s2 = true /\
  shuttingDown s2 = true /\
  shutdownCallbacks s2 = shutdownCallbacks s /\
  timerPool s2 = timerPool s /\
  defaultContext s2 = defaultContext s /\
  trace s2 = trace s ++ [SetTimeout h CallShutdown (fpsClock s * 2)] /\
  (forall script,
      let s3 := session now script s2 in
      shuttingDown s3 = true /\
      shutdownCallbacks s3 = shutdownCallbacks s /\
      invocations (trace s3) = invocations (trace s) /\
      cancellations (trace s3) = cancellations (trace s)).
Proof.
  intros Hsd Hrun Hst Hfresh h s1 s2.
  assert (Hs2 : s2 = set_pending (pending s) s1).
  { subst s2 s1 h. rewrite shutdown_deferred by assumption.
    unfold fire. cbn [pending set_pending set_trace].
    rewrite find_fresh, filter_fresh by (assumption || reflexivity).
    cbn [call callback]. unfold shutdown. fields. reflexivity. }
  assert (Hsd2 : shuttingDown s2 = true).
  { rewrite Hs2. subst s1. rewrite shutdown_deferred by assumption. reflexivity. }
  assert (Htr : trace s2 = trace s ++ [SetTimeout h CallShutdown (fpsClock s * 2)]).
  { rewrite Hs2. subst s1 h. rewrite shutdown_deferred by assumption. reflexivity. }
  assert (Hq : shutdownCallbacks s2 = shutdownCallbacks s).
  { rewrite Hs2. subst s1. rewrite shutdown_deferred by assumption. reflexivity. }
  repeat apply conj; try assumption.
  - subst s1. rewrite shutdown_deferred by assumption. reflexivity.
  - subst s1. rewrite shutdown_deferred by assumption. reflexivity.
  - subst s1 h. rewrite shutdown_deferred by assumption. reflexivity.
  - rewrite Hs2. subst s1. rewrite shutdown_deferred by assumption. fields. exact Hst.
  - rewrite Hs2. subst s1. rewrite shutdown_deferred by assumption. reflexivity.
  - rewrite Hs2. subst s1. rewrite shutdown_deferred by assumption. reflexivity.
  - intros script s3. subst s3.
    destruct (session_stalled script s2 Hsd2) as (H1 & H2 & H3 & H4).
    rewrite H2, H3, H4, Hq, Htr, invocations_app, cancellations_app.
    cbn [invocations cancellations flat_map app]. rewrite !List.app_nil_r.
    repeat split; assumption || reflexivity.
Qed.

(** **** The next frame *)

(** A regular tick: the engine is running, is not single-stepping, and asks
    for its next tick with [setTimeout].  The clock is read twice, before and
    after the traversal; [next] is the delay the next tick is scheduled
    with. *)
Lemma engineTimer_tick (s : State) :
  shuttingDown s = false ->
  running s = true ->
  _stepOne s <> 1 ->
  nativeAnimationFrame s = false ->
  let t0 := now (reads s) in
  let cost := now (S (reads s)) - t0 in
  let f := fpsClock s - cost in
  let next := if skipFrames s then (if f >? 0 then f else fpsClock s) else fpsClock s in
  let ctx := default DocumentContext (defaultContext s) in
  engineTimer now s =
  set_globalTimer (Some (nextHandle s))
    (set_trace
       (trace s ++
        match defaultContext s with None => [ContextCreate] | Some _ => [] end ++
        [ContextUpdate ctx t0 (t0 - lastTime s)] ++
        (if metricsLoaded s then [DoMetrics] else []) ++
        [SetTimeout (nextHandle s) CallEngineTimer next])
    (set_pending (pending s ++ [mkPending (nextHandle s) (Some next) CallEngineTimer])
    (set_nextHandle (S (nextHandle s))
    (set_droppedFrames
       (droppedFrames s +
        (if f <=? 0 then Math_round (js_div (f * -1) (fpsClock s)) else 0))
    (set_totalFrames (totalFrames s + 1)
    (set_liveTime (t0 - upTime s)
    (set_frameTime cost
    (set_reads (S (S (reads s)))
    (set_lastTime t0
    (set_worldTime t0
    (set_defaultContext (Some ctx)
    (set_rObjs 0 (set_vObj 0 s))))))))))))).
Proof.
  intros Hsd Hrun Hstep Hnat.
  destruct_state s. cbn in Hsd, Hrun, Hstep, Hnat. subst.
  destruct stepOne_ as [|[p|p|]|p], defaultContext_, metricsLoaded_; try congruence;
    unfold engineTimer, renderFrame; evaluate; rewrite <- ?List.app_assoc; reflexivity.
Qed.

(** Under the skip-frames policy, a regular tick that stayed under its budget
    schedules the next one after what is left of the budget, and drops no
    frame. *)
Lemma engineTimer_under_budget (s : State) :
  shuttingDown s = false ->
  running s = true ->
  _stepOne s <> 1 ->
  skipFrames s = true ->
  nativeAnimationFrame s = false ->
  now (S (reads s)) - now (reads s) < fpsClock s ->
  let s' := engineTimer now s in
  frameTime s' = now (S (reads s)) - now (reads s) /\
  pending s' =
    pending s ++ [mkPending (nextHandle s) (Some (fpsClock s - frameTime s')) CallEngineTimer] /\
  droppedFrames s' = droppedFrames s.
Proof.
  intros Hsd Hrun Hstep Hskip Hnat Hcost s'. subst s'.
  assert (Hgt : (fpsClock s - (now (S (reads s)) - now (reads s)) >? 0) = true) by lia.
  assert (Hle : (fpsClock s - (now (S (reads s)) - now (reads s)) <=? 0) = false) by lia.
  rewrite engineTimer_tick by assumption. cbv zeta. fields.
  rewrite Hskip, Hgt, Hle.
  repeat apply conj; [reflexivity | reflexivity | lia].
Qed.

(** C1, as the code has it.  A regular tick (engine running, next tick by
    [setTimeout]) under the skip-frames policy whose measured cost
    [frameTime] exceeds the budget [fpsClock]: the next tick is scheduled
    after the full [fpsClock], not sooner, and [droppedFrames] grows by
    [round((frameTime - fpsClock) / fpsClock)], the nearest integer. *)
Theorem engineTimer_over_budget (s : State) :
  shuttingDown s = false ->
  running s = true ->
  _stepOne s <> 1 ->
  skipFrames s = true ->
  nativeAnimationFrame s = false ->
  0 < fpsClock s ->
  fpsClock s < now (S (reads s)) - now (reads s) ->
  let s' := engineTimer now s in
  let dropped := Math_round (js_div (frameTime s' - fpsClock s) (fpsClock s)) in
  frameTime s' = now (S (reads s)) - now (reads s) /\
  pending s' = pending s ++ [mkPending (nextHandle s) (Some (fpsClock s)) CallEngineTimer] /\
  globalTimer s' = Some (nextHandle s) /\
  totalFrames s' = totalFrames s + 1 /\
  droppedFrames s' = droppedFrames s + dropped /\
  2 * dropped * fpsClock s - fpsClock s
    <= 2 * (frameTime s' - fpsClock s)
    < 2 * dropped * fpsClock s + fpsClock s.
Proof.
  intros Hsd Hrun Hstep Hskip Hnat Hpos Hcost s' dropped.
  pose proof (Math_round_nearest (frameTime s' - fpsClock s) (fpsClock s) Hpos) as Hround.
  cbv zeta in Hround. fold dropped in Hround.
  repeat apply conj; [| | | | | apply Hround | apply Hround].
  all: clear Hround; subst dropped s'.
  all: assert (Hgt : (fpsClock s - (now (S (reads s)) - now (reads s)) >? 0) = false) by lia.
  all: assert (Hle : (fpsClock s - (now (S (reads s)) - now (reads s)) <=? 0) = true) by lia.
  all: rewrite engineTimer_tick by assumption; cbv zeta; fields.
  all: rewrite ?Hskip, ?Hgt, ?Hle; try reflexivity.
  do 3 f_equal. lia.
Qed.

(** **** Where a callback invocation comes from *)

(** The world timer neither touches the shutdown queue nor calls a
    callback. *)
Lemma engineTimer_callbacks (s : State) :
  shutdownCallbacks (engineTimer now s) = shutdownCallbacks s /\
  invocations (trace (engineTimer now s)) = invocations (trace s).
Proof.
  destruct_state s.
  destruct shuttingDown_, running_, stepOne_ as [|[p|p|]|p], defaultContext_,
    metricsLoaded_, nativeAnimationFrame_;
    unfold engineTimer, renderFrame; evaluate;
    (split; [reflexivity|]);
    rewrite ?invocations_app; cbn [invocations flat_map app];
    rewrite ?List.app_nil_r; reflexivity.
Qed.

Lemma engineTimer_origin (fn : Callback) (s : State) :
  queued fn (engineTimer now s) \/ called fn (engineTimer now s) ->
  queued fn s \/ called fn s.
Proof.
  unfold queued, called. destruct (engineTimer_callbacks s) as [-> ->]. tauto.
Qed.

(** [shutdown()] calls only what is in the queue. *)
Lemma shutdown_origin (fn : Callback) (s : State) :
  queued fn (shutdown now s) \/ called fn (shutdown now s) ->
  queued fn s \/ called fn s.
Proof.
  unfold queued, called.
  destruct (shuttingDown s) eqn:Hsd.
  { unfold shutdown. rewrite Hsd. tauto. }
  destruct (running s) eqn:Hrun; [|destruct (started s) eqn:Hst].
  - rewrite shutdown_teardown, teardown_eq by (assumption || (left; assumption)).
    fields.
    rewrite !invocations_app, invocations_Invoke, invocations_cancels,
      invocations_last_events.
    destruct (metricDisplay s); cbn [invocations flat_map app];
      rewrite ?List.app_nil_r, ?in_app_iff; cbn [In]; tauto.
  - rewrite shutdown_deferred by assumption. fields.
    rewrite invocations_app. cbn [invocations flat_map app].
    rewrite List.app_nil_r. cbn [In]. tauto.
  - rewrite shutdown_teardown, teardown_eq by (assumption || (right; assumption)).
    fields.
    rewrite !invocations_app, invocations_Invoke, invocations_cancels,
      invocations_last_events.
    destruct (metricDisplay s); cbn [invocations flat_map app];
      rewrite ?List.app_nil_r, ?in_app_iff; cbn [In]; tauto.
Qed.

Lemma run_origin (fn : Callback) (s : State) :
  queued fn (run now s) \/ called fn (run now s) -> queued fn s \/ called fn s.
Proof.
  unfold run. destruct (shuttingDown s || running s); [tauto|].
  rewrite for_each_timer_eq. cbv beta iota zeta delta [R_now].
  intros H. apply engineTimer_origin in H. revert H.
  unfold queued, called. fields.
  rewrite !invocations_app, invocations_timers by discriminate.
  cbn [invocations flat_map app]. rewrite ?List.app_nil_r. cbn [In]. tauto.
Qed.

Lemma step_origin (fn : Callback) (s : State) :
  queued fn (step now s) \/ called fn (step now s) -> queued fn s \/ called fn s.
Proof.
  unfold step. destruct (running s); [tauto|].
  intros H. apply engineTimer_origin in H. exact H.
Qed.

Lemma pause_origin (fn : Callback) (s : State) :
  queued fn (pause now s) \/ called fn (pause now s) -> queued fn s \/ called fn s.
Proof.
  unfold pause. destruct (shuttingDown s); [tauto|].
  cbv beta iota zeta delta [R_now]. rewrite for_each_timer_eq.
  unfold queued, called, clearTimeout. fields.
  rewrite !invocations_app, invocations_timers by discriminate.
  cbn [invocations flat_map app]. rewrite ?List.app_nil_r. cbn [In]. tauto.
Qed.

Lemma fire_origin (fn : Callback) (h : Handle) (s : State) :
  queued fn (fire now h s) \/ called fn (fire now h s) -> queued fn s \/ called fn s.
Proof.
  unfold fire. destruct (List.find _ (pending s)) as [p|]; [|tauto].
  intros H. destruct (callback p); cbn [call] in H;
    [apply engineTimer_origin in H | apply shutdown_origin in H]; exact H.
Qed.

(** No call on the engine other than [onShutdown(fn)] itself brings [fn] into
    the queue, and only what is in the queue is ever called. *)
Lemma api_origin (fn : Callback) (c : Api) (s : State) :
  c <> OnShutdown fn ->
  queued fn (api now c s) \/ called fn (api now c s) -> queued fn s \/ called fn s.
Proof.
  intros Hc. destruct c as [supported| | | |fn'| |fps|obj|obj|name t|name|h]; cbn [api].
  - unfold startup, after, queued, called. destruct_state s.
    destruct running_, supported; crunch; rewrite ?invocations_app;
      cbn [invocations flat_map app]; rewrite ?List.app_nil_r; cbn [In]; tauto.
  - apply run_origin.
  - apply step_origin.
  - apply pause_origin.
  - unfold onShutdown, queued, called. destruct (shuttingDown s); [tauto|]. fields.
    rewrite in_app_iff. cbn [In]. intros [[H|[H|[]]]|H]; [tauto| |tauto].
    exfalso. apply Hc. rewrite H. reflexivity.
  - apply shutdown_origin.
  - unfold setFPS, queued, called. destruct (Qeq_bool fps 0); [tauto|]. fields. tauto.
  - unfold create, after, queued, called. destruct_state s.
    destruct shuttingDown_, started_; crunch; rewrite ?invocations_app;
      cbn [invocations flat_map app]; rewrite ?List.app_nil_r; cbn [In]; tauto.
  - unfold destroy, queued, called. destruct obj; fields; rewrite ?invocations_app;
      cbn [invocations flat_map app]; rewrite ?List.app_nil_r; cbn [In]; tauto.
  - unfold addTimer, queued, called. fields. tauto.
  - unfold removeTimer, queued, called. fields. tauto.
  - apply fire_origin.
Qed.

Lemma session_origin (fn : Callback) (script : list Api) (s : State) :
  ~ In (OnShutdown fn) script ->
  queued fn (session now script s) \/ called fn (session now script s) ->
  queued fn s \/ called fn s.
Proof.
  revert s. induction script as [|c script IH]; intros s Hscript; cbn [session fold_left].
  - tauto.
  - intros H. apply IH in H.
    + apply api_origin in H; [exact H|].
      intros ->. apply Hscript. left. reflexivity.
    + intros Hin. apply Hscript. right. exact Hin.
Qed.

(** C10.  For every callback [fn], [onShutdown(fn)] while [shuttingDown] is
    set is a silent no-op: the engine is left exactly as it was, so [fn] does
    not enter the queue; and a callback that was neither queued nor called
    before is not called by anything the engine is asked to do afterwards,
    short of registering it anew. *)
Theorem onShutdown_while_shutting_down (fn : Callback) (s : State) :
  shuttingDown s = true ->
  onShutdown fn s = s /\
  (~ queued fn s -> ~ queued fn (onShutdown fn s)) /\
  (forall script,
      ~ queued fn s ->
      ~ called fn s ->
      ~ In (OnShutdown fn) script ->
      ~ called fn (session now script (onShutdown fn s))).
Proof.
  intros Hsd.
  assert (Hid : onShutdown fn s = s) by (unfold onShutdown; rewrite Hsd; reflexivity).
  rewrite Hid. repeat apply conj; [reflexivity | tauto |].
  intros script Hq Hc Hscript Hcalled.
  destruct (session_origin fn script s Hscript (or_intror Hcalled)); tauto.
Qed.

End Lifecycle.

Section LifecycleWitnesses.

Import Engine.

Lemma shutdown_callbacks_before_timers_witness :
  shuttingDown Scenario.running = false /\
  (running Scenario.running = true \/ started Scenario.running = false) /\
  let s' := shutdown Scenario.clock
              (onShutdown 2%nat (onShutdown 1%nat Scenario.running)) in
  exists before after,
    trace s' = trace Scenario.running ++ before ++ after /\
    invocations before = shutdownCallbacks Scenario.running ++ [1%nat; 2%nat] /\
    cancellations before = [] /\
    invocations after = [] /\
    cancellations after = timerPool Scenario.running /\
    shutdownCallbacks s' = [] /\
    timerPool s' = [].
Proof.
  split; [vm_compute; reflexivity|]. split; [left; vm_compute; reflexivity|].
  apply (shutdown_callbacks_before_timers Scenario.clock 1%nat 2%nat Scenario.running);
    [vm_compute; reflexivity | left; vm_compute; reflexivity].
Defined.



Lemma shutdown_while_paused_never_completes_witness :
  shuttingDown Scenario.paused = false /\
  running Scenario.paused = false /\
  started Scenario.paused = true /\
  let s2 := fire Scenario.clock (nextHandle Scenario.paused) Scenario.stalled in
  started s2 = true /\
  shuttingDown s2 = true /\
  shutdownCallbacks s2 = [7%nat] /\
  timerPool s2 = [("spawn", 2%nat); ("blink", 1%nat)] /\
  invocations (trace s2) = [] /\
  cancellations (trace s2) = [] /\
  (forall script, shuttingDown (session Scenario.clock script s2) = true).
Proof.
  assert (Hfresh : forall p, In p (pending Scenario.paused) ->
                             handle p <> nextHandle Scenario.paused).
  { vm_compute. intros p []. }
  assert (Hsd0 : shuttingDown Scenario.paused = false) by (vm_compute; reflexivity).
  assert (Hrun0 : running Scenario.paused = false) by (vm_compute; reflexivity).
  assert (Hst0 : started Scenario.paused = true) by (vm_compute; reflexivity).
  pose proof (shutdown_while_paused_never_completes Scenario.clock Scenario.paused
                Hsd0 Hrun0 Hst0 Hfresh) as H.
  cbv zeta in H.
  destruct H as (_ & _ & _ & _ & Hst & Hsd & _ & _ & _ & _ & Hever).
  repeat apply conj; try assumption; [| | | |intros script; apply Hever];
    vm_compute; reflexivity.
Defined.

Lemma engineTimer_over_budget_witness :
  shuttingDown Scenario.running = false /\
  running Scenario.running = true /\
  _stepOne Scenario.running <> 1 /\
  skipFrames Scenario.running = true /\
  nativeAnimationFrame Scenario.running = false /\
  0 < fpsClock Scenario.running /\
  fpsClock Scenario.running
    < Scenario.clock (S (reads Scenario.running)) - Scenario.clock (reads Scenario.running) /\
  let s' := engineTimer Scenario.clock Scenario.running in
  frameTime s' = 40 /\
  pending s' =
    pending Scenario.running ++
    [mkPending (nextHandle Scenario.running) (Some 16) CallEngineTimer] /\
  droppedFrames s' = droppedFrames Scenario.running + 2.
Proof.
  assert (H1 : shuttingDown Scenario.running = false) by (vm_compute; reflexivity).
  assert (H2 : running Scenario.running = true) by (vm_compute; reflexivity).
  assert (H3 : _stepOne Scenario.running <> 1) by (vm_compute; discriminate).
  assert (H4 : skipFrames Scenario.running = true) by (vm_compute; reflexivity).
  assert (H5 : nativeAnimationFrame Scenario.running = false) by (vm_compute; reflexivity).
  assert (H6 : 0 < fpsClock Scenario.running) by (vm_compute; reflexivity).
  assert (H7 : fpsClock Scenario.running
               < Scenario.clock (S (reads Scenario.running))
                 - Scenario.clock (reads Scenario.running)) by (vm_compute; reflexivity).
  repeat (split; [assumption|]).
  destruct (engineTimer_over_budget Scenario.clock Scenario.running H1 H2 H3 H4 H5 H6 H7)
    as (Hft & Hp & _ & _ & Hd & _).
  repeat apply conj.
  - rewrite Hft. vm_compute. reflexivity.
  - rewrite Hp. vm_compute. reflexivity.
  - rewrite Hd, Hft. vm_compute. reflexivity.
Defined.

(** C1 as the specification has it, on the 60 fps scenario: the engine runs at a 16 ms
    budget under the skip-frames policy; the browser fires the pending tick,
    whose traversal costs 40 ms.  Two frames are counted as dropped, and the
    next tick is scheduled 16 ms later: no pending callback has a delay
    smaller than [fpsClock]. *)
Lemma engineTimer_catch_up_counterexample :
  let s := Scenario.running in
  let s' := fire Scenario.clock 0%nat s in
  skipFrames s = true /\
  fpsClock s = 16 /\
  frameTime s' = 40 /\
  droppedFrames s' = droppedFrames s + 2 /\
  pending s' = [mkPending 1%nat (Some 16) CallEngineTimer] /\
  ~ (exists p d, In p (pending s') /\ delay p = Some d /\ d < fpsClock s).
Proof.
  cbv zeta.
  assert (Hp : pending (fire Scenario.clock 0%nat Scenario.running)
               = [mkPending 1%nat (Some 16) CallEngineTimer]) by (vm_compute; reflexivity).
  assert (Hf : fpsClock Scenario.running = 16) by (vm_compute; reflexivity).
  repeat apply conj; try (vm_compute; reflexivity).
  intros (p & d & Hin & Hd & Hlt). rewrite Hp in Hin. rewrite Hf in Hlt.
  destruct Hin as [<-|[]]. cbn in Hd. injection Hd as <-. lia.
Qed.

Lemma onShutdown_while_shutting_down_witness :
  shuttingDown Scenario.stalled = true /\
  onShutdown 9%nat Scenario.stalled = Scenario.stalled /\
  (~ queued 9%nat Scenario.stalled -> ~ queued 9%nat (onShutdown 9%nat Scenario.stalled)) /\
  (forall script,
      ~ queued 9%nat Scenario.stalled ->
      ~ called 9%nat Scenario.stalled ->
      ~ In (OnShutdown 9%nat) script ->
      ~ called 9%nat (session Scenario.clock script (onShutdown 9%nat Scenario.stalled))).
Proof.
  assert (H : shuttingDown Scenario.stalled = true) by (vm_compute; reflexivity).
  split; [exact H|].
  apply (onShutdown_while_shutting_down Scenario.clock 9%nat Scenario.stalled H).
Defined.

End LifecycleWitnesses.

(** * Properties of the event bookkeeping *)

Section Events.

Import BaseObject.

(** [removeEvent] on an object without an element, for a named owner, does
    nothing at all. *)
Lemma removeEvent_without_element (ref : Ref) (type : string) (o : Object) :
  element o = None ->
  removeEvent (Some ref) type o = ([], o).
Proof. intros He. unfold removeEvent, getElement. rewrite He. reflexivity. Qed.

(** [removeEvent] with a null owner detaches from the document body and
    leaves the object, its [events] map included, as it was. *)
Lemma removeEvent_global (type : string) (o : Object) :
  snd (removeEvent None type o) = o.
Proof. reflexivity. Qed.

(** C3, as the code has it.  For every owner that is not null and every
    event type, [removeEvent(owner, type)] on an object that has an element
    deletes the entry [owner.getName() + "," + type] from the [events] map,
    whether or not a handler was found to detach, and leaves every other
    entry alone; the handler is detached exactly when one was found.  On an
    object without an element the call does nothing. *)
Theorem removeEvent_deletes_entry (ref : Ref) (type : string) (o : Object) :
  let key := event_key (Some ref) type in
  let calls := fst (removeEvent (Some ref) type o) in
  let o' := snd (removeEvent (Some ref) type o) in
  (forall el,
      element o = Some el ->
      events o' !! key = None /\
      (forall k, k <> key -> events o' !! k = events o !! k) /\
      element o' = element o /\
      (truthy (get key o) = true ->
       exists message,
         calls = [ConsoleInfo message; ClearHandler (OnElement el) type (get key o)]) /\
      (truthy (get key o) = false -> calls = [])) /\
  (element o = None -> calls = [] /\ o' = o).
Proof.
  intros key calls o'. subst key calls o'. split.
  - intros el He. unfold removeEvent, getElement. rewrite He.
    cbn [fst snd events set_events element event_key].
    repeat apply conj.
    + apply lookup_delete_eq.
    + intros k Hk. apply lookup_delete_ne. congruence.
    + exact He.
    + intros ->. eexists. reflexivity.
    + intros ->. reflexivity.
  - intros He. rewrite removeEvent_without_element by exact He. split; reflexivity.
Qed.

Lemma removeEvent_deletes_entry_witness :
  element Scenario.button_clickable = Some (Node 1) /\
  events Scenario.button_clickable !! "Player,click" = Some (Function 1) /\
  events (snd (removeEvent (Some Scenario.player) "click" Scenario.button_clickable))
    !! "Player,click" = None.
Proof.
  split; [reflexivity|]. split; [vm_compute; reflexivity|].
  apply (proj1 (removeEvent_deletes_entry Scenario.player "click" Scenario.button_clickable)
           (Node 1)).
  reflexivity.
Defined.

(** C3 as the specification has it, on two objects.  A global handler ([null] owner):
    after [removeEvent(null, "keydown")] the entry ["document,keydown"] is
    still in the map.  A named owner on an object whose element has been set
    to [null]: after [removeEvent(owner, "click")] the entry
    ["Player,click"] is still in the map, handler and all. *)
Lemma removeEvent_keeps_entry_counterexample :
  (events Scenario.button_global !! event_key None "keydown" = Some Undefined /\
   events (snd (removeEvent None "keydown" Scenario.button_global))
     !! event_key None "keydown" = Some Undefined) /\
  (events Scenario.button_detached !! event_key (Some Scenario.player) "click"
     = Some (Function 1) /\
   events (snd (removeEvent (Some Scenario.player) "click" Scenario.button_detached))
     !! event_key (Some Scenario.player) "click" = Some (Function 1)).
Proof. repeat split; vm_compute; reflexivity. Qed.

(** An event added by a named owner and removed again leaves no entry. *)
Lemma addEvent_removeEvent (ref : Ref) (type : string) (data fn : JsValue) (o : Object)
    (el : Element) :
  element o = Some el ->
  events o !! event_key (Some ref) type = None ->
  events (snd (removeEvent (Some ref) type (snd (addEvent (Some ref) type data fn o))))
    = events o.
Proof.
  intros He Hfree. unfold addEvent, removeEvent, getElement. rewrite He.
  cbn [fst snd events set_events element]. rewrite He. cbn [snd events set_events].
  rewrite delete_insert_eq. apply delete_id. exact Hfree.
Qed.

End Events.

(** * Properties of the render cache *)

Section RenderCache.

Import Billboard2D.

(** A pass in which the inherited [execute] answers false ends there: the
    component is as it was. *)
Lemma execute_not_drawing (env : Host) (time dt : Z) (this : Billboard) :
  baseExecute env = false ->
  execute env time dt this = Returned (perform (BaseExecute time dt) this).
Proof. intros Hb. unfold execute. rewrite Hb. reflexivity. Qed.

(** Whatever the blit does, the pass goes on after it. *)
Lemma blit_caught (env : Host) (this : Billboard) :
  exists b,
    try_catch (blit env this) (fun ex this => Returned this) = Returned b /\
    billboard b = billboard this /\ mode b = mode this /\
    renderComponent b = renderComponent this /\ hostRect b = hostRect this /\
    calls b = calls this ++
              match billboard this with
              | Some img => [DrawImage (boundingBox env) img]
              | None => []
              end.
Proof.
  unfold blit. destruct (billboard this) as [img|] eqn:Hb.
  - destruct (drawImageFails env); cbn [try_catch]; eexists;
      (split; [reflexivity|]); cbn; rewrite ?Hb; repeat split; reflexivity.
  - cbn [try_catch]. eexists. split; [reflexivity|].
    rewrite Hb, List.app_nil_r. repeat split; reflexivity.
Qed.

(** C7, as the code has it.  A Billboard2D built from a render component (or
    a text renderer) has mode REDRAW when its constructor returns; after an
    [execute] in REDRAW mode in which the inherited [execute] answered true,
    its mode is NORMAL, while an [execute] in which it answered false returns
    at once and leaves the mode alone; and [regenerate()] sets the mode back
    to REDRAW and clears [hostRect]. *)
Theorem billboard_mode_machine (name : string) (rc : Component) (priority : option Q)
    (this : Billboard) (env : Host) (time dt : Z) :
  (kind rc <> OtherObject ->
   exists b, constructor name rc priority this = Returned b /\ mode b = Some REDRAW) /\
  (mode this = Some REDRAW ->
   exists b,
     execute env time dt this = Returned b /\
     mode b = Some (if baseExecute env then NORMAL else REDRAW)) /\
  mode (regenerate this) = Some REDRAW /\
  hostRect (regenerate this) = None.
Proof.
  repeat apply conj.
  - intros Hk. unfold constructor.
    destruct (kind rc); try congruence; eexists; split; reflexivity.
  - intros Hm. destruct (baseExecute env) eqn:Hbase.
    + unfold execute. rewrite Hbase. cbn [negb].
      unfold is_redraw. cbn [mode perform]. rewrite Hm.
      match goal with
      | |- context [try_catch (blit env ?x) _] =>
          destruct (blit_caught env x) as (b' & -> & _ & Hmode & _)
      end.
      cbn [andThen]. eexists. split; [reflexivity|].
      destruct (debugMode env); cbn [mode perform]; rewrite Hmode;
        destruct (billboard this); reflexivity.
    + rewrite execute_not_drawing by exact Hbase.
      eexists. split; [reflexivity | exact Hm].
  - reflexivity.
  - reflexivity.
Qed.

Lemma billboard_mode_machine_witness :
  kind Scenario.vector <> OtherObject /\
  mode Scenario.sign = Some REDRAW /\
  (exists b, execute Scenario.drawing 1000 16 Scenario.sign = Returned b /\
             mode b = Some NORMAL) /\
  mode (regenerate Scenario.sign_drawn) = Some REDRAW /\
  hostRect (regenerate Scenario.sign_drawn) = None.
Proof.
  assert (Hk : kind Scenario.vector <> OtherObject) by discriminate.
  assert (Hm : mode Scenario.sign = Some REDRAW) by reflexivity.
  destruct (billboard_mode_machine "draw" Scenario.vector None Scenario.sign
              Scenario.drawing 1000 16) as (_ & Hexec & _).
  destruct (billboard_mode_machine "draw" Scenario.vector None Scenario.sign_drawn
              Scenario.drawing 1000 16) as (_ & _ & Hmode & Hrect).
  repeat apply conj; [exact Hk | exact Hm | exact (Hexec Hm) | exact Hmode | exact Hrect].
Defined.

(** C7 as the specification has it, on a pass that does not draw: the billboard is in
    REDRAW mode, the inherited [execute] answers false, [execute] returns,
    and the mode is still REDRAW, not NORMAL. *)
Lemma execute_stays_in_redraw_counterexample :
  mode Scenario.sign = Some REDRAW /\
  exists b,
    execute Scenario.not_drawing 1000 16 Scenario.sign = Returned b /\
    mode b = Some REDRAW /\
    mode b <> Some NORMAL.
Proof.
  split; [reflexivity|]. eexists. split; [reflexivity|].
  split; [reflexivity | discriminate].
Qed.

(** C9.  In a draw pass in NORMAL mode, a failure raised by the blit (the
    [drawImage] call) is caught inside [execute]: the blit throws, [execute]
    returns all the same, having restored the transform origin and released
    the temporary point, and the component's fields are as they were. *)
Theorem execute_swallows_blit_failure (env : Host) (time dt : Z) (this : Billboard) :
  mode this = Some NORMAL ->
  baseExecute env = true ->
  drawImageFails env = true ->
  let at_blit :=
    perform (TransformOrigin true) (perform PointCreate (perform (BaseExecute time dt) this)) in
  (exists ex b, blit env at_blit = Thrown ex b) /\
  exists b,
    execute env time dt this = Returned b /\
    mode b = Some NORMAL /\
    billboard b = billboard this /\
    hostRect b = hostRect this /\
    calls b =
      calls this ++
      [BaseExecute time dt; PointCreate; TransformOrigin true] ++
      match billboard this with
      | Some img => [DrawImage (boundingBox env) img]
      | None => []
      end ++
      (if debugMode env
       then [SetLineStyle "green"; DrawRectangle (boundingBox env)] else []) ++
      [TransformOrigin false; PointDestroy].
Proof.
  intros Hm Hbase Hfail at_blit. split.
  - subst at_blit. unfold blit. cbn [billboard perform]. rewrite Hfail.
    destruct (billboard this); do 2 eexists; reflexivity.
  - unfold execute. rewrite Hbase. cbn [negb].
    unfold is_redraw. cbn [mode perform]. rewrite Hm.
    unfold blit. cbn [billboard perform]. rewrite Hfail.
    destruct (billboard this) as [img|] eqn:Hb, (debugMode env);
      cbn [try_catch andThen]; eexists; (split; [reflexivity|]);
      cbn [mode billboard hostRect calls perform];
      rewrite ?Hb, <- ?List.app_assoc; repeat split; assumption || reflexivity.
Qed.

Lemma execute_swallows_blit_failure_witness :
  mode Scenario.sign_drawn = Some NORMAL /\
  baseExecute Scenario.failing = true /\
  drawImageFails Scenario.failing = true /\
  exists b,
    execute Scenario.failing 1016 16 Scenario.sign_drawn = Returned b /\
    mode b = Some NORMAL.
Proof.
  repeat (split; [reflexivity|]).
  destruct (execute_swallows_blit_failure Scenario.failing 1016 16 Scenario.sign_drawn
              eq_refl eq_refl eq_refl) as (_ & b & Hb & Hmode & _).
  exists b. split; assumption.
Defined.

End RenderCache.

(** * Properties of the frame loop *)

Section FrameLoop.

Import Engine.

Variable now : nat -> Z.

(** **** The world timer, in closed form *)

(** A regular tick when the next one is requested as a native animation frame. *)
Lemma engineTimer_native_tick (s : State) :
  shuttingDown s = false ->
  running s = true ->
  _stepOne s <> 1 ->
  nativeAnimationFrame s = true ->
  let t0 := now (reads s) in
  let cost := now (S (reads s)) - t0 in
  let f := fpsClock s - cost in
  let ctx := default DocumentContext (defaultContext s) in
  engineTimer now s =
  set_trace
    (trace s ++
     match defaultContext s with None => [ContextCreate] | Some _ => [] end ++
     [ContextUpdate ctx t0 (t0 - lastTime s)] ++
     (if metricsLoaded s then [DoMetrics] else []) ++
     [NativeFrame CallEngineTimer])
    (set_pending (pending s ++ [mkPending (nextHandle s) None CallEngineTimer])
    (set_nextHandle (S (nextHandle s))
    (set_droppedFrames
       (droppedFrames s +
        (if f <=? 0 then Math_round (js_div (f * -1) (fpsClock s)) else 0))
    (set_totalFrames (totalFrames s + 1)
    (set_liveTime (t0 - upTime s)
    (set_frameTime cost
    (set_reads (S (S (reads s)))
    (set_lastTime t0
    (set_worldTime t0
    (set_defaultContext (Some ctx)
    (set_rObjs 0 (set_vObj 0 s)))))))))))).
Proof.
  intros Hsd Hrun Hstep Hnat.
  destruct_state s. cbn in Hsd, Hrun, Hstep, Hnat. subst.
  destruct stepOne_ as [|[p|p|]|p], defaultContext_, metricsLoaded_; try congruence;
    unfold engineTimer, renderFrame; evaluate; rewrite <- ?List.app_assoc; reflexivity.
Qed.

(** A single step: the world timer with [_stepOne] at 1. *)
Lemma engineTimer_step (s : State) :
  shuttingDown s = false ->
  _stepOne s = 1 ->
  let t0 := _pauseTime s in
  let cost := now (reads s) - t0 in
  let f := fpsClock s - cost in
  let ctx := default DocumentContext (defaultContext s) in
  engineTimer now s =
  set_stepOne 0
    (set_trace
       (trace s ++
        match defaultContext s with None => [ContextCreate] | Some _ => [] end ++
        [ContextUpdate ctx t0 (t0 - (t0 - fpsClock s))] ++
        (if metricsLoaded s then [DoMetrics] else []))
    (set_droppedFrames
       (droppedFrames s +
        (if f <=? 0 then Math_round (js_div (f * -1) (fpsClock s)) else 0))
    (set_totalFrames (totalFrames s + 1)
    (set_liveTime (t0 - upTime s)
    (set_pauseTime (t0 + cost)
    (set_frameTime cost
    (set_reads (S (reads s))
    (set_lastTime t0
    (set_worldTime t0
    (set_defaultContext (Some ctx)
    (set_rObjs 0 (set_vObj 0 s)))))))))))).
Proof.
  intros Hsd Hstep.
  destruct_state s. cbn in Hsd, Hstep. subst.
  destruct running_, defaultContext_, metricsLoaded_;
    unfold engineTimer, renderFrame; evaluate; rewrite <- ?List.app_assoc; reflexivity.
Qed.

(** The world timer called on a paused engine whose [_stepOne] is neither 0
    nor 1 (no code of the engine leaves it so): no frame, but a next tick. *)
Lemma engineTimer_stray (s : State) :
  shuttingDown s = false ->
  running s = false ->
  _stepOne s <> 0 ->
  _stepOne s <> 1 ->
  engineTimer now s =
  if nativeAnimationFrame s then
    set_trace (trace s ++ [NativeFrame CallEngineTimer])
      (set_pending (pending s ++ [mkPending (nextHandle s) None CallEngineTimer])
         (set_nextHandle (S (nextHandle s)) s))
  else
    set_globalTimer (Some (nextHandle s))
      (set_trace (trace s ++ [SetTimeout (nextHandle s) CallEngineTimer (fpsClock s)])
         (set_pending
            (pending s ++ [mkPending (nextHandle s) (Some (fpsClock s)) CallEngineTimer])
            (set_nextHandle (S (nextHandle s)) s))).
Proof.
  intros Hsd Hrun H0 H1.
  destruct_state s. cbn in Hsd, Hrun, H0, H1. subst.
  destruct stepOne_ as [|[p|p|]|p], nativeAnimationFrame_; try congruence;
    unfold engineTimer; evaluate; reflexivity.
Qed.

Lemma engineTimer_returns_early (s : State) :
  shuttingDown s = true \/ (running s = false /\ _stepOne s = 0) ->
  engineTimer now s = s.
Proof.
  intros [Hsd | [Hrun H0]]; unfold engineTimer.
  - rewrite Hsd. reflexivity.
  - rewrite Hrun, H0. destruct (shuttingDown s); reflexivity.
Qed.

Lemma engineTimer_way (s : State) : Way s.
Proof.
  destruct (shuttingDown s) eqn:Hsd; [apply Idle; left; exact Hsd|].
  destruct (Z.eq_dec (_stepOne s) 1) as [H1|H1]; [apply Stepping; assumption|].
  destruct (running s) eqn:Hrun.
  - destruct (nativeAnimationFrame s) eqn:Hnat;
      [apply TickingNative | apply Ticking]; assumption.
  - destruct (Z.eq_dec (_stepOne s) 0) as [H0|H0];
      [apply Idle; right; split; assumption | apply Stray; assumption].
Qed.

Lemma engineTimer_running (s : State) : running (engineTimer now s) = running s.
Proof.
  destruct (engineTimer_way s).
  - rewrite engineTimer_returns_early by assumption. reflexivity.
  - rewrite engineTimer_step by assumption. reflexivity.
  - rewrite engineTimer_tick by assumption. reflexivity.
  - rewrite engineTimer_native_tick by assumption. reflexivity.
  - rewrite engineTimer_stray by assumption.
    destruct (nativeAnimationFrame s); reflexivity.
Qed.

(** **** Reading frames and timer calls off a trace *)

Lemma frames_app (tr tr' : list Event) : frames (tr ++ tr') = frames tr ++ frames tr'.
Proof. unfold frames. apply flat_map_app. Qed.

Lemma timer_calls_app (tr tr' : list Event) :
  timer_calls (tr ++ tr') = timer_calls tr ++ timer_calls tr'.
Proof. unfold timer_calls. apply List.filter_app. Qed.

(** **** A single step *)



(** **** The delay of the next tick *)


(** What a regular tick adds to [droppedFrames], under either policy and
    either way of asking for the next tick. *)
Lemma engineTimer_dropped (s : State) :
  shuttingDown s = false ->
  running s = true ->
  _stepOne s <> 1 ->
  let cost := now (S (reads s)) - now (reads s) in
  frameTime (engineTimer now s) = cost /\
  droppedFrames (engineTimer now s) =
    droppedFrames s +
    (if fpsClock s - cost <=? 0
     then Math_round (js_div ((fpsClock s - cost) * -1) (fpsClock s)) else 0).
Proof.
  intros Hsd Hrun Hstep. cbv zeta.
  destruct (nativeAnimationFrame s) eqn:Hnat;
    [rewrite engineTimer_native_tick by assumption | rewrite engineTimer_tick by assumption];
    split; reflexivity.
Qed.

(** A frame counts as dropped only once its cost reaches one and a half frame
    budgets: below that [droppedFrames] stays as it is, from there on it
    grows. *)
Theorem droppedFrames_threshold (s : State) :
  shuttingDown s = false ->
  running s = true ->
  _stepOne s <> 1 ->
  0 < fpsClock s ->
  let s' := engineTimer now s in
  droppedFrames s <= droppedFrames s' /\
  (droppedFrames s' = droppedFrames s <-> 2 * frameTime s' < 3 * fpsClock s).
Proof.
  intros Hsd Hrun Hstep Hpos s'. subst s'.
  destruct (engineTimer_dropped s Hsd Hrun Hstep) as [-> ->]. cbv zeta.
  set (cost := now (S (reads s)) - now (reads s)).
  destruct (Z.leb_spec (fpsClock s - cost) 0) as [Hover|Hunder].
  - pose proof (Math_round_nearest ((fpsClock s - cost) * -1) (fpsClock s) Hpos) as Hr.
    cbv zeta in Hr.
    set (r := Math_round (js_div ((fpsClock s - cost) * -1) (fpsClock s))) in *.
    split; [nia|]. split; [intros; nia | intros; nia].
  - split; [lia|]. split; [intros; lia | intros; lia].
Qed.

(** **** Starting and pausing *)

Lemma run_eq (s : State) :
  shuttingDown s = false ->
  running s = false ->
  run now s = engineTimer now (started_up now s).
Proof.
  intros Hsd Hrun. unfold run. rewrite Hsd, Hrun. cbn [orb].
  rewrite for_each_timer_eq. f_equal.
  destruct_state s. unfold started_up.
  destruct debugMode_, localMode_; evaluate; rewrite <- ?List.app_assoc; reflexivity.
Qed.

Lemma pause_eq (s : State) :
  shuttingDown s = false ->
  pause now s =
  set_pauseTime (now (reads s))
    (set_reads (S (reads s))
    (set_running false
    (set_pending
       match globalTimer s with
       | None => pending s
       | Some h => List.filter (fun p => negb (is_timeout h p)) (pending s)
       end
    (set_trace
       (trace s ++
        [Console DEBUG "Pausing all timers"] ++
        map (fun p => TimerPause (fst p) (snd p)) (timerPool s) ++
        [Console WARN ">>> Engine paused <<<"; ClearTimeout (globalTimer s)]) s)))).
Proof.
  intros Hsd. unfold pause. rewrite Hsd. rewrite for_each_timer_eq.
  destruct_state s. destruct globalTimer_; evaluate; rewrite <- ?List.app_assoc; reflexivity.
Qed.

Lemma started_up_tick (s : State) :
  shuttingDown (started_up now s) = false /\
  running (started_up now s) = true /\
  _stepOne (started_up now s) <> 1 /\
  nativeAnimationFrame (started_up now s) = nativeAnimationFrame s.
Proof. repeat split. discriminate. Qed.

Lemma timer_calls_map (m : string -> Timer -> Event) (pool : list (string * Timer)) :
  (forall name t, is_timer_call (m name t) = true) ->
  timer_calls (map (fun p => m (fst p) (snd p)) pool) = map (fun p => m (fst p) (snd p)) pool.
Proof.
  intros Hm. induction pool as [|[name t] pool IH]; [reflexivity|].
  cbn [map fst snd]. unfold timer_calls in *. cbn [List.filter]. rewrite Hm. f_equal. exact IH.
Qed.

Lemma frames_map (m : string -> Timer -> Event) (pool : list (string * Timer)) :
  (forall name t, is_timer_call (m name t) = true) ->
  frames (map (fun p => m (fst p) (snd p)) pool) = [].
Proof.
  intros Hm. induction pool as [|[name t] pool IH]; [reflexivity|].
  cbn [map fst snd]. change (m name t :: ?l) with ([m name t] ++ l).
  rewrite frames_app, IH, List.app_nil_r.
  specialize (Hm name t). destruct (m name t); try reflexivity. discriminate.
Qed.

(** What the world timer adds to the trace: no call on a pooled timer, no
    call of a shutdown callback, and one frame for every unit it adds to
    [totalFrames], which is one at most. *)
Lemma engineTimer_trace (s : State) :
  exists added,
    trace (engineTimer now s) = trace s ++ added /\
    timer_calls added = [] /\
    invocations added = [] /\
    (length (frames added) <= 1)%nat /\
    totalFrames (engineTimer now s) = totalFrames s + Z.of_nat (length (frames added)).
Proof.
  destruct (engineTimer_way s).
  - rewrite engineTimer_returns_early by assumption. exists []. rewrite List.app_nil_r.
    repeat split; [cbn; lia | cbn; lia].
  - rewrite engineTimer_step by assumption. cbv zeta. fields. eexists. split; [reflexivity|].
    destruct (defaultContext s), (metricsLoaded s); repeat split; cbn; lia.
  - rewrite engineTimer_tick by assumption. cbv zeta. fields. eexists. split; [reflexivity|].
    destruct (defaultContext s), (metricsLoaded s); repeat split; cbn; lia.
  - rewrite engineTimer_native_tick by assumption. cbv zeta. fields.
    eexists. split; [reflexivity|].
    destruct (defaultContext s), (metricsLoaded s); repeat split; cbn; lia.
  - rewrite engineTimer_stray by assumption.
    destruct (nativeAnimationFrame s); fields; eexists; (split; [reflexivity|]);
      repeat split; cbn; lia.
Qed.

Lemma pause_timers (s : State) :
  shuttingDown s = false ->
  timer_calls (trace (pause now s)) =
    timer_calls (trace s) ++ map (fun p => TimerPause (fst p) (snd p)) (timerPool s) /\
  timerPool (pause now s) = timerPool s /\
  shuttingDown (pause now s) = false /\
  running (pause now s) = false.
Proof.
  intros Hsd. rewrite pause_eq by exact Hsd. fields.
  repeat apply conj; try reflexivity; try exact Hsd.
  rewrite !timer_calls_app, timer_calls_map by reflexivity.
  cbn [timer_calls List.filter is_timer_call app]. rewrite List.app_nil_r. reflexivity.
Qed.

Lemma engineTimer_timerPool (s : State) : timerPool (engineTimer now s) = timerPool s.
Proof.
  destruct (engineTimer_way s).
  - rewrite engineTimer_returns_early by assumption. reflexivity.
  - rewrite engineTimer_step by assumption. reflexivity.
  - rewrite engineTimer_tick by assumption. reflexivity.
  - rewrite engineTimer_native_tick by assumption. reflexivity.
  - rewrite engineTimer_stray by assumption.
    destruct (nativeAnimationFrame s); reflexivity.
Qed.

Lemma run_timers (s : State) :
  shuttingDown s = false ->
  running s = false ->
  timer_calls (trace (run now s)) =
    timer_calls (trace s) ++ map (fun p => TimerRestart (fst p) (snd p)) (timerPool s) /\
  timerPool (run now s) = timerPool s /\
  running (run now s) = true.
Proof.
  intros Hsd Hrun. rewrite run_eq by assumption.
  destruct (engineTimer_trace (started_up now s)) as (added & Htr & Htc & _).
  rewrite engineTimer_timerPool, engineTimer_running, Htr.
  unfold started_up. fields.
  split; [|split; reflexivity].
  rewrite !timer_calls_app, Htc, timer_calls_map by reflexivity.
  cbn [timer_calls List.filter is_timer_call app]. rewrite !List.app_nil_r. reflexivity.
Qed.

(** [pause()] pauses every pooled timer once, in pool order; [run()] after
    it restarts every one of them once, in the same order; neither call
    touches the pool. *)
Theorem pause_run_timers (s : State) :
  shuttingDown s = false ->
  let paused := pause now s in
  let resumed := run now paused in
  timer_calls (trace paused) =
    timer_calls (trace s) ++ map (fun p => TimerPause (fst p) (snd p)) (timerPool s) /\
  timer_calls (trace resumed) =
    timer_calls (trace paused) ++ map (fun p => TimerRestart (fst p) (snd p)) (timerPool s) /\
  timerPool paused = timerPool s /\
  timerPool resumed = timerPool s /\
  running paused = false /\
  running resumed = true.
Proof.
  intros Hsd. cbv zeta.
  destruct (pause_timers s Hsd) as (Hp & Hpool & Hsd' & Hrun).
  destruct (run_timers (pause now s) Hsd' Hrun) as (Hr & Hpool' & Hrun').
  rewrite Hpool in Hr, Hpool'.
  repeat apply conj; assumption.
Qed.

Lemma filter_timeout_requests (h : nat) (l : list Pending) :
  List.filter is_frame_request
    (List.filter (fun p => negb (is_timeout h p)) l) =
  List.filter is_frame_request l.
Proof.
  induction l as [|p l IH]; [reflexivity|].
  cbn [List.filter].
  destruct (is_frame_request p) eqn:Hf.
  - assert (Ht : is_timeout h p = false).
    { unfold is_frame_request in Hf. unfold is_timeout.
      destruct (delay p); [rewrite andb_false_r in Hf; discriminate|apply andb_false_r]. }
    rewrite Ht. cbn [negb List.filter]. rewrite Hf, IH. reflexivity.
  - destruct (negb _); [cbn [List.filter]; rewrite Hf|]; exact IH.
Qed.

Lemma pause_requests (s : State) :
  shuttingDown s = false ->
  frame_requests (pause now s) = frame_requests s /\
  shuttingDown (pause now s) = false /\
  running (pause now s) = false /\
  nextHandle (pause now s) = nextHandle s /\
  globalTimer (pause now s) = globalTimer s /\
  nativeAnimationFrame (pause now s) = nativeAnimationFrame s.
Proof.
  intros Hsd. rewrite pause_eq by exact Hsd. unfold frame_requests. fields.
  repeat apply conj; try reflexivity; try exact Hsd.
  destruct (globalTimer s) as [h|]; [|reflexivity].
  apply filter_timeout_requests.
Qed.

Lemma run_requests (s : State) :
  nativeAnimationFrame s = true ->
  shuttingDown s = false ->
  running s = false ->
  frame_requests (run now s) =
    frame_requests s ++ [mkPending (nextHandle s) None CallEngineTimer] /\
  globalTimer (run now s) = globalTimer s.
Proof.
  intros Hnat Hsd Hrun. rewrite run_eq by assumption.
  destruct (started_up_tick s) as (H1 & H2 & H3 & H4).
  rewrite engineTimer_native_tick by (assumption || (rewrite H4; exact Hnat)).
  cbv zeta. unfold frame_requests, started_up. fields.
  rewrite List.filter_app. split; reflexivity.
Qed.

(** When ticks are requested as native animation frames, [pause()] cancels
    none of them ([clearTimeout] drops timeouts only), and [run()] asks for
    one more: an engine that is paused and resumed while a request is
    outstanding has two outstanding afterwards. *)
Theorem pause_run_native_requests (s : State) :
  nativeAnimationFrame s = true ->
  shuttingDown s = false ->
  let paused := pause now s in
  let resumed := run now paused in
  frame_requests paused = frame_requests s /\
  frame_requests resumed =
    frame_requests s ++ [mkPending (nextHandle s) None CallEngineTimer] /\
  globalTimer resumed = globalTimer s.
Proof.
  intros Hnat Hsd. cbv zeta.
  destruct (pause_requests s Hsd) as (Hreq & Hsd' & Hrun & Hh & Hg & Hn).
  rewrite <- Hn in Hnat.
  destruct (run_requests (pause now s) Hnat Hsd' Hrun) as (Hr & Hg').
  rewrite Hreq, Hh in Hr. rewrite Hg in Hg'.
  repeat apply conj; assumption.
Qed.

Lemma fire_tick (l : list Pending) (x : Pending) (t : State) :
  pending t = l ++ [x] ->
  (forall p, In p l -> handle p <> handle x) ->
  callback x = CallEngineTimer ->
  fire now (handle x) t = engineTimer now (set_pending l t).
Proof.
  intros Hp Hfresh Hcb. unfold fire. rewrite Hp.
  rewrite find_fresh, filter_fresh by (assumption || reflexivity).
  rewrite Hcb. reflexivity.
Qed.

(** Two regular ticks in a row: the delta the second frame is given is the
    time from the start of the first frame to the start of the second. *)
Theorem consecutive_frames_delta (s : State) :
  shuttingDown s = false ->
  running s = true ->
  _stepOne s <> 1 ->
  nativeAnimationFrame s = false ->
  (forall p, In p (pending s) -> handle p <> nextHandle s) ->
  let s1 := engineTimer now s in
  let s2 := fire now (nextHandle s) s1 in
  let ctx := default DocumentContext (defaultContext s) in
  worldTime s1 = now (reads s) /\
  worldTime s2 = now (S (S (reads s))) /\
  frames (trace s2) =
    frames (trace s) ++
    [(ctx, worldTime s1, worldTime s1 - lastTime s);
     (ctx, worldTime s2, worldTime s2 - worldTime s1)] /\
  totalFrames s2 = totalFrames s + 2.
Proof.
  intros Hsd Hrun Hstep Hnat Hfresh. cbv zeta.
  rewrite engineTimer_tick by assumption. cbv zeta.
  match goal with |- context [fire now _ ?t] => set (s1 := t) end.
  assert (Hf : fire now (nextHandle s) s1 = engineTimer now (set_pending (pending s) s1)).
  {    pose proof (fire_tick (pending s)
      (mkPending (nextHandle s)
         (Some (if skipFrames s
                then (if fpsClock s - (now (S (reads s)) - now (reads s)) >? 0
                      then fpsClock s - (now (S (reads s)) - now (reads s))
                      else fpsClock s)
                else fpsClock s)) CallEngineTimer) s1) as H.
    cbn [handle callback] in H. apply H; [reflexivity | exact Hfresh | reflexivity]. }
  rewrite Hf.
  rewrite engineTimer_tick by (subst s1; fields; assumption).
  cbv zeta. subst s1. fields.
  rewrite !frames_app.
  repeat apply conj; try reflexivity.
  - destruct (defaultContext s), (metricsLoaded s); cbn [frames flat_map app default];
      rewrite <- ?List.app_assoc; reflexivity.
  - lia.
Qed.

(** **** The default context and the debug flag *)

(** After [setDefaultContext(ctx)] the engine keeps [ctx]:
    [getDefaultContext()] returns it and creates nothing, a regular tick
    renders its frame on it, and it is still the default context afterwards.
    A value that is not a render context fails the assertion and leaves the
    engine as it was. *)
Theorem setDefaultContext_is_rendered (ctx : RenderContext) (s : State) :
  shuttingDown s = false ->
  running s = true ->
  _stepOne s <> 1 ->
  (exists s1,
    setDefaultContext (Some ctx) s = Done s1 /\
    getDefaultContext s1 = (Some ctx, s1) /\
    frames (trace (engineTimer now s1)) =
      frames (trace s) ++ [(ctx, now (reads s), now (reads s) - lastTime s)] /\
    defaultContext (engineTimer now s1) = Some ctx) /\
  (exists message, setDefaultContext None s = AssertionFailed message s).
Proof.
  intros Hsd Hrun Hstep. split; [|eexists; reflexivity].
  eexists. split; [reflexivity|]. split; [reflexivity|].
  destruct (nativeAnimationFrame s) eqn:Hnat;
    [rewrite engineTimer_native_tick by (fields; assumption)
    |rewrite engineTimer_tick by (fields; assumption)];
    cbv zeta; fields; rewrite !frames_app;
    (split; [|reflexivity]);
    destruct (metricsLoaded s); cbn [frames flat_map app default];
    rewrite ?List.app_nil_r; reflexivity.
Qed.

(** [run()] announces the mode set with [setDebugMode]: after the timers are
    restarted it logs ">>> Engine started. " followed by the banner for the
    debug flag just set and the local flag, "[ LOCAL]" (with the blank) when
    only the local flag is set, and nothing when neither is. *)
Theorem run_announces_mode (mode : bool) (s : State) :
  shuttingDown s = false ->
  running s = false ->
  let s1 := setDebugMode mode s in
  getDebugMode s1 = mode /\
  exists added,
    trace (run now s1) =
      trace s ++
      map (fun p => TimerRestart (fst p) (snd p)) (timerPool s) ++
      [Console WARN (">>> Engine started. " +:+ banner mode (localMode s));
       Console DEBUG ">>> sysinfo: "] ++
      added /\
    timer_calls added = [].
Proof.
  intros Hsd Hrun. cbv zeta. split; [reflexivity|].
  rewrite run_eq by assumption.
  destruct (engineTimer_trace (started_up now (setDebugMode mode s)))
    as (added & Htr & Htc & _).
  exists added. split; [|exact Htc].
  rewrite Htr. unfold started_up, setDebugMode, set_debugMode. fields.
  rewrite <- !List.app_assoc. reflexivity.
Qed.

End FrameLoop.

(** * Properties of the search by id *)

Section SceneGraph.

Import Engine.

Lemma search_Container (id : string) (c : option string) (contents : list SceneObject) :
  search id (Container c contents) =
  (IteratorCreate :: fst (walk id (search id) contents),
   snd (walk id (search id) contents)).
Proof. reflexivity. Qed.

(** What is found has the id asked for, and lies below the container. *)
Lemma search_sound (id : string) (container found : SceneObject) :
  snd (search id container) = Some found ->
  has_id id found = true /\ In found (objects container).
Proof.
  revert found. induction container as [c|c contents IH] using SceneObject_nested_ind;
    intros found; [discriminate|].
  rewrite search_Container. cbn [snd objects].
  induction IH as [|obj rest Hobj _ IHrest]; cbn [walk flat_map]; [discriminate|].
  destruct (has_id id obj) eqn:Hid.
  - cbn [snd]. intros [= <-]. split; [exact Hid | left; reflexivity].
  - destruct obj as [i|i kids].
    + intros H. destruct (IHrest H) as [H1 H2]. split; [exact H1|].
      right. cbn [objects app]. exact H2.
    + intros H. destruct (Hobj found H) as [H1 H2]. split; [exact H1|].
      right. apply in_app_iff. left. exact H2.
Qed.

Lemma walk_items (id : string) (f : SceneObject -> list IteratorCall * option SceneObject)
    (contents : list SceneObject) :
  forallb is_item contents = true ->
  walk id f contents = ([IteratorDestroy], List.find (has_id id) contents).
Proof.
  induction contents as [|obj rest IH]; cbn [forallb walk List.find]; [reflexivity|].
  intros [Hobj Hrest]%andb_prop. destruct (has_id id obj); [reflexivity|].
  destruct obj; [apply IH, Hrest | discriminate].
Qed.

Lemma walk_cut (id : string) (f : SceneObject -> list IteratorCall * option SceneObject)
    (before after : list SceneObject) (inner : SceneObject) :
  forallb is_item before = true ->
  List.find (has_id id) before = None ->
  is_item inner = false ->
  has_id id inner = false ->
  walk id f (before ++ inner :: after) = f inner.
Proof.
  intros Hitems Hnone Hinner Hid.
  induction before as [|obj rest IH]; cbn [app walk].
  - rewrite Hid. destruct inner; [discriminate | reflexivity].
  - cbn [forallb List.find] in Hitems, Hnone.
    apply andb_prop in Hitems as [Hobj Hrest].
    destruct (has_id id obj); [discriminate|].
    destruct obj; [apply IH; assumption | discriminate].
Qed.


(** What [getObject] returns has the id asked for and lies below the default
    context, which is created first if the engine has none. *)
Theorem getObject_sound (scene : RenderContext -> SceneObject) (id : string) (s : State)
    (found : SceneObject) :
  snd (fst (getObject scene id s)) = Some found ->
  let ctx := default DocumentContext (defaultContext s) in
  has_id id found = true /\
  In found (objects (scene ctx)) /\
  defaultContext (snd (getObject scene id s)) = Some ctx.
Proof.
  unfold getObject, getDefaultContext.
  destruct (defaultContext s) as [ctx|] eqn:Hctx; cbn [default from_option Datatypes.id fst snd].
  - rewrite Hctx. cbn [fst snd]. intros H.
    destruct (search_sound id (scene ctx) found H). auto.
  - cbn [Engine.defaultContext set_defaultContext fst snd]. intros H.
    destruct (search_sound id (scene DocumentContext) found H). auto.
Qed.

(** In a context that holds no container the search is complete: the first
    object with the id is returned, and the one iterator created is
    destroyed. *)
Theorem getObject_flat (scene : RenderContext -> SceneObject) (id : string) (s : State)
    (c : option string) (contents : list SceneObject) :
  scene (default DocumentContext (defaultContext s)) = Container c contents ->
  forallb is_item contents = true ->
  fst (getObject scene id s) =
    ([IteratorCreate; IteratorDestroy], List.find (has_id id) contents).
Proof.
  intros Hscene Hitems. unfold getObject, getDefaultContext.
  destruct (defaultContext s) as [ctx|] eqn:Hctx; cbn [default from_option Datatypes.id] in Hscene.
  - rewrite Hctx. cbn [fst]. rewrite Hscene, search_Container, walk_items by exact Hitems.
    reflexivity.
  - cbn [Engine.defaultContext set_defaultContext fst].
    rewrite Hscene, search_Container, walk_items by exact Hitems. reflexivity.
Qed.

(** The search goes into the first container it meets and returns what it
    finds there: whatever the context holds after that container plays no
    part in the result. *)
Theorem getObject_first_container_only (scene : RenderContext -> SceneObject) (id : string)
    (s : State) (c : option string) (before after : list SceneObject) (inner : SceneObject) :
  scene (default DocumentContext (defaultContext s)) = Container c (before ++ inner :: after) ->
  forallb is_item before = true ->
  List.find (has_id id) before = None ->
  is_item inner = false ->
  has_id id inner = false ->
  fst (getObject scene id s) =
    (IteratorCreate :: fst (search id inner), snd (search id inner)).
Proof.
  intros Hscene Hitems Hnone Hinner Hid. unfold getObject, getDefaultContext.
  destruct (defaultContext s) as [ctx|] eqn:Hctx; cbn [default from_option Datatypes.id] in Hscene.
  - rewrite Hctx. cbn [fst]. rewrite Hscene, search_Container, walk_cut by assumption.
    reflexivity.
  - cbn [Engine.defaultContext set_defaultContext fst].
    rewrite Hscene, search_Container, walk_cut by assumption. reflexivity.
Qed.


End SceneGraph.

(** * Properties of the event bookkeeping over an object's life *)

Section EventBookkeeping.

Import BaseObject.

Lemma append_cons (c : Ascii.ascii) (a b : string) :
  String c a +:+ b = String c (a +:+ b).
Proof. reflexivity. Qed.

Lemma after_comma_app (a b : string) :
  has_comma a = false -> after_comma (a +:+ "," +:+ b) = Some b.
Proof.
  unfold has_comma. induction a as [|c a IH].
  - reflexivity.
  - rewrite append_cons. cbn [after_comma].
    destruct (Ascii.eqb c comma); [discriminate | exact IH].
Qed.

Lemma until_comma_id (a : string) : has_comma a = false -> until_comma a = a.
Proof.
  unfold has_comma. induction a as [|c a IH]; cbn [until_comma after_comma]; [reflexivity|].
  destruct (Ascii.eqb c comma); [discriminate|]. intros H. f_equal. apply IH, H.
Qed.

Lemma split_1_event_key (r : Ref) (type : string) :
  has_comma (ref_getName r) = false ->
  has_comma type = false ->
  split_1 (event_key (Some r) type) = Some type.
Proof.
  intros Hn Ht. unfold split_1, event_key.
  rewrite after_comma_app by exact Hn. cbn. f_equal. apply until_comma_id, Ht.
Qed.

Lemma get_set_events_insert (key : string) (v : JsValue) (m : gmap string JsValue)
    (o : Object) :
  get key (set_events (<[key := v]> m) o) = v.
Proof. unfold get. cbn [events set_events]. rewrite lookup_insert_eq. reflexivity. Qed.

Lemma get_set_events_delete (key : string) (m : gmap string JsValue) (o : Object) :
  get key (set_events (delete key m) o) = Undefined.
Proof. unfold get. cbn [events set_events]. rewrite lookup_delete_eq. reflexivity. Qed.

(** An event added by a named owner and removed again.  [addEvent] attaches
    the handler with [data || fn] and remembers [data] if it is a function,
    else [fn]; [removeEvent] detaches what was remembered, if it is truthy,
    and deletes the entry, so that an object which had no entry under the
    key is back as it was.  On an object without an element neither call
    does anything. *)
Theorem addEvent_removeEvent_round_trip (ref : Ref) (type : string) (data fn : JsValue)
    (o : Object) :
  let key := event_key (Some ref) type in
  let func := if isFunction data then data else fn in
  let added := addEvent (Some ref) type data fn o in
  let removed := removeEvent (Some ref) type (snd added) in
  (forall el,
      element o = Some el ->
      (exists message,
          fst added = [ConsoleInfo message;
                       SetHandler (OnElement el) type (or_else data fn) fn]) /\
      events (snd added) !! key = Some func /\
      (truthy func = true ->
       exists message,
         fst removed = [ConsoleInfo message; ClearHandler (OnElement el) type func]) /\
      (truthy func = false -> fst removed = []) /\
      events (snd removed) = delete key (events o) /\
      (events o !! key = None -> snd removed = o)) /\
  (element o = None -> added = ([], o) /\ removed = ([], o)).
Proof.
  intros key func added removed. subst key func added removed. split.
  - intros el He. unfold addEvent, removeEvent, getElement. rewrite He.
    cbn [fst snd events set_events element]. rewrite He.
    cbn [fst snd events set_events element event_key].
    rewrite get_set_events_insert, lookup_insert_eq.
    repeat apply conj.
    + eexists. reflexivity.
    + reflexivity.
    + intros ->. eexists. reflexivity.
    + intros ->. reflexivity.
    + apply delete_insert_eq.
    + intros Hfree. rewrite delete_insert_eq, delete_id by exact Hfree.
      destruct o; reflexivity.
  - intros He. unfold addEvent, removeEvent, getElement. rewrite He.
    cbn [snd]. rewrite He. split; reflexivity.
Qed.

(** A global assignment ([null] owner) attaches the handler to the document
    body but remembers [undefined] under ["document," + type]: the matching
    [removeEvent] hands [undefined] to [clearHandler], never the handler
    that was attached, and leaves the entry in the map. *)
Theorem addEvent_global_forgets_handler (type : string) (data fn : JsValue) (o : Object) :
  let key := event_key None type in
  let added := addEvent None type data fn o in
  let removed := removeEvent None type (snd added) in
  (exists message,
      fst added = [ConsoleInfo message; SetHandler DocumentBody type (or_else data fn) fn]) /\
  events (snd added) !! key = Some Undefined /\
  (exists message,
      fst removed = [ConsoleInfo message; ClearHandler DocumentBody type Undefined]) /\
  snd removed = snd added.
Proof.
  cbv zeta. unfold addEvent, removeEvent.
  cbn [fst snd events set_events event_key].
  rewrite get_set_events_insert, lookup_insert_eq.
  repeat apply conj; try reflexivity; eexists; reflexivity.
Qed.

(** Two [addEvent] calls by the same owner for the same type attach two
    handlers but remember the second alone: [removeEvent] detaches no other
    handler than that one, and a second [removeEvent] detaches nothing. *)
Theorem addEvent_twice_keeps_last (ref : Ref) (type : string) (d1 f1 d2 f2 : JsValue)
    (o : Object) (el : Element) :
  element o = Some el ->
  let key := event_key (Some ref) type in
  let func2 := if isFunction d2 then d2 else f2 in
  let first := addEvent (Some ref) type d1 f1 o in
  let second := addEvent (Some ref) type d2 f2 (snd first) in
  let removed := removeEvent (Some ref) type (snd second) in
  (exists m1 m2,
      fst first = [ConsoleInfo m1; SetHandler (OnElement el) type (or_else d1 f1) f1] /\
      fst second = [ConsoleInfo m2; SetHandler (OnElement el) type (or_else d2 f2) f2]) /\
  events (snd second) !! key = Some func2 /\
  (forall target t f, In (ClearHandler target t f) (fst removed) -> f = func2) /\
  fst (removeEvent (Some ref) type (snd removed)) = [].
Proof.
  intros He key func2 first second removed. subst key func2 first second removed.
  unfold addEvent, removeEvent, getElement. rewrite He.
  cbn [fst snd events set_events element]. rewrite He.
  cbn [fst snd events set_events element]. rewrite He.
  cbn [fst snd events set_events element event_key]. rewrite ?He.
  rewrite get_set_events_insert, get_set_events_delete, lookup_insert_eq. cbn [truthy].
  repeat apply conj.
  - do 2 eexists. split; reflexivity.
  - reflexivity.
  - intros target t f.
    destruct (truthy (if isFunction d2 then d2 else f2)); cbn [In];
      [intros [H|[H|[]]]; congruence | tauto].
  - reflexivity.
Qed.

Lemma in_clear_entry (el el' : option Element) (entry : string * JsValue)
    (type : option string) (fn : JsValue) :
  In (ClearHandlerOn el' type fn) (clear_entry el entry) <->
  el' = el /\ type = split_1 entry.1 /\ fn = entry.2 /\ truthy fn = true.
Proof.
  unfold clear_entry. destruct (truthy entry.2) eqn:Ht; cbn [In].
  - split.
    + intros [[= <- <- <-]|[]]. auto.
    + intros (-> & -> & -> & _). left. reflexivity.
  - split; [tauto|]. intros (_ & _ & -> & H). congruence.
Qed.

Lemma in_destroy_clear (o : Object) (el : option Element) (type : option string)
    (fn : JsValue) :
  In (ClearHandlerOn el type fn) (fst (destroy o)) <->
  el = element o /\ truthy fn = true /\
  exists key, events o !! key = Some fn /\ type = split_1 key.
Proof.
  unfold destroy. cbn [fst]. rewrite !in_app_iff, in_flat_map.
  split.
  - intros [((key & f) & Hin & Hc)|[H|H]].
    + apply in_clear_entry in Hc. cbn [fst snd] in Hc.
      destruct Hc as (-> & -> & -> & Ht).
      apply list_elem_of_In, elem_of_map_to_list in Hin.
      repeat split; [exact Ht|]. exists key. split; [exact Hin | reflexivity].
    + destruct (element o) as [[|n]|]; cbn [In] in H; try tauto.
      destruct H as [H|[]]. discriminate.
    + destruct H as [H|[]]. discriminate.
  - intros (-> & Ht & key & Hk & ->). left. exists (key, fn). split.
    + apply list_elem_of_In, elem_of_map_to_list. exact Hk.
    + apply in_clear_entry. auto.
Qed.

(** [destroy()] detaches what the object remembers: every truthy handler
    remembered for a named owner is cleared from the object's element under
    its event type (owner name and type holding no comma), and nothing is
    cleared that is not a truthy entry of the map, under the type read off
    its key.  The element is emptied and removed exactly when there is one
    and it is not the document, and the inherited [destroy] is called last,
    once. *)
Theorem destroy_detaches_remembered (o : Object) :
  let calls := fst (destroy o) in
  (forall ref type fn,
      has_comma (ref_getName ref) = false ->
      has_comma type = false ->
      events o !! event_key (Some ref) type = Some fn ->
      truthy fn = true ->
      In (ClearHandlerOn (element o) (Some type) fn) calls) /\
  (forall el type fn,
      In (ClearHandlerOn el type fn) calls ->
      el = element o /\ truthy fn = true /\
      exists key, events o !! key = Some fn /\ type = split_1 key) /\
  (forall el, In (ElementRemove el) calls <-> element o = Some el /\ el <> Document) /\
  (exists before, calls = before ++ [BaseDestroy] /\ ~ In BaseDestroy before).
Proof.
  cbv zeta. repeat apply conj.
  - intros ref type fn Hn Ht Hk Hfn. apply in_destroy_clear.
    repeat split; [exact Hfn|]. exists (event_key (Some ref) type).
    split; [exact Hk|]. symmetry. apply split_1_event_key; assumption.
  - intros el type fn. apply in_destroy_clear.
  - intros el. unfold destroy. cbn [fst]. rewrite !in_app_iff, in_flat_map. split.
    + intros [((key & f) & _ & Hc)|[H|H]].
      * unfold clear_entry in Hc. destruct (truthy (key, f).2); cbn [In] in Hc;
          [destruct Hc as [Hc|[]]; discriminate | tauto].
      * destruct (element o) as [[|n]|]; cbn [In] in H; try tauto.
        destruct H as [[= <-]|[]]. split; [reflexivity | discriminate].
      * destruct H as [H|[]]. discriminate.
    + intros [-> Hne]. right. left. destruct el; [congruence | left; reflexivity].
  - unfold destroy. cbn [fst]. eexists. rewrite List.app_assoc. split; [reflexivity|].
    rewrite in_app_iff, in_flat_map. intros [((key & f) & _ & Hc)|H].
    + unfold clear_entry in Hc. destruct (truthy (key, f).2); cbn [In] in Hc;
        [destruct Hc as [Hc|[]]; discriminate | tauto].
    + destruct (element o) as [[|n]|]; cbn [In] in H; try tauto.
      destruct H as [H|[]]. discriminate.
Qed.

(** [destroy()] after a global assignment: whatever it clears is an entry
    the object had before under another key; the handler attached to the
    document body is not among the calls. *)
Theorem destroy_leaves_global_handler (type : string) (data fn : JsValue) (o : Object) :
  let o1 := snd (addEvent None type data fn o) in
  forall el t f,
    In (ClearHandlerOn el t f) (fst (destroy o1)) ->
    exists key, key <> event_key None type /\ events o !! key = Some f.
Proof.
  intros o1 el t f Hin. subst o1. apply in_destroy_clear in Hin.
  destruct Hin as (_ & Ht & key & Hk & _).
  unfold addEvent in Hk. cbn [snd events set_events] in Hk.
  exists key. destruct (decide (key = event_key None type)) as [->|Hne].
  - unfold event_key in Hk. rewrite lookup_insert_eq in Hk.
    injection Hk as <-. discriminate.
  - split; [exact Hne|]. unfold event_key in Hne.
    rewrite lookup_insert_ne in Hk by congruence. exact Hk.
Qed.

Lemma history_cached (es : list (option Element)) (w : Element) (o : Object) :
  (history es (Some w) o).1 = Some w.
Proof.
  revert o. induction es as [|e es IH]; intros o; [reflexivity|].
  unfold history in *. cbn [fold_left fst snd]. unfold jQ at 2. apply IH.
Qed.

(** [jQ()] wraps the element once: over any series of [setElement] calls,
    each followed by [jQ()], the wrapper returned at the end is that of the
    first element that was not null, whatever elements were set later. *)
Theorem jQ_keeps_first_wrapper (es : list (option Element)) (o : Object) :
  (history es None o).1 = head (omap id es).
Proof.
  revert o. induction es as [|e es IH]; intros o; [reflexivity|].
  destruct e as [el|].
  - change (history (Some el :: es) None o)
      with (history es (jQ None (setElement (Some el) o)) (setElement (Some el) o)).
    cbn [jQ setElement element omap id head]. apply history_cached.
  - change (history (None :: es) None o)
      with (history es (jQ None (setElement None o)) (setElement None o)).
    cbn [jQ setElement element omap id]. apply IH.
Qed.

End EventBookkeeping.

(** * Properties of the render cache over a series of passes *)

Section RenderCacheSeries.

Import Billboard2D.

(** A pass that draws, in full. *)
Lemma execute_drawing_pass (env : Host) (time dt : Z) (this : Billboard) :
  baseExecute env = true ->
  let box := boundingBox env in
  let fresh := mkImage (rendered env) (w box) (h box) in
  exists b,
    execute env time dt this = Returned b /\
    mode b = (if is_redraw this then Some NORMAL else mode this) /\
    billboard b = (if is_redraw this then Some fresh else billboard this) /\
    renderComponent b = renderComponent this /\
    hostRect b = hostRect this /\
    calls b =
      calls this ++
      [BaseExecute time dt; PointCreate] ++
      (if is_redraw this
       then match billboard this with None => [CreateImage] | Some _ => [] end ++
            [RenderComponentToImage (renderComponent this) (w box) (h box)]
       else []) ++
      [TransformOrigin true] ++
      match billboard b with Some img => [DrawImage box img] | None => [] end ++
      (if debugMode env then [SetLineStyle "green"; DrawRectangle box] else []) ++
      [TransformOrigin false; PointDestroy].
Proof.
  intros Hbase box fresh. subst box fresh.
  unfold execute. rewrite Hbase. cbn [negb].
  destruct this as [bb md rc hr cs].
  unfold is_redraw, blit.
  destruct md as [[|]|], bb as [img|], (drawImageFails env), (debugMode env);
    cbn [mode billboard renderComponent hostRect calls perform set_billboard set_mode
         try_catch andThen];
    eexists; (split; [reflexivity|]);
    cbn [mode billboard renderComponent hostRect calls perform set_billboard set_mode];
    rewrite <- ?List.app_assoc; repeat split; reflexivity.
Qed.

(** Every pass returns, leaves the linked component and [hostRect] alone, and
    is balanced: it destroys as many points as it creates and moves the
    transform origin back as often as it moves it, whether or not the image
    could be drawn. *)
Theorem execute_balanced (env : Host) (time dt : Z) (this : Billboard) :
  exists b added,
    execute env time dt this = Returned b /\
    calls b = calls this ++ added /\
    renderComponent b = renderComponent this /\
    hostRect b = hostRect this /\
    occurrences PointCreate added = occurrences PointDestroy added /\
    occurrences (TransformOrigin true) added = occurrences (TransformOrigin false) added.
Proof.
  destruct (baseExecute env) eqn:Hbase.
  - destruct (execute_drawing_pass env time dt this Hbase) as (b & Hex & _ & _ & Hrc & Hr & Hc).
    exists b. eexists. split; [exact Hex|]. split; [exact Hc|].
    split; [exact Hrc|]. split; [exact Hr|].
    destruct (is_redraw this), (billboard this), (billboard b), (debugMode env);
      split; reflexivity.
  - exists (perform (BaseExecute time dt) this), [BaseExecute time dt].
    split; [apply execute_not_drawing, Hbase|]. repeat split; reflexivity.
Qed.

Lemma renderings_perform (c : Call) (b : Billboard) :
  renderings (perform c b) = (renderings b + if is_rendering c then 1 else 0)%nat.
Proof.
  unfold renderings. cbn [calls perform]. rewrite List.filter_app, List.length_app.
  cbn [List.filter]. destruct (is_rendering c); reflexivity.
Qed.

Lemma image_creations_perform (c : Call) (b : Billboard) :
  image_creations (perform c b) =
  (image_creations b + if is_image_creation c then 1 else 0)%nat.
Proof.
  unfold image_creations. cbn [calls perform]. rewrite List.filter_app, List.length_app.
  cbn [List.filter]. destruct (is_image_creation c); reflexivity.
Qed.

(** What one pass adds to the two counts. *)
Lemma execute_counts (env : Host) (time dt : Z) (this : Billboard) :
  let redrawn := baseExecute env && is_redraw this in
  exists b,
    execute env time dt this = Returned b /\
    renderings b = (renderings this + if redrawn then 1 else 0)%nat /\
    mode b = (if redrawn then Some NORMAL else mode this) /\
    (redrawn = false -> billboard b = billboard this) /\
    image_creations b =
      (image_creations this +
       if redrawn then match billboard this with None => 1 | Some _ => 0 end else 0)%nat /\
    (billboard this <> None -> billboard b <> None) /\
    (redrawn = true -> billboard b <> None).
Proof.
  destruct (baseExecute env) eqn:Hbase; cbn [andb]; cbv zeta.
  - destruct (execute_drawing_pass env time dt this Hbase)
      as (b & Hex & Hm & Hb & _ & _ & Hc).
    exists b. split; [exact Hex|].
    unfold renderings, image_creations. rewrite Hc, Hb.
    rewrite !List.filter_app, !List.length_app.
    destruct (is_redraw this), (billboard this), (debugMode env);
      cbn [List.filter is_rendering is_image_creation length app Nat.add];
      repeat split; try congruence; try lia.
  - exists (perform (BaseExecute time dt) this).
    split; [apply execute_not_drawing, Hbase|].
    rewrite renderings_perform, image_creations_perform.
    cbn [is_rendering is_image_creation mode billboard perform].
    repeat split; try congruence; lia.
Qed.

(** Over any series of passes the linked component is rendered to an image
    once at most: once if the billboard starts in REDRAW mode and one of the
    passes draws, and then the billboard ends in NORMAL mode; otherwise not
    at all, and mode and image are as they were. *)
Theorem billboard_renders_once (envs : list (Host * Z * Z)) (this : Billboard) :
  let redrawn := is_redraw this && drew envs in
  exists b,
    passes envs this = Returned b /\
    renderings b = (renderings this + if redrawn then 1 else 0)%nat /\
    mode b = (if redrawn then Some NORMAL else mode this) /\
    (redrawn = false -> billboard b = billboard this).
Proof.
  cbv zeta. revert this. induction envs as [|[[env time] dt] envs IH]; intros this.
  - exists this. cbn [drew existsb]. rewrite andb_false_r.
    repeat split; try reflexivity. lia.
  - destruct (execute_counts env time dt this) as (b1 & Hex & Hr & Hm & Hb & _).
    destruct (IH b1) as (b & Hps & Hr' & Hm' & Hb').
    exists b. cbn [passes]. rewrite Hex. cbn [andThen]. split; [exact Hps|].
    rewrite Hr', Hm', Hr, Hm. unfold drew in *. cbn [existsb fst].
    assert (Hred : is_redraw b1 = is_redraw this && negb (baseExecute env)).
    { unfold is_redraw. rewrite Hm. unfold is_redraw.
      destruct (baseExecute env), (mode this) as [[|]|]; reflexivity. }
    rewrite Hred in *.
    destruct (baseExecute env), (is_redraw this), (existsb _ envs);
      cbn [andb orb negb] in *; repeat split; try reflexivity; try lia; try discriminate.
    all: intros _; rewrite Hb' by reflexivity; apply Hb; reflexivity.
Qed.

(** What one use adds to the count of images created. *)
Lemma use_image (u : Use) (this : Billboard) :
  let b := result (use u this) in
  (image_creations b + match billboard b with None => 1 | Some _ => 0 end
   <= image_creations this + match billboard this with None => 1 | Some _ => 0 end)%nat /\
  (image_creations this <= image_creations b)%nat /\
  (billboard this <> None -> billboard b <> None).
Proof.
  destruct u as [name rc priority|env time dt| |]; cbn [use]; cbv zeta.
  - unfold constructor. destruct (kind rc); cbn [result];
      rewrite ?image_creations_perform; cbn [is_image_creation billboard perform
        set_mode set_renderComponent];
      unfold image_creations; cbn [calls set_mode set_renderComponent perform];
      rewrite ?List.filter_app, ?List.length_app; cbn [List.filter is_image_creation length];
      repeat split; try lia; try tauto.
  - destruct (execute_counts env time dt this) as (b & -> & _ & _ & Hb & Hi & Hk & Hk').
    cbn [result]. rewrite Hi.
    destruct (baseExecute env && is_redraw this) eqn:Hred.
    + specialize (Hk' eq_refl). destruct (billboard b); [|congruence].
      destruct (billboard this); repeat split; try lia; congruence.
    + rewrite (Hb eq_refl). repeat split; try lia; tauto.
  - cbn [result]. unfold regenerate. rewrite image_creations_perform.
    cbn [is_image_creation billboard perform set_hostRect set_mode].
    unfold image_creations. cbn [calls set_hostRect set_mode].
    repeat split; try lia; tauto.
  - cbn [result]. unfold release, image_creations.
    cbn [calls billboard set_renderComponent set_mode perform].
    rewrite List.filter_app, List.length_app. cbn [List.filter is_image_creation length].
    repeat split; try lia; tauto.
Qed.

(** Over a component's whole life in the pool (constructed, executed,
    regenerated, released, in any order and number) the [<img/>] element is
    created once at most, and never again once the component has one:
    neither [release] nor the constructor drops it. *)
Theorem image_created_at_most_once (uses : list Use) (this : Billboard) :
  let b := result (lifetime uses this) in
  (image_creations this <= image_creations b <= image_creations this + 1)%nat /\
  (billboard this <> None ->
   image_creations b = image_creations this /\ billboard b <> None).
Proof.
  cbv zeta.
  assert (H : forall this,
             let b := result (lifetime uses this) in
             (image_creations b + match billboard b with None => 1 | Some _ => 0 end
              <= image_creations this + match billboard this with None => 1 | Some _ => 0 end)%nat /\
             (image_creations this <= image_creations b)%nat /\
             (billboard this <> None -> billboard b <> None)).
  { clear this. induction uses as [|u uses IH]; intros this; cbv zeta.
    - cbn [lifetime result]. repeat split; try lia; tauto.
    - cbn [lifetime]. destruct (use_image u this) as (H1 & H2 & H3).
      destruct (use u this) as [b1|ex b1]; cbn [andThen result] in *.
      + destruct (IH b1) as (H4 & H5 & H6). cbv zeta in H4, H5, H6.
        repeat split; try lia. tauto.
      + repeat split; try lia; tauto. }
  destruct (H this) as (H1 & H2 & H3). cbv zeta in H1, H2, H3.
  split.
  - destruct (billboard (result (lifetime uses this))), (billboard this); lia.
  - intros Hb. specialize (H3 Hb). split; [|exact H3].
    destruct (billboard (result (lifetime uses this))), (billboard this); try congruence; lia.
Qed.

End RenderCacheSeries.

(** * The properties above, on the scenarios *)

Ltac computed := vm_compute; first [reflexivity | discriminate | auto].

Section FrameLoopWitnesses.

Import Engine.



Lemma droppedFrames_threshold_witness :
  fpsClock Scenario.running = 16 /\
  frameTime (engineTimer Scenario.clock Scenario.running) = 40 /\
  droppedFrames Scenario.running <= droppedFrames (engineTimer Scenario.clock Scenario.running) /\
  (droppedFrames (engineTimer Scenario.clock Scenario.running) = droppedFrames Scenario.running
   <-> 2 * frameTime (engineTimer Scenario.clock Scenario.running)
       < 3 * fpsClock Scenario.running).
Proof.
  assert (Hsd : shuttingDown Scenario.running = false) by computed.
  assert (Hrun : running Scenario.running = true) by computed.
  assert (Hstep : _stepOne Scenario.running <> 1) by computed.
  assert (Hpos : 0 < fpsClock Scenario.running) by computed.
  split; [computed|]. split; [computed|].
  exact (droppedFrames_threshold Scenario.clock Scenario.running Hsd Hrun Hstep Hpos).
Defined.

Lemma pause_run_timers_witness :
  shuttingDown Scenario.running = false /\
  timer_calls (trace (run Scenario.clock (pause Scenario.clock Scenario.running))) =
    [TimerRestart "spawn" 2%nat; TimerRestart "blink" 1%nat;
     TimerPause "spawn" 2%nat; TimerPause "blink" 1%nat;
     TimerRestart "spawn" 2%nat; TimerRestart "blink" 1%nat].
Proof.
  assert (Hsd : shuttingDown Scenario.running = false) by computed.
  pose proof (pause_run_timers Scenario.clock Scenario.running Hsd) as H.
  cbv zeta in H. destruct H as (Hp & Hr & _).
  split; [exact Hsd|].
  etransitivity; [exact Hr|]. rewrite Hp. computed.
Defined.

Lemma pause_run_native_requests_witness :
  nativeAnimationFrame Scenario.native = true /\
  shuttingDown Scenario.native = false /\
  frame_requests Scenario.native = [mkPending 0%nat None CallEngineTimer] /\
  frame_requests (run Scenario.clock (pause Scenario.clock Scenario.native)) =
    [mkPending 0%nat None CallEngineTimer; mkPending 1%nat None CallEngineTimer].
Proof.
  assert (Hnat : nativeAnimationFrame Scenario.native = true) by computed.
  assert (Hsd : shuttingDown Scenario.native = false) by computed.
  pose proof (pause_run_native_requests Scenario.clock Scenario.native Hnat Hsd) as H.
  cbv zeta in H. destruct H as (_ & Hr & _).
  split; [exact Hnat|]. split; [exact Hsd|]. split; [computed|].
  etransitivity; [exact Hr | computed].
Defined.

Lemma consecutive_frames_delta_witness :
  running Scenario.running = true /\
  nativeAnimationFrame Scenario.running = false /\
  frames (trace (fire Scenario.clock (nextHandle Scenario.running)
                   (engineTimer Scenario.clock Scenario.running))) =
    [(DocumentContext, 1010, 16); (DocumentContext, 1026, 16); (DocumentContext, 2000, 974)].
Proof.
  assert (Hsd : shuttingDown Scenario.running = false) by computed.
  assert (Hrun : running Scenario.running = true) by computed.
  assert (Hstep : _stepOne Scenario.running <> 1) by computed.
  assert (Hnat : nativeAnimationFrame Scenario.running = false) by computed.
  assert (Hfresh : forall p, In p (pending Scenario.running) ->
                             handle p <> nextHandle Scenario.running).
  { assert (Hpend : pending Scenario.running = [mkPending 0%nat (Some 11) CallEngineTimer])
      by computed.
    assert (Hnext : nextHandle Scenario.running = 1%nat) by computed.
    intros p Hp. rewrite Hpend in Hp. rewrite Hnext.
    destruct Hp as [<-|[]]. discriminate. }
  pose proof (consecutive_frames_delta Scenario.clock Scenario.running
                Hsd Hrun Hstep Hnat Hfresh) as H.
  cbv zeta in H. destruct H as (_ & _ & Hf & _).
  split; [exact Hrun|]. split; [exact Hnat|].
  etransitivity; [exact Hf | computed].
Defined.

Lemma setDefaultContext_is_rendered_witness :
  defaultContext Scenario.running = Some DocumentContext /\
  exists s1,
    setDefaultContext (Some (CustomContext 7)) Scenario.running = Done s1 /\
    frames (trace (engineTimer Scenario.clock s1)) =
      [(DocumentContext, 1010, 16); (CustomContext 7, 1026, 16)].
Proof.
  assert (Hsd : shuttingDown Scenario.running = false) by computed.
  assert (Hrun : running Scenario.running = true) by computed.
  assert (Hstep : _stepOne Scenario.running <> 1) by computed.
  destruct (setDefaultContext_is_rendered Scenario.clock (CustomContext 7) Scenario.running
              Hsd Hrun Hstep) as ((s1 & Hs1 & _ & Hf & _) & _).
  split; [computed|]. exists s1. split; [exact Hs1|].
  etransitivity; [exact Hf | computed].
Defined.

Lemma run_announces_mode_witness :
  running Scenario.paused = false /\
  exists added,
    trace (run Scenario.clock (setDebugMode true Scenario.paused)) =
      trace Scenario.paused ++
      [TimerRestart "spawn" 2%nat; TimerRestart "blink" 1%nat] ++
      [Console WARN ">>> Engine started. [DEBUG]"; Console DEBUG ">>> sysinfo: "] ++
      added.
Proof.
  assert (Hsd : shuttingDown Scenario.paused = false) by computed.
  assert (Hrun : running Scenario.paused = false) by computed.
  assert (Hpool : map (fun p => TimerRestart (fst p) (snd p)) (timerPool Scenario.paused)
                  = [TimerRestart "spawn" 2%nat; TimerRestart "blink" 1%nat]) by computed.
  assert (Hb : ">>> Engine started. " +:+ banner true (localMode Scenario.paused)
               = ">>> Engine started. [DEBUG]") by computed.
  pose proof (run_announces_mode Scenario.clock true Scenario.paused Hsd Hrun) as H.
  cbv zeta in H. destruct H as (_ & added & Htr & _).
  rewrite Hpool, Hb in Htr.
  split; [exact Hrun|]. exists added. exact Htr.
Defined.

End FrameLoopWitnesses.

Section SceneGraphWitnesses.

Import Engine.

Lemma getObject_sound_witness :
  snd (fst (getObject Scenario.scene "rock" initial)) = Some (Item (Some "rock")) /\
  In (Item (Some "rock")) (objects Scenario.stage) /\
  defaultContext (snd (getObject Scenario.scene "rock" initial)) = Some DocumentContext.
Proof.
  assert (Hfound : snd (fst (getObject Scenario.scene "rock" initial))
                   = Some (Item (Some "rock"))) by computed.
  pose proof (getObject_sound Scenario.scene "rock" initial (Item (Some "rock")) Hfound) as H.
  cbv zeta in H. destruct H as (_ & Hin & Hctx).
  split; [exact Hfound|]. split; [exact Hin | exact Hctx].
Defined.

Lemma getObject_flat_witness :
  fst (getObject Scenario.flat_scene "hud" initial) =
    ([IteratorCreate; IteratorDestroy], Some (Item (Some "hud"))).
Proof.
  assert (Hitems : forallb is_item [Item (Some "ship"); Item (Some "hud")] = true)
    by computed.
  etransitivity;
    [exact (getObject_flat Scenario.flat_scene "hud" initial (Some "context")
              [Item (Some "ship"); Item (Some "hud")] eq_refl Hitems)
    | computed].
Defined.

Lemma getObject_first_container_only_witness :
  In (Item (Some "hud")) (objects Scenario.stage) /\
  fst (getObject Scenario.scene "hud" initial) =
    ([IteratorCreate; IteratorCreate; IteratorDestroy], None).
Proof.
  split; [right; right; right; left; reflexivity|].
  assert (Hitems : forallb is_item [Item (Some "ship")] = true) by computed.
  assert (Hnone : List.find (has_id "hud") [Item (Some "ship")] = None) by computed.
  assert (Hinner : is_item (Container (Some "layer") [Item (Some "rock")]) = false)
    by computed.
  assert (Hid : has_id "hud" (Container (Some "layer") [Item (Some "rock")]) = false)
    by computed.
  etransitivity;
    [exact (getObject_first_container_only Scenario.scene "hud" initial (Some "context")
              [Item (Some "ship")] [Item (Some "hud")]
              (Container (Some "layer") [Item (Some "rock")])
              eq_refl Hitems Hnone Hinner Hid)
    | computed].
Defined.


End SceneGraphWitnesses.

Section EventBookkeepingWitnesses.

Import BaseObject.

Lemma addEvent_removeEvent_round_trip_witness :
  element Scenario.button = Some (Node 1) /\
  events Scenario.button !! event_key (Some Scenario.player) "click" = None /\
  snd (removeEvent (Some Scenario.player) "click"
         (snd (addEvent (Some Scenario.player) "click" Undefined (Function 1)
                 Scenario.button))) = Scenario.button.
Proof.
  assert (He : element Scenario.button = Some (Node 1)) by computed.
  assert (Hfree : events Scenario.button !! event_key (Some Scenario.player) "click" = None)
    by computed.
  pose proof (addEvent_removeEvent_round_trip Scenario.player "click" Undefined (Function 1)
                Scenario.button) as H.
  cbv zeta in H. destruct H as (H & _).
  destruct (H (Node 1) He) as (_ & _ & _ & _ & _ & Hback).
  split; [exact He|]. split; [exact Hfree|]. exact (Hback Hfree).
Defined.

Lemma addEvent_twice_keeps_last_witness :
  element Scenario.button = Some (Node 1) /\
  events (snd (addEvent (Some Scenario.player) "click" Undefined (Function 2)
                 (snd (addEvent (Some Scenario.player) "click" Undefined (Function 1)
                         Scenario.button))))
    !! event_key (Some Scenario.player) "click" = Some (Function 2).
Proof.
  assert (He : element Scenario.button = Some (Node 1)) by computed.
  pose proof (addEvent_twice_keeps_last Scenario.player "click" Undefined (Function 1)
                Undefined (Function 2) Scenario.button (Node 1) He) as H.
  cbv zeta in H. destruct H as (_ & H & _).
  split; [exact He | exact H].
Defined.

Lemma destroy_detaches_remembered_witness :
  has_comma (ref_getName Scenario.player) = false /\
  has_comma "click" = false /\
  events Scenario.button_clickable !! event_key (Some Scenario.player) "click"
    = Some (Function 1) /\
  In (ClearHandlerOn (Some (Node 1)) (Some "click") (Function 1))
     (fst (destroy Scenario.button_clickable)).
Proof.
  assert (Hn : has_comma (ref_getName Scenario.player) = false) by computed.
  assert (Ht : has_comma "click" = false) by computed.
  assert (Hk : events Scenario.button_clickable !! event_key (Some Scenario.player) "click"
               = Some (Function 1)) by computed.
  assert (Hfn : truthy (Function 1) = true) by computed.
  pose proof (destroy_detaches_remembered Scenario.button_clickable) as H.
  cbv zeta in H. destruct H as (H & _).
  split; [exact Hn|]. split; [exact Ht|]. split; [exact Hk|].
  exact (H Scenario.player "click" (Function 1) Hn Ht Hk Hfn).
Defined.

Lemma destroy_leaves_global_handler_witness :
  In (ClearHandlerOn (Some (Node 1)) (Some "click") (Function 1))
     (fst (destroy Scenario.button_both)) /\
  exists key,
    key <> event_key None "keydown" /\
    events Scenario.button_clickable !! key = Some (Function 1).
Proof.
  assert (Hin : In (ClearHandlerOn (Some (Node 1)) (Some "click") (Function 1))
                   (fst (destroy Scenario.button_both))) by computed.
  split; [exact Hin|].
  exact (destroy_leaves_global_handler "keydown" Undefined (Function 2)
           Scenario.button_clickable (Some (Node 1)) (Some "click") (Function 1) Hin).
Defined.

End EventBookkeepingWitnesses.

Section RenderCacheSeriesWitnesses.

Import Billboard2D.

Lemma billboard_renders_once_witness :
  is_redraw Scenario.sign = true /\
  exists b,
    passes [(Scenario.not_drawing, 1000, 16); (Scenario.drawing, 1016, 16);
            (Scenario.failing, 1032, 16); (Scenario.drawing, 1048, 16)] Scenario.sign
      = Returned b /\
    renderings b = 1%nat /\
    mode b = Some NORMAL.
Proof.
  pose proof (billboard_renders_once
                [(Scenario.not_drawing, 1000, 16); (Scenario.drawing, 1016, 16);
                 (Scenario.failing, 1032, 16); (Scenario.drawing, 1048, 16)] Scenario.sign)
    as H.
  cbv zeta in H. destruct H as (b & Hp & Hr & Hm & _).
  split; [computed|]. exists b. split; [exact Hp|]. split.
  - etransitivity; [exact Hr | computed].
  - etransitivity; [exact Hm | computed].
Defined.

Lemma image_created_at_most_once_witness :
  billboard Scenario.sign_drawn <> None /\
  image_creations Scenario.sign_drawn = 1%nat /\
  image_creations
    (result (lifetime [Release; Construct "draw" Scenario.vector None;
                       Execute Scenario.drawing 2000 16; Regenerate;
                       Execute Scenario.drawing 2016 16] Scenario.sign_drawn)) =
    image_creations Scenario.sign_drawn.
Proof.
  assert (Hb : billboard Scenario.sign_drawn <> None) by computed.
  pose proof (image_created_at_most_once
                [Release; Construct "draw" Scenario.vector None;
                 Execute Scenario.drawing 2000 16; Regenerate;
                 Execute Scenario.drawing 2016 16] Scenario.sign_drawn) as H.
  cbv zeta in H. destruct H as (_ & H).
  split; [exact Hb|]. split; [computed|]. exact (proj1 (H Hb)).
Defined.

End RenderCacheSeriesWitnesses.
